(** * agentsdk-go: a shallow embedding of the HTTP front end, the admission
    middleware, the no-follow open, the settings merge and the manifest
    canonicalisation, with the properties the specification states about
    them.

    Conventions.
    - Go [string] and [[]byte] are byte sequences: [string] (Stdlib) for
      values, [list ascii] for streams that are read incrementally.
    - Go [map[string]T] is [gmap string T]; a nil map and an empty map are
      both [∅]; a nil slice and an empty slice are both [[]] unless a
      definition says otherwise.
    - [time.Time] (monotonic reading) and [time.Duration] are integer
      nanoseconds in [Z].
    - [float64] quantities of the token bucket are exact rationals [Q]. *)

From Stdlib Require Import ZArith QArith Qminmax Lia Lqa.
From Stdlib Require Import Strings.String Strings.Ascii.
From stdpp Require Import gmap strings list sorting.

Close Scope Q_scope.
Open Scope Z_scope.

(** ** The parts of Go's standard library the program calls

    [unicode/utf8], [unicode.IsSpace], [strings.TrimSpace],
    [strings.ToLower] and [sort.Strings], written after the library's
    sources.  Bytes are [ascii]; a rune is a [Z]. *)
Module GoLib.

Definition byteZ (c : ascii) : Z := Z.of_N (N_of_ascii c).
Definition byte_of_Z (z : Z) : ascii := ascii_of_N (Z.to_N z).

Definition RuneError : Z := 0xFFFD.
Definition RuneSelf : Z := 0x80.

Definition inRange (lo hi b : Z) : bool := (lo <=? b) && (b <=? hi).
Definition isCont (b : Z) : bool := inRange 0x80 0xBF b.

(** [utf8.DecodeRune]: the rune at the head of [s] and its width; an
    invalid or short encoding is [(RuneError, 1)], the empty input
    [(RuneError, 0)]. *)
Definition DecodeRune (s : list ascii) : Z * nat :=
  match s with
  | [] => (RuneError, 0%nat)
  | c0 :: s1 =>
    let b0 := byteZ c0 in
    if b0 <? RuneSelf then (b0, 1%nat)
    else if inRange 0xC2 0xDF b0 then
      match s1 with
      | c1 :: _ =>
        if isCont (byteZ c1)
        then (Z.lor (Z.shiftl (Z.land b0 0x1F) 6) (Z.land (byteZ c1) 0x3F), 2%nat)
        else (RuneError, 1%nat)
      | _ => (RuneError, 1%nat)
      end
    else if inRange 0xE0 0xEF b0 then
      let lo := if b0 =? 0xE0 then 0xA0 else 0x80 in
      let hi := if b0 =? 0xED then 0x9F else 0xBF in
      match s1 with
      | c1 :: c2 :: _ =>
        if inRange lo hi (byteZ c1) && isCont (byteZ c2)
        then (Z.lor (Z.shiftl (Z.land b0 0x0F) 12)
               (Z.lor (Z.shiftl (Z.land (byteZ c1) 0x3F) 6)
                      (Z.land (byteZ c2) 0x3F)), 3%nat)
        else (RuneError, 1%nat)
      | _ => (RuneError, 1%nat)
      end
    else if inRange 0xF0 0xF4 b0 then
      let lo := if b0 =? 0xF0 then 0x90 else 0x80 in
      let hi := if b0 =? 0xF4 then 0x8F else 0xBF in
      match s1 with
      | c1 :: c2 :: c3 :: _ =>
        if inRange lo hi (byteZ c1) && isCont (byteZ c2) && isCont (byteZ c3)
        then (Z.lor (Z.shiftl (Z.land b0 0x07) 18)
               (Z.lor (Z.shiftl (Z.land (byteZ c1) 0x3F) 12)
                 (Z.lor (Z.shiftl (Z.land (byteZ c2) 0x3F) 6)
                        (Z.land (byteZ c3) 0x3F))), 4%nat)
        else (RuneError, 1%nat)
      | _ => (RuneError, 1%nat)
      end
    else (RuneError, 1%nat)
  end.

(** [utf8.EncodeRune] (as [utf8.AppendRune]): surrogates and values out of
    range are written as [RuneError]. *)
Definition EncodeRune (r : Z) : list ascii :=
  let cont x := byte_of_Z (Z.lor 0x80 (Z.land x 0x3F)) in
  let three x := [byte_of_Z (Z.lor 0xE0 (Z.shiftr x 12));
                  cont (Z.shiftr x 6); cont x] in
  if (0 <=? r) && (r <=? 0x7F) then [byte_of_Z r]
  else if (0 <=? r) && (r <=? 0x7FF) then
    [byte_of_Z (Z.lor 0xC0 (Z.shiftr r 6)); cont r]
  else if (r <? 0) || (0x10FFFF <? r) || inRange 0xD800 0xDFFF r then
    three RuneError
  else if r <=? 0xFFFF then three r
  else [byte_of_Z (Z.lor 0xF0 (Z.shiftr r 18)); cont (Z.shiftr r 12);
        cont (Z.shiftr r 6); cont r].

(** [utf8.RuneStart]. *)
Definition RuneStart (b : Z) : bool := negb (Z.land b 0xC0 =? 0x80).

(** Looking back from the last byte for the start of the last rune, at
    most [k] bytes further ([utf8.UTFMax] is 4). *)
Fixpoint findStart (k : nat) (rev_rest acc : list ascii) : option (list ascii) :=
  match k, rev_rest with
  | S k', c :: rest' =>
      if RuneStart (byteZ c) then Some (c :: acc)
      else findStart k' rest' (c :: acc)
  | _, _ => None
  end.

(** [utf8.DecodeLastRune], on the reversed input. *)
Definition DecodeLastRune (rs : list ascii) : Z * nat :=
  match rs with
  | [] => (RuneError, 0%nat)
  | c :: rest =>
      if byteZ c <? RuneSelf then (byteZ c, 1%nat)
      else match findStart 3 rest [c] with
           | Some bytes =>
               let '(r, size) := DecodeRune bytes in
               if (size =? length bytes)%nat then (r, size) else (RuneError, 1%nat)
           | None => (RuneError, 1%nat)
           end
  end.

(** [unicode.IsSpace]: the Latin-1 cases and the [White_Space] table. *)
Definition IsSpace (r : Z) : bool :=
  if (0 <=? r) && (r <=? 0xFF) then
    inRange 0x09 0x0D r || (r =? 0x20) || (r =? 0x85) || (r =? 0xA0)
  else
    (r =? 0x1680) || inRange 0x2000 0x200A r || inRange 0x2028 0x2029 r
    || (r =? 0x202F) || (r =? 0x205F) || (r =? 0x3000).

(** [strings.TrimLeftFunc(s, unicode.IsSpace)]. *)
Fixpoint trimLeftSpace (fuel : nat) (s : list ascii) : list ascii :=
  match fuel with
  | O => s
  | S fuel' =>
      let '(r, size) := DecodeRune s in
      if (0 <? size)%nat && IsSpace r then trimLeftSpace fuel' (drop size s)
      else s
  end.

(** [strings.TrimRightFunc(s, unicode.IsSpace)], on the reversed input. *)
Fixpoint trimRightSpace (fuel : nat) (rs : list ascii) : list ascii :=
  match fuel with
  | O => rs
  | S fuel' =>
      let '(r, size) := DecodeLastRune rs in
      if (0 <? size)%nat && IsSpace r then trimRightSpace fuel' (drop size rs)
      else rs
  end.

(** [strings.TrimSpace].  The library first runs over ASCII bytes and
    switches to the two functions above at the first non-ASCII byte; on
    ASCII bytes they do the same. *)
Definition TrimSpace (s : string) : string :=
  let l := list_ascii_of_string s in
  let l := trimLeftSpace (length l) l in
  string_of_list_ascii (rev (trimRightSpace (length l) (rev l))).

(** [strings.ToLower].  [lower] is [unicode.ToLower] on runes outside
    ASCII, a table of the library. *)
Definition lowerASCII (c : ascii) : ascii :=
  if inRange 0x41 0x5A (byteZ c) then byte_of_Z (byteZ c + 32) else c.

Fixpoint mapRunes (fuel : nat) (f : Z -> Z) (s : list ascii) : list ascii :=
  match fuel, s with
  | S fuel', _ :: _ =>
      let '(r, size) := DecodeRune s in
      let r' := f r in
      (if 0 <=? r' then EncodeRune r' else []) ++ mapRunes fuel' f (drop size s)
  | _, _ => []
  end.

Definition ToLower (lower : Z -> Z) (s : string) : string :=
  let l := list_ascii_of_string s in
  if forallb (fun c => byteZ c <? RuneSelf) l
  then string_of_list_ascii (map lowerASCII l)
  else string_of_list_ascii
         (mapRunes (length l)
            (fun r => if r <? RuneSelf then byteZ (lowerASCII (byte_of_Z r)) else lower r) l).

(** Go compares strings byte by byte. *)
Definition string_le (a b : string) : Prop := String.leb a b = true.

#[global] Instance string_le_dec : RelDecision string_le :=
  fun a b => bool_eq_dec (String.leb a b) true.

(** [sort.Strings]: the result is the sorted arrangement of the input,
    which is unique, so any sorting algorithm is a model of it. *)
Definition sortStrings (l : list string) : list string :=
  merge_sort string_le l.

End GoLib.

(** ** [encoding/json], as far as [Decoder.Decode] into the request
    struct and [Decoder.More] go *)
Module Json.
Import GoLib.

#[warnings="-register-all"]
Inductive value :=
| Null
| Bool (b : bool)
| Number (lit : string)
| Str (s : string)
| Array (l : list value)
| Object (l : list (string * value)).

(** [EOF] is [io.EOF] (nothing but white space was read),
    [UnexpectedEOF] is [io.ErrUnexpectedEOF], [Syntax] a
    [*json.SyntaxError], [TypeMismatch] a [*json.UnmarshalTypeError] and
    [UnknownField] the error of [DisallowUnknownFields]. *)
Inductive error :=
| EOF
| UnexpectedEOF
| Syntax
| TypeMismatch (field : string)
| UnknownField (key : string).

Definition result (A : Type) : Type := (A * list ascii) + error.

Definition dquote : ascii := ascii_of_nat 34.
Definition isChar (c d : ascii) : bool := Ascii.eqb c d.

Definition isSpace (c : ascii) : bool :=
  isChar c " " || isChar c (ascii_of_nat 9) || isChar c (ascii_of_nat 13) || isChar c (ascii_of_nat 10).

Fixpoint skipSpace (s : list ascii) : list ascii :=
  match s with
  | c :: rest => if isSpace c then skipSpace rest else s
  | [] => []
  end.

Definition isDigit (c : ascii) : bool := inRange 0x30 0x39 (byteZ c).

Definition hexVal (c : ascii) : option Z :=
  let b := byteZ c in
  if inRange 0x30 0x39 b then Some (b - 0x30)
  else if inRange 0x61 0x66 b then Some (b - 0x61 + 10)
  else if inRange 0x41 0x46 b then Some (b - 0x41 + 10)
  else None.

(** The four hexadecimal digits of a [\u] escape. *)
Definition getu4 (s : list ascii) : result Z :=
  match s with
  | a :: b :: c :: d :: rest =>
      match hexVal a, hexVal b, hexVal c, hexVal d with
      | Some x, Some y, Some z, Some w =>
          inl (((x * 16 + y) * 16 + z) * 16 + w, rest)
      | _, _, _, _ => inr Syntax
      end
  | _ => if forallb (fun c => bool_decide (is_Some (hexVal c))) s
         then inr UnexpectedEOF else inr Syntax
  end.

(** [utf16.DecodeRune] for a [\u] escape that is a surrogate: the pair
    when a low surrogate escape follows a high one, else U+FFFD with only
    the first escape consumed. *)
Definition surrogate (rr : Z) (rest : list ascii) : Z * list ascii :=
  match rest with
  | e :: u :: rest' =>
      if isChar e "\" && isChar u "u" then
        match getu4 rest' with
        | inl (rr1, rest'') =>
            if inRange 0xD800 0xDBFF rr && inRange 0xDC00 0xDFFF rr1
            then (Z.lor (Z.shiftl (rr - 0xD800) 10) (rr1 - 0xDC00) + 0x10000, rest'')
            else (RuneError, rest)
        | inr _ => (RuneError, rest)
        end
      else (RuneError, rest)
  | _ => (RuneError, rest)
  end.

(** A string literal after its opening quote: the scanner's checks and
    [unquote]'s decoding in one pass; [acc] is the decoded text so far,
    reversed. *)
Fixpoint scanString (fuel : nat) (s : list ascii) (acc : list ascii)
  : result string :=
  match fuel with
  | O => inr UnexpectedEOF
  | S fuel' =>
    match s with
    | [] => inr UnexpectedEOF
    | c :: rest =>
      if isChar c dquote then inl (string_of_list_ascii (rev acc), rest)
      else if isChar c "\" then
        match rest with
        | [] => inr UnexpectedEOF
        | e :: rest' =>
          let simple (b : ascii) := scanString fuel' rest' (b :: acc) in
          if isChar e dquote || isChar e "\" || isChar e "/" then simple e
          else if isChar e "b" then simple (ascii_of_nat 8)
          else if isChar e "f" then simple (ascii_of_nat 12)
          else if isChar e "n" then simple (ascii_of_nat 10)
          else if isChar e "r" then simple (ascii_of_nat 13)
          else if isChar e "t" then simple (ascii_of_nat 9)
          else if isChar e "u" then
            match getu4 rest' with
            | inl (rr, rest'') =>
                let '(r, rest3) :=
                  if inRange 0xD800 0xDFFF rr then surrogate rr rest''
                  else (rr, rest'') in
                scanString fuel' rest3 (rev (EncodeRune r) ++ acc)
            | inr e => inr e
            end
          else inr Syntax
        end
      else if byteZ c <? 0x20 then inr Syntax
      else if byteZ c <? RuneSelf then scanString fuel' rest (c :: acc)
      else
        let '(r, size) := DecodeRune s in
        scanString fuel' (drop size s) (rev (EncodeRune r) ++ acc)
    end
  end.

Fixpoint spanDigits (s : list ascii) : list ascii * list ascii :=
  match s with
  | c :: rest =>
      if isDigit c then let '(ds, r) := spanDigits rest in (c :: ds, r)
      else ([], s)
  | [] => ([], [])
  end.

(** One or more digits. *)
Definition digits1 (s : list ascii) : result (list ascii) :=
  match spanDigits s with
  | ([], []) => inr UnexpectedEOF
  | ([], _) => inr Syntax
  | (ds, rest) => inl (ds, rest)
  end.

(** A number literal: an optional minus sign, then 0 or a digit 1-9 and
    further digits, then an optional fraction (a dot and one or more
    digits) and an optional exponent (e or E, an optional sign and one or
    more digits). *)
Definition scanNumber (s : list ascii) : result string :=
  let '(sign, s1) :=
    match s with
    | c :: r => if isChar c "-" then ([c], r) else ([], s)
    | [] => ([], s)
    end in
  let int :=
    match s1 with
    | [] => inr UnexpectedEOF
    | c :: r => if isChar c "0" then inl ([c], r) else digits1 s1
    end in
  match int with
  | inr e => inr e
  | inl (ip, s2) =>
    let frac :=
      match s2 with
      | c :: r =>
          if isChar c "." then
            match digits1 r with
            | inl (ds, r') => inl (c :: ds, r')
            | inr e => inr e
            end
          else inl ([], s2)
      | [] => inl ([], s2)
      end in
    match frac with
    | inr e => inr e
    | inl (fp, s3) =>
      let exp :=
        match s3 with
        | c :: r =>
            if isChar c "e" || isChar c "E" then
              let '(sg, r1) :=
                match r with
                | d :: r' => if isChar d "+" || isChar d "-" then ([d], r') else ([], r)
                | [] => ([], r)
                end in
              match digits1 r1 with
              | inl (ds, r') => inl (c :: sg ++ ds, r')
              | inr e => inr e
              end
            else inl ([], s3)
        | [] => inl ([], s3)
        end in
      match exp with
      | inr e => inr e
      | inl (ep, s4) =>
          inl (string_of_list_ascii (sign ++ ip ++ fp ++ ep), s4)
      end
    end
  end.

(** [true], [false] and [null]. *)
Fixpoint scanLiteral (word s : list ascii) : result unit :=
  match word, s with
  | [], _ => inl (tt, s)
  | _ :: _, [] => inr UnexpectedEOF
  | w :: word', c :: s' => if isChar w c then scanLiteral word' s' else inr Syntax
  end.

Definition maxNestingDepth : Z := 10000.

(** One value, after optional white space.  [depth] counts the open
    arrays and objects. *)
Fixpoint scanValue (fuel : nat) (depth : Z) (s : list ascii) : result value :=
  match fuel with
  | O => inr Syntax
  | S fuel' =>
    match skipSpace s with
    | [] => inr UnexpectedEOF
    | c :: rest =>
      if isChar c "{" then
        if maxNestingDepth <? depth + 1 then inr Syntax
        else match skipSpace rest with
             | d :: rest' =>
                 if isChar d "}" then inl (Object [], rest')
                 else scanMembers fuel' (depth + 1) rest []
             | [] => inr UnexpectedEOF
             end
      else if isChar c "[" then
        if maxNestingDepth <? depth + 1 then inr Syntax
        else match skipSpace rest with
             | d :: rest' =>
                 if isChar d "]" then inl (Array [], rest')
                 else scanElems fuel' (depth + 1) rest []
             | [] => inr UnexpectedEOF
             end
      else if isChar c dquote then
        match scanString (length rest) rest [] with
        | inl (t, r) => inl (Str t, r)
        | inr e => inr e
        end
      else if isChar c "-" || isDigit c then
        match scanNumber (c :: rest) with
        | inl (lit, r) => inl (Number lit, r)
        | inr e => inr e
        end
      else if isChar c "t" then
        match scanLiteral (list_ascii_of_string "rue") rest with
        | inl (_, r) => inl (Bool true, r)
        | inr e => inr e
        end
      else if isChar c "f" then
        match scanLiteral (list_ascii_of_string "alse") rest with
        | inl (_, r) => inl (Bool false, r)
        | inr e => inr e
        end
      else if isChar c "n" then
        match scanLiteral (list_ascii_of_string "ull") rest with
        | inl (_, r) => inl (Null, r)
        | inr e => inr e
        end
      else inr Syntax
    end
  end
with scanMembers (fuel : nat) (depth : Z) (s : list ascii)
    (acc : list (string * value)) : result value :=
  match fuel with
  | O => inr Syntax
  | S fuel' =>
    match skipSpace s with
    | [] => inr UnexpectedEOF
    | q :: r =>
      if isChar q dquote then
        match scanString (length r) r [] with
        | inr e => inr e
        | inl (k, r1) =>
          match skipSpace r1 with
          | [] => inr UnexpectedEOF
          | colon :: r2 =>
            if isChar colon ":" then
              match scanValue fuel' depth r2 with
              | inr e => inr e
              | inl (v, r3) =>
                match skipSpace r3 with
                | [] => inr UnexpectedEOF
                | sep :: r4 =>
                    if isChar sep "," then scanMembers fuel' depth r4 ((k, v) :: acc)
                    else if isChar sep "}" then inl (Object (rev ((k, v) :: acc)), r4)
                    else inr Syntax
                end
              end
            else inr Syntax
          end
        end
      else inr Syntax
    end
  end
with scanElems (fuel : nat) (depth : Z) (s : list ascii) (acc : list value)
  : result value :=
  match fuel with
  | O => inr Syntax
  | S fuel' =>
    match scanValue fuel' depth s with
    | inr e => inr e
    | inl (v, r) =>
      match skipSpace r with
      | [] => inr UnexpectedEOF
      | sep :: r' =>
          if isChar sep "," then scanElems fuel' depth r' (v :: acc)
          else if isChar sep "]" then inl (Array (rev (v :: acc)), r')
          else inr Syntax
      end
    end
  end.

(** [Decoder.readValue]: the next value of the stream.  After an object or
    an array the scan stops at the closing bracket; after any other value
    the byte that follows has to be white space or the end of the input. *)
Definition readValue (s : list ascii) : result value :=
  match skipSpace s with
  | [] => inr EOF
  | s' =>
    match scanValue (S (S (length s'))) 0 s' with
    | inr e => inr e
    | inl (v, rest) =>
      match v, rest with
      | (Object _ | Array _), _ => inl (v, rest)
      | _, [] => inl (v, rest)
      | _, c :: _ => if isSpace c then inl (v, rest) else inr Syntax
      end
    end
  end.

(** [Decoder.More]: the next byte that is not white space exists and is
    neither a closing bracket nor a closing brace. *)
Definition More (s : list ascii) : bool :=
  match skipSpace s with
  | [] => false
  | c :: _ => negb (isChar c "]") && negb (isChar c "}")
  end.

End Json.

(** ** [pkg/api] and [pkg/model], which are not among the sources: the
    types the front end passes through, as it uses them *)
Module Api.

(** The error kinds of the specification (section 7). *)
Inductive ErrorKind :=
| InvalidRequest | InvalidToolArgs
| RateLimited | ConcurrencyExceeded
| PathEscape | SymlinkLoop | BlockedCommand | ToolNotPermitted
| ModelError | ToolExecutionFailed | MiddlewareError | MiddlewareTimeout
| Cancelled | Timeout
| SessionNotFound | ResumeTruncated | StorageUnavailable.

(** A Go [error] returned by the runtime: its kind and its [Error()] text. *)
Record error := { kind : ErrorKind; text : string }.

Record Request {ModeContext : Type} := {
  Prompt        : string;
  SessionID     : string;
  Traits        : list string;
  Channels      : list string;
  ToolWhitelist : list string;
  Tags          : gmap string string;
  Metadata      : gmap string Json.value;
  Mode          : ModeContext
}.
Arguments Request : clear implicits.

Record Result {Usage ToolCall : Type} := {
  Output     : string;
  StopReason : string;
  Usage_     : Usage;
  ToolCalls  : list ToolCall
}.
Arguments Result : clear implicits.

(** [Result] is a pointer and [Tags] a map that the front end tests for
    nil. *)
Record Response {Usage ToolCall SandboxReport : Type} := {
  Result_         : option (Result Usage ToolCall);
  Tags_           : option (gmap string string);
  SandboxSnapshot : SandboxReport
}.
Arguments Response : clear implicits.

End Api.

(** ** The HTTP front end (src/unnamed/part_000, package main) *)
Module Http.
Import GoLib.

Definition maxBodyBytes : Z := Z.shiftl 1 20.
Definition streamPingPeriod : Z := 15 * 1000000000.

Definition StatusOK : Z := 200.
Definition StatusBadRequest : Z := 400.
Definition StatusMethodNotAllowed : Z := 405.
Definition StatusInternalServerError : Z := 500.
Definition StatusBadGateway : Z := 502.

Record runRequest := {
  Prompt        : string;
  SessionID     : string;
  TimeoutMs     : Z;
  Tags          : gmap string string;
  Traits        : list string;
  Channels      : list string;
  Metadata      : gmap string Json.value;
  ToolWhitelist : list string
}.

Definition zeroRequest : runRequest :=
  {| Prompt := ""; SessionID := ""; TimeoutMs := 0; Tags := ∅; Traits := [];
     Channels := []; Metadata := ∅; ToolWhitelist := [] |}.

(** *** Unmarshalling a scanned value into [runRequest] *)

Inductive field :=
| FPrompt | FSessionID | FTimeoutMs | FTags | FTraits | FChannels
| FMetadata | FToolWhitelist.

(** The [json:"..."] tags of the struct, in declaration order. *)
Definition fieldName (f : field) : string :=
  match f with
  | FPrompt => "prompt"
  | FSessionID => "session_id"
  | FTimeoutMs => "timeout_ms"
  | FTags => "tags"
  | FTraits => "traits"
  | FChannels => "channels"
  | FMetadata => "metadata"
  | FToolWhitelist => "tool_whitelist"
  end.

Definition fields : list field :=
  [FPrompt; FSessionID; FTimeoutMs; FTags; FTraits; FChannels; FMetadata;
   FToolWhitelist].

(** The key folding of the field lookup: ASCII letters to upper case, and
    the two runes outside ASCII whose case orbit holds an ASCII letter,
    U+017F (long s) and U+212A (Kelvin sign). *)
Fixpoint foldName (s : list ascii) : list ascii :=
  match s with
  | [] => []
  | c :: rest =>
      let b := byteZ c in
      if inRange 0x61 0x7A b then byte_of_Z (b - 32) :: foldName rest
      else match s with
           | c0 :: c1 :: rest1 =>
               if (byteZ c0 =? 0xC5) && (byteZ c1 =? 0xBF) then "S"%char :: foldName rest1
               else match rest1 with
                    | c2 :: rest2 =>
                        if (byteZ c0 =? 0xE2) && (byteZ c1 =? 0x84) && (byteZ c2 =? 0xAA)
                        then "K"%char :: foldName rest2
                        else c :: foldName rest
                    | [] => c :: foldName rest
                    end
           | _ => c :: foldName rest
           end
  end.

Definition foldString (s : string) : list ascii := foldName (list_ascii_of_string s).

(** The field a key names: an exact match first, then a match up to
    folding. *)
Definition lookupField (key : string) : option field :=
  match List.find (fun f => String.eqb (fieldName f) key) fields with
  | Some f => Some f
  | None =>
      List.find (fun f => bool_decide (foldString (fieldName f) = foldString key)) fields
  end.

(** [strconv.ParseInt(lit, 10, 64)] on a JSON number literal. *)
Definition digitsValue (ds : list ascii) : Z :=
  fold_left (fun acc c => acc * 10 + (byteZ c - 0x30)) ds 0.

Definition parseInt64 (lit : string) : option Z :=
  let l := list_ascii_of_string lit in
  let '(neg, ds) :=
    match l with
    | c :: r => if Json.isChar c "-" then (true, r) else (false, l)
    | [] => (false, l)
    end in
  if forallb Json.isDigit ds && negb (bool_decide (ds = [])) then
    let n := if neg then - digitsValue ds else digitsValue ds in
    if (- 2 ^ 63 <=? n) && (n <=? 2 ^ 63 - 1) then Some n else None
  else None.

(** Whether [strconv.ParseFloat(lit, 64)] accepts a JSON number literal:
    it fails only on overflow, that is when the magnitude is at least
    2^1024 - 2^970. *)
Definition floatInRange (lit : string) : bool :=
  let l := list_ascii_of_string lit in
  let l := match l with c :: r => if Json.isChar c "-" then r else l | [] => l end in
  let '(ip, r1) := Json.spanDigits l in
  let '(fp, r2) :=
    match r1 with
    | c :: r => if Json.isChar c "." then Json.spanDigits r else ([], r1)
    | [] => ([], r1)
    end in
  let e :=
    match r2 with
    | _ :: d :: r =>
        if Json.isChar d "-" then - digitsValue r
        else if Json.isChar d "+" then digitsValue r
        else digitsValue (d :: r)
    | _ => 0
    end in
  let m := digitsValue (ip ++ fp) in
  let e := e - Z.of_nat (length fp) in
  let limit := 2 ^ 1024 - 2 ^ 970 in
  if m =? 0 then true
  else if 0 <=? e then (e <? 400) && (m * 10 ^ e <? limit)
  else m <? limit * 10 ^ (- e).

(** A value stored into an [any]: every number has to fit a [float64]. *)
Fixpoint anyOK (fuel : nat) (v : Json.value) : bool :=
  match fuel with
  | O => false
  | S fuel' =>
    match v with
    | Json.Number lit => floatInRange lit
    | Json.Array l => forallb (anyOK fuel') l
    | Json.Object l => forallb (fun kv => anyOK fuel' (snd kv)) l
    | _ => true
    end
  end.

Fixpoint valueSize (v : Json.value) : nat :=
  match v with
  | Json.Array l => S (list_sum (map valueSize l))
  | Json.Object l => S (list_sum (map (fun kv => valueSize (snd kv)) l))
  | _ => 1
  end.

Definition decodeString (v : Json.value) (cur : string) : option string :=
  match v with
  | Json.Str t => Some t
  | Json.Null => Some cur
  | _ => None
  end.

Definition decodeInt (v : Json.value) (cur : Z) : option Z :=
  match v with
  | Json.Number lit => parseInt64 lit
  | Json.Null => Some cur
  | _ => None
  end.

(** Into a [[]string]: element [i] of the array is decoded into element
    [i] of the slice, which a [null] leaves as it was (empty when new). *)
Fixpoint decodeStrings (l : list Json.value) (cur : list string)
  : option (list string) :=
  match l with
  | [] => Some []
  | v :: l' =>
      match decodeString v (hd "" cur), decodeStrings l' (tl cur) with
      | Some t, Some ts => Some (t :: ts)
      | _, _ => None
      end
  end.

Definition decodeStringSlice (v : Json.value) (cur : list string)
  : option (list string) :=
  match v with
  | Json.Array l => decodeStrings l cur
  | Json.Null => Some []
  | _ => None
  end.

(** Into a [map[string]string]: the members are stored into the map that
    is there; a [null] member value stores the empty string. *)
Fixpoint decodeMembers (l : list (string * Json.value)) (cur : gmap string string)
  : option (gmap string string) :=
  match l with
  | [] => Some cur
  | (k, v) :: l' =>
      match decodeString v "" with
      | Some t => decodeMembers l' (<[k := t]> cur)
      | None => None
      end
  end.

Definition decodeStringMap (v : Json.value) (cur : gmap string string)
  : option (gmap string string) :=
  match v with
  | Json.Object l => decodeMembers l cur
  | Json.Null => Some ∅
  | _ => None
  end.

Definition decodeAnyMap (v : Json.value) (cur : gmap string Json.value)
  : option (gmap string Json.value) :=
  match v with
  | Json.Object l =>
      if forallb (fun kv => anyOK (valueSize (snd kv)) (snd kv)) l
      then Some (fold_left (fun m kv => <[fst kv := snd kv]> m) l cur)
      else None
  | Json.Null => Some ∅
  | _ => None
  end.

Definition setField (f : field) (v : Json.value) (r : runRequest)
  : option runRequest :=
  match f with
  | FPrompt =>
      t ← decodeString v (Prompt r);
      Some {| Prompt := t; SessionID := SessionID r; TimeoutMs := TimeoutMs r;
              Tags := Tags r; Traits := Traits r; Channels := Channels r;
              Metadata := Metadata r; ToolWhitelist := ToolWhitelist r |}
  | FSessionID =>
      t ← decodeString v (SessionID r);
      Some {| Prompt := Prompt r; SessionID := t; TimeoutMs := TimeoutMs r;
              Tags := Tags r; Traits := Traits r; Channels := Channels r;
              Metadata := Metadata r; ToolWhitelist := ToolWhitelist r |}
  | FTimeoutMs =>
      n ← decodeInt v (TimeoutMs r);
      Some {| Prompt := Prompt r; SessionID := SessionID r; TimeoutMs := n;
              Tags := Tags r; Traits := Traits r; Channels := Channels r;
              Metadata := Metadata r; ToolWhitelist := ToolWhitelist r |}
  | FTags =>
      m ← decodeStringMap v (Tags r);
      Some {| Prompt := Prompt r; SessionID := SessionID r; TimeoutMs := TimeoutMs r;
              Tags := m; Traits := Traits r; Channels := Channels r;
              Metadata := Metadata r; ToolWhitelist := ToolWhitelist r |}
  | FTraits =>
      l ← decodeStringSlice v (Traits r);
      Some {| Prompt := Prompt r; SessionID := SessionID r; TimeoutMs := TimeoutMs r;
              Tags := Tags r; Traits := l; Channels := Channels r;
              Metadata := Metadata r; ToolWhitelist := ToolWhitelist r |}
  | FChannels =>
      l ← decodeStringSlice v (Channels r);
      Some {| Prompt := Prompt r; SessionID := SessionID r; TimeoutMs := TimeoutMs r;
              Tags := Tags r; Traits := Traits r; Channels := l;
              Metadata := Metadata r; ToolWhitelist := ToolWhitelist r |}
  | FMetadata =>
      m ← decodeAnyMap v (Metadata r);
      Some {| Prompt := Prompt r; SessionID := SessionID r; TimeoutMs := TimeoutMs r;
              Tags := Tags r; Traits := Traits r; Channels := Channels r;
              Metadata := m; ToolWhitelist := ToolWhitelist r |}
  | FToolWhitelist =>
      l ← decodeStringSlice v (ToolWhitelist r);
      Some {| Prompt := Prompt r; SessionID := SessionID r; TimeoutMs := TimeoutMs r;
              Tags := Tags r; Traits := Traits r; Channels := Channels r;
              Metadata := Metadata r; ToolWhitelist := l |}
  end.

(** The members of the top-level object, in order; the first error is the
    one [Decode] returns ([DisallowUnknownFields] is set). *)
Fixpoint unmarshalMembers (l : list (string * Json.value)) (r : runRequest)
  : Json.error + runRequest :=
  match l with
  | [] => inr r
  | (k, v) :: l' =>
      match lookupField k with
      | None => inl (Json.UnknownField k)
      | Some f =>
          match setField f v r with
          | Some r' => unmarshalMembers l' r'
          | None => inl (Json.TypeMismatch (fieldName f))
          end
      end
  end.

Definition unmarshal (v : Json.value) (r : runRequest) : Json.error + runRequest :=
  match v with
  | Json.Object l => unmarshalMembers l r
  | Json.Null => inr r
  | _ => inl (Json.TypeMismatch "")
  end.

(** [dec.Decode(dest)]: the request and the unread rest of the stream. *)
Definition Decode (s : list ascii) : Json.error + (runRequest * list ascii) :=
  match Json.readValue s with
  | inr e => inl e
  | inl (v, rest) =>
      match unmarshal v zeroRequest with
      | inl e => inl e
      | inr r => inr (r, rest)
      end
  end.

(** *** The handlers *)

(** What [err.Error()] of a decoding failure is: a text of this package or
    an error of the JSON library. *)
Inductive message :=
| Text (s : string)
| JsonError (e : Json.error).

(** [io.LimitReader(r.Body, maxBodyBytes)]: the bytes of the body while
    fewer than [n] have been read, then end of input. *)
Fixpoint LimitReader (body : list ascii) (n : Z) : list ascii :=
  match body with
  | [] => []
  | c :: rest => if n <=? 0 then [] else c :: LimitReader rest (n - 1)
  end.

(** [decode]; [body] is [None] for a nil [r.Body]. *)
Definition decode (body : option (list ascii)) : message + runRequest :=
  match body with
  | None => inl (Text "request body is empty")
  | Some b =>
      let reader := LimitReader b maxBodyBytes in
      match Decode reader with
      | inl Json.EOF => inl (Text "request body is empty")
      | inl e => inl (JsonError e)
      | inr (req, rest) =>
          if Json.More rest
          then inl (Text "request body must contain a single JSON object")
          else inr req
      end
  end.

(** A text that decodes as white space runes only (the empty text
    included): what [strings.TrimSpace] trims to nothing. *)
Inductive whitespaceOnly : list ascii -> Prop :=
| ws_nil : whitespaceOnly []
| ws_rune (r : Z) (size : nat) (s : list ascii) :
    DecodeRune s = (r, size) -> (0 < size)%nat -> IsSpace r = true ->
    whitespaceOnly (drop size s) -> whitespaceOnly s.

(** A request body that passes [decode] and the prompt check, and the
    request it decodes to. *)
Definition accepted (body : option (list ascii)) (req : runRequest) : Prop :=
  decode body = inr req /\ TrimSpace (Prompt req) <> "".

(** A request body that the handlers refuse before they call the runtime:
    it does not decode, or its prompt is blank. *)
Definition refused (body : option (list ascii)) : Prop :=
  (exists err, decode body = inl err)
  \/ (exists req, decode body = inr req /\ TrimSpace (Prompt req) = "").

(** The status section 6 of the specification gives to a failure of each
    kind: "400 invalid body, 429 rate-limited, 503 concurrency exceeded,
    502 model error, 504 timeout, 500 internal". *)
Definition specStatus (k : Api.ErrorKind) : Z :=
  match k with
  | Api.InvalidRequest => 400
  | Api.RateLimited => 429
  | Api.ConcurrencyExceeded => 503
  | Api.ModelError => 502
  | Api.Timeout => 504
  | _ => 500
  end.

Section Handlers.
Context {ModeContext Usage ToolCall SandboxReport StreamEvent : Type}.

(** [defaultRunTimeout] is a constant of the package declared in another
    file; [Marshal] is [json.Marshal] on a stream event. *)
Variable defaultRunTimeout : Z.
Variable Marshal : StreamEvent -> option (list ascii).

Local Abbreviation Request := (Api.Request ModeContext).
Local Abbreviation Response := (Api.Response Usage ToolCall SandboxReport).

(** [Run] and [RunStream] of [api.Runtime], given the timeout of the context
    and the request.  [Run] returns a response pointer (possibly nil) or
    an error; [RunStream] a channel or an error. *)
Record Runtime := {
  Run       : Z -> Request -> option Response + Api.error;
  RunStream : Z -> Request -> option Api.error
}.

Record httpServer := {
  runtime        : Runtime;
  mode           : ModeContext;
  defaultTimeout : Z;
  staticDir      : string
}.

(** [copyStrings], [copyStringMap] and [copyAnyMap]: nil for an input
    without elements, else a copy. *)
Definition copyStrings (l : list string) : list string :=
  if (length l =? 0)%nat then [] else l.

Definition copyStringMap (m : gmap string string) : gmap string string :=
  if (size m =? 0)%nat then ∅ else m.

Definition copyAnyMap (m : gmap string Json.value) : gmap string Json.value :=
  if (size m =? 0)%nat then ∅ else m.

Definition toAPIRequest (r : runRequest) (base : ModeContext) : Request :=
  {| Api.Prompt := Prompt r;
     Api.SessionID := SessionID r;
     Api.Traits := copyStrings (Traits r);
     Api.Channels := copyStrings (Channels r);
     Api.ToolWhitelist := copyStrings (ToolWhitelist r);
     Api.Tags := copyStringMap (Tags r);
     Api.Metadata := copyAnyMap (Metadata r);
     Api.Mode := base |}.

Record runResponse := {
  rSessionID  : string;
  rOutput     : string;
  rStopReason : string;
  rUsage      : Usage;
  rTags       : gmap string string;
  rToolCalls  : list ToolCall;
  rSandbox    : SandboxReport
}.

Definition buildRunResponse (resp : option Response) (sessionID : string)
  : string + runResponse :=
  match resp with
  | None => inl "agent response is empty"
  | Some resp =>
      match Api.Result_ resp with
      | None => inl "agent response is empty"
      | Some res =>
          let tags := match Api.Tags_ resp with Some t => t | None => ∅ end in
          inr {| rSessionID := sessionID;
                 rOutput := Api.Output res;
                 rStopReason := Api.StopReason res;
                 rUsage := Api.Usage_ res;
                 rToolCalls := Api.ToolCalls res;
                 rTags := tags;
                 rSandbox := Api.SandboxSnapshot resp |}
      end
  end.

(** Signed 64-bit wrap-around. *)
Definition wrap64 (z : Z) : Z := (z + 2 ^ 63) mod 2 ^ 64 - 2 ^ 63.

(** [requestContext]: the timeout given to [context.WithTimeout]. *)
Definition requestContext (s : httpServer) (timeoutMs : Z) : Z :=
  let timeout := defaultTimeout s in
  let timeout := if 0 <? timeoutMs then wrap64 (timeoutMs * 1000000) else timeout in
  if timeout <=? 0 then defaultRunTimeout else timeout.

Record httpRequest := {
  Method : string;
  Body   : option (list ascii)
}.

(** What was written to the [http.ResponseWriter]: the status, the
    [Content-Type] header and the payload handed to the JSON encoder, or
    the frames of an event stream. *)
Inductive payload :=
| ErrorResponse (m : message)
| RunResponse (r : runResponse)
| EventStream (frames : list (list ascii)).

Record httpResponse := {
  status      : Z;
  contentType : string;
  content     : payload
}.

Definition writeJSON (st : Z) (p : payload) : httpResponse :=
  {| status := st; contentType := "application/json"; content := p |}.

(** The calls a handler made on the runtime. *)
Inductive call :=
| CallRun (timeout : Z) (req : Request)
| CallRunStream (timeout : Z) (req : Request).

Definition handleRun (s : httpServer) (r : httpRequest) : list call * httpResponse :=
  if negb (String.eqb (Method r) "POST") then
    ([], writeJSON StatusMethodNotAllowed (ErrorResponse (Text "only POST supported")))
  else
    match decode (Body r) with
    | inl err => ([], writeJSON StatusBadRequest (ErrorResponse err))
    | inr req =>
      if String.eqb (TrimSpace (Prompt req)) "" then
        ([], writeJSON StatusBadRequest (ErrorResponse (Text "prompt is required")))
      else
        let ctx := requestContext s (TimeoutMs req) in
        let areq := toAPIRequest req (mode s) in
        match Run (runtime s) ctx areq with
        | inr err =>
            ([CallRun ctx areq],
             writeJSON StatusBadGateway (ErrorResponse (Text (Api.text err))))
        | inl resp =>
            match buildRunResponse resp (SessionID req) with
            | inl err =>
                ([CallRun ctx areq],
                 writeJSON StatusInternalServerError (ErrorResponse (Text err)))
            | inr payload =>
                ([CallRun ctx areq], writeJSON StatusOK (RunResponse payload))
            end
        end
    end.

(** One round of the [select] in the streaming loop: an event received,
    the channel closed, the ping ticker fired, or the context done. *)
Inductive selectCase :=
| RecvEvent (e : StreamEvent)
| RecvClosed
| TickerFired
| CtxDone.

Definition newline : ascii := ascii_of_nat 10.

Definition frame (data : list ascii) : list ascii :=
  list_ascii_of_string "data: " ++ data ++ [newline; newline].

Definition pingFrame : list ascii :=
  frame ([("{")%char; Json.dquote] ++ list_ascii_of_string "type"
         ++ [Json.dquote; ":"%char; Json.dquote] ++ list_ascii_of_string "ping"
         ++ [Json.dquote; "}"%char]).

(** The [for { select { ... } }] loop over the rounds that happen. *)
Fixpoint streamLoop (sched : list selectCase) : list (list ascii) :=
  match sched with
  | [] => []
  | RecvEvent e :: rest =>
      match Marshal e with
      | Some data => frame data :: streamLoop rest
      | None => []
      end
  | RecvClosed :: _ => []
  | TickerFired :: rest => pingFrame :: streamLoop rest
  | CtxDone :: _ => []
  end.

(** [handleStream]; [flusher] tells whether the writer is an
    [http.Flusher]. *)
Definition handleStream (s : httpServer) (flusher : bool) (sched : list selectCase)
    (r : httpRequest) : list call * httpResponse :=
  if negb (String.eqb (Method r) "POST") then
    ([], writeJSON StatusMethodNotAllowed (ErrorResponse (Text "only POST supported")))
  else
    match decode (Body r) with
    | inl err => ([], writeJSON StatusBadRequest (ErrorResponse err))
    | inr req =>
      if String.eqb (TrimSpace (Prompt req)) "" then
        ([], writeJSON StatusBadRequest (ErrorResponse (Text "prompt is required")))
      else if negb flusher then
        ([], writeJSON StatusInternalServerError
               (ErrorResponse (Text "streaming unsupported")))
      else
        let ctx := requestContext s (TimeoutMs req) in
        let areq := toAPIRequest req (mode s) in
        match RunStream (runtime s) ctx areq with
        | Some err =>
            ([CallRunStream ctx areq],
             writeJSON StatusBadGateway (ErrorResponse (Text (Api.text err))))
        | None =>
            ([CallRunStream ctx areq],
             {| status := StatusOK; contentType := "text/event-stream";
                content := EventStream (streamLoop sched) |})
        end
    end.

End Handlers.

End Http.

(** ** examples/middleware/ratelimit.go *)
Module RateLimit.

(** A buffered [chan struct{}]: its capacity and the number of queued
    elements. *)
Record chan := { chan_cap : nat; chan_len : nat }.

Definition make_chan (n : nat) : chan := {| chan_cap := n; chan_len := 0 |}.

Record rateLimitMiddleware := {
  ratePerSec : Q;
  burst      : Q;
  tokens     : Q;
  lastRefill : Z;
  concurrent : chan
}.

Definition Second : Z := 1000000000.
Definition Millisecond : Z := 1000000.

(** [time.Duration.Seconds]. *)
Definition Seconds (d : Z) : Q := Qmake d (Z.to_pos Second).

Definition newRateLimitMiddleware (rps burst maxConcurrent now : Z)
  : rateLimitMiddleware :=
  let rps := if rps <=? 0 then 5 else rps in
  let burst := if burst <=? 0 then rps else burst in
  let maxConcurrent := if maxConcurrent <=? 0 then 2 else maxConcurrent in
  {| ratePerSec := inject_Z rps;
     burst      := inject_Z burst;
     tokens     := inject_Z burst;
     lastRefill := now;
     concurrent := make_chan (Z.to_nat maxConcurrent) |}.

Definition set_tokens (m : rateLimitMiddleware) (t : Q) :=
  {| ratePerSec := ratePerSec m; burst := burst m; tokens := t;
     lastRefill := lastRefill m; concurrent := concurrent m |}.

Definition set_lastRefill (m : rateLimitMiddleware) (t : Z) :=
  {| ratePerSec := ratePerSec m; burst := burst m; tokens := tokens m;
     lastRefill := t; concurrent := concurrent m |}.

Definition set_concurrent (m : rateLimitMiddleware) (c : chan) :=
  {| ratePerSec := ratePerSec m; burst := burst m; tokens := tokens m;
     lastRefill := lastRefill m; concurrent := c |}.

(** The refill half of [tryConsume]: the body of [if elapsed > 0]. *)
Definition refill (m : rateLimitMiddleware) (now : Z) : rateLimitMiddleware :=
  let elapsed := Seconds (now - lastRefill m) in
  if Qlt_le_dec 0 elapsed then
    let t := (tokens m + elapsed * ratePerSec m)%Q in
    let t := if Qlt_le_dec (burst m) t then burst m else t in
    set_lastRefill (set_tokens m t) now
  else m.

(** [tryConsume], called when the clock reads [now]; the mutex makes the
    body atomic. *)
Definition tryConsume (m : rateLimitMiddleware) (now : Z)
  : bool * rateLimitMiddleware :=
  let m := refill m now in
  if Qlt_le_dec (tokens m) 1 then (false, m)
  else (true, set_tokens m (tokens m - 1)%Q).

(** [context.Context] as far as the middleware looks at it: whether it is
    done when the clock reads [now], and with which error. *)
Inductive ctxError := Canceled | DeadlineExceeded.

Inductive context :=
| Background
| WithDeadline (d : Z)
| CanceledAt (t : Z).

Definition ctx_Err (ctx : context) (now : Z) : option ctxError :=
  match ctx with
  | Background => None
  | WithDeadline d => if d <=? now then Some DeadlineExceeded else None
  | CanceledAt t => if t <=? now then Some Canceled else None
  end.

(** The errors [BeforeAgent] can return: [ctx.Err()] or
    [errors.New("ratelimit: concurrent limit reached")]. *)
Inductive error :=
| CtxErr (e : ctxError)
| ErrConcurrentLimit.

Definition Error (e : error) : string :=
  match e with
  | CtxErr Canceled => "context canceled"
  | CtxErr DeadlineExceeded => "context deadline exceeded"
  | ErrConcurrentLimit => "ratelimit: concurrent limit reached"
  end.

Definition pollInterval : Z := 10 * Millisecond.

(** [waitForToken]: the [for] loop, one iteration per unit of fuel;
    [time.Sleep] advances the clock by the poll interval.  The result is
    the returned error, the middleware and the clock at return. *)
Fixpoint waitForToken (fuel : nat) (ctx : context) (m : rateLimitMiddleware)
    (now : Z) : option (option ctxError * rateLimitMiddleware * Z) :=
  match fuel with
  | O => None
  | S fuel' =>
      match ctx_Err ctx now with
      | Some e => Some (Some e, m, now)
      | None =>
          let '(ok, m') := tryConsume m now in
          if ok then Some (None, m', now)
          else waitForToken fuel' ctx m' (now + pollInterval)
      end
  end.

(** The [select] of [BeforeAgent].  A send on the channel is ready when it
    is not full, [<-ctx.Done()] is ready when the context is done; Go picks
    among ready cases at random ([pick]), and [default] runs when none is
    ready. *)
Definition selectAcquire (pick : bool) (done : option ctxError) (c : chan)
  : option error * chan :=
  let acquired := (None, {| chan_cap := chan_cap c; chan_len := S (chan_len c) |}) in
  match bool_decide (chan_len c < chan_cap c)%nat, done with
  | true, None => acquired
  | true, Some e => if pick then acquired else (Some (CtxErr e), c)
  | false, Some e => (Some (CtxErr e), c)
  | false, None => (Some ErrConcurrentLimit, c)
  end.

Definition BeforeAgent (fuel : nat) (pick : bool) (ctx : context)
    (m : rateLimitMiddleware) (now : Z)
  : option (option error * rateLimitMiddleware * Z) :=
  match waitForToken fuel ctx m now with
  | None => None
  | Some (Some e, m', t) => Some (Some (CtxErr e), m', t)
  | Some (None, m', t) =>
      let '(r, c) := selectAcquire pick (ctx_Err ctx t) (concurrent m') in
      Some (r, set_concurrent m' c, t)
  end.

Definition Name : string := "ratelimit".

(** [BeforeModel], [AfterModel], [BeforeTool] and [AfterTool] return
    [nil]. *)
Definition BeforeModel (m : rateLimitMiddleware) : option error := None.
Definition AfterModel (m : rateLimitMiddleware) : option error := None.
Definition BeforeTool (m : rateLimitMiddleware) : option error := None.
Definition AfterTool (m : rateLimitMiddleware) : option error := None.


(** *** Runs of the middleware *)



(** The result of a hook without the middleware: the error and the clock
    at return. *)
Definition outcome {E : Type} (r : option (option E * rateLimitMiddleware * Z))
  : option (option E * Z) :=
  match r with
  | Some (e, _, t) => Some (e, t)
  | None => None
  end.

Definition middlewareOf {E : Type} (r : option (option E * rateLimitMiddleware * Z))
    (dflt : rateLimitMiddleware) : rateLimitMiddleware :=
  match r with
  | Some (_, m, _) => m
  | None => dflt
  end.






End RateLimit.

(** ** pkg/security: [openNoFollow] (src/unnamed/part_006 for hosts other
    than Windows, resolver_windows.go for Windows) *)
Module Security.

(** [syscall.Errno] values the function tells apart, and the others. *)
Inductive Errno :=
| ELOOP | ENOTDIR | EISDIR
| OtherErrno (n : Z).

Inductive openFlag := O_RDONLY | O_CLOEXEC | O_NOFOLLOW.

(** [syscall.Open(path, flags, perm)]: a file descriptor or an errno.  The
    host's file system decides. *)
Definition sysOpen : Type := string -> list openFlag -> Z -> Z + Errno.

(** The two errors the function builds with [fmt.Errorf]. *)
Inductive error :=
| SymlinkLoopDetected (path : string)
| NoFollowOpenFailed (path : string) (err : Errno).

Definition Error (e : error) : string :=
  match e with
  | SymlinkLoopDetected p => "security: symlink loop detected " ++ p
  | NoFollowOpenFailed p _ => "security: O_NOFOLLOW open failed for " ++ p
  end.

(** [errors.Is(err, target)] on two errnos. *)
Definition errnoIs (err target : Errno) : bool :=
  match err, target with
  | ELOOP, ELOOP | ENOTDIR, ENOTDIR | EISDIR, EISDIR => true
  | OtherErrno a, OtherErrno b => a =? b
  | _, _ => false
  end.

Module Unix.

Definition supportsNoFollow : bool := true.

Definition openNoFollow (open : sysOpen) (path : string) : option error :=
  match open path [O_RDONLY; O_CLOEXEC; O_NOFOLLOW] 0 with
  | inr err =>
      if errnoIs err ELOOP then Some (SymlinkLoopDetected path)
      else if errnoIs err ENOTDIR || errnoIs err EISDIR then None
      else Some (NoFollowOpenFailed path err)
  | inl fd => None
  end.

End Unix.

Module Windows.

Definition supportsNoFollow : bool := false.

Definition openNoFollow (_ : string) : option error := None.

End Windows.

End Security.

(** ** pkg/plugins: the manifest, its canonical bytes and the trust store
    (manifest.go, signature.go) *)
Module Plugins.
Import GoLib.

Record Manifest := {
  Name        : string;
  Version     : string;
  Description : string;
  Author      : string;
  Commands    : list string;
  Agents      : list string;
  Skills      : list string;
  Hooks       : gmap string (list string);
  Digest      : string;
  Signer      : string;
  Signature   : string;
  ManifestPath : string;
  PluginDir    : string;
  Trusted      : bool
}.

(** *** [json.Marshal] of the canonical payload *)

Definition hexDigit (n : Z) : ascii :=
  if n <? 10 then byte_of_Z (0x30 + n) else byte_of_Z (0x61 + n - 10).

(** [htmlSafeSet]: the ASCII bytes written as they are. *)
Definition htmlSafe (b : Z) : bool :=
  (0x20 <=? b) && negb (b =? 0x22) && negb (b =? 0x5C)
  && negb (b =? 0x3C) && negb (b =? 0x3E) && negb (b =? 0x26).

Definition bytes (s : string) : list ascii := list_ascii_of_string s.

(** The body of a JSON string ([appendString] with HTML escaping). *)
Fixpoint escapeString (fuel : nat) (s : list ascii) : list ascii :=
  match fuel, s with
  | S fuel', c :: rest =>
      let b := byteZ c in
      if b <? RuneSelf then
        (if htmlSafe b then [c]
         else if (b =? 0x5C) || (b =? 0x22) then ["\"%char; c]
         else if b =? 0x08 then bytes "\b"
         else if b =? 0x0C then bytes "\f"
         else if b =? 0x0A then bytes "\n"
         else if b =? 0x0D then bytes "\r"
         else if b =? 0x09 then bytes "\t"
         else bytes "\u00" ++ [hexDigit (Z.shiftr b 4); hexDigit (Z.land b 0xF)])
        ++ escapeString fuel' rest
      else
        let '(r, size) := DecodeRune s in
        (if (r =? RuneError) && (size =? 1)%nat then bytes "\ufffd"
         else if (r =? 0x2028) || (r =? 0x2029)
              then bytes "\u202" ++ [hexDigit (Z.land r 0xF)]
              else take size s)
        ++ escapeString fuel' (drop size s)
  | _, _ => []
  end.

Definition marshalString (s : string) : list ascii :=
  [Json.dquote] ++ escapeString (String.length s) (bytes s) ++ [Json.dquote].

Fixpoint joinComma (l : list (list ascii)) : list ascii :=
  match l with
  | [] => []
  | [x] => x
  | x :: l' => x ++ bytes "," ++ joinComma l'
  end.

(** A [[]string] built with [append([]string(nil), ...)]: nil, hence
    [null], when it has no element. *)
Definition marshalStrings (l : list string) : list ascii :=
  match l with
  | [] => bytes "null"
  | _ => bytes "[" ++ joinComma (map marshalString l) ++ bytes "]"
  end.

Definition key (name : string) : list ascii := marshalString name ++ bytes ":".

Record hookEntry := { hName : string; hValues : list string }.

Definition marshalHook (h : hookEntry) : list ascii :=
  bytes "{" ++ key "name" ++ marshalString (hName h) ++ bytes ","
  ++ key "values" ++ marshalStrings (hValues h) ++ bytes "}".

Record canonicalPayload := {
  pName : string; pVersion : string; pDescription : string; pAuthor : string;
  pCommands : list string; pAgents : list string; pSkills : list string;
  pHooks : list hookEntry; pDigest : string; pSigner : string
}.

Definition marshalPayload (p : canonicalPayload) : list ascii :=
  bytes "{" ++ key "name" ++ marshalString (pName p) ++ bytes ","
  ++ key "version" ++ marshalString (pVersion p) ++ bytes ","
  ++ key "description" ++ marshalString (pDescription p) ++ bytes ","
  ++ key "author" ++ marshalString (pAuthor p) ++ bytes ","
  ++ key "commands" ++ marshalStrings (pCommands p) ++ bytes ","
  ++ key "agents" ++ marshalStrings (pAgents p) ++ bytes ","
  ++ key "skills" ++ marshalStrings (pSkills p) ++ bytes ","
  ++ key "hooks" ++ bytes "[" ++ joinComma (map marshalHook (pHooks p)) ++ bytes "],"
  ++ key "digest" ++ marshalString (pDigest p) ++ bytes ","
  ++ key "signer" ++ marshalString (pSigner p) ++ bytes "}".

(** Two manifests that differ at most in the order of their commands,
    agents and skills and of the values under each hook. *)
Definition sameUpToOrder (m1 m2 : Manifest) : Prop :=
  Name m1 = Name m2 /\ Version m1 = Version m2
  /\ Description m1 = Description m2 /\ Author m1 = Author m2
  /\ Commands m1 ≡ₚ Commands m2
  /\ Agents m1 ≡ₚ Agents m2
  /\ Skills m1 ≡ₚ Skills m2
  /\ dom (Hooks m1) = dom (Hooks m2)
  /\ (forall k, default [] (Hooks m1 !! k) ≡ₚ default [] (Hooks m2 !! k))
  /\ Digest m1 = Digest m2 /\ Signer m1 = Signer m2
  /\ Signature m1 = Signature m2.

Section Signing.

(** The primitives of [crypto/sha256], [crypto/ed25519] and
    [encoding/base64], and [unicode.ToLower]. *)
Context {PublicKey PrivateKey : Type}.
Variable sha256 : list ascii -> list ascii.
Variable ed25519_Sign : PrivateKey -> list ascii -> list ascii.
Variable ed25519_Verify : PublicKey -> list ascii -> list ascii -> bool.
Variable base64_Encode : list ascii -> string.
Variable base64_Decode : string -> option (list ascii).
Variable unicodeToLower : Z -> Z.

Inductive error :=
| ErrTrustStoreNil
| ErrManifestNil
| ErrDigestBlocked (digest : string)
| ErrUnsigned
| ErrUnknownSigner (signer : string)
| ErrDecodeSignature
| ErrVerificationFailed.

(** [CanonicalManifestBytes]; [None] is the nil manifest. *)
Definition CanonicalManifestBytes (mf : option Manifest) : error + list ascii :=
  match mf with
  | None => inl ErrManifestNil
  | Some mf =>
      let commands := sortStrings (Commands mf) in
      let agents := sortStrings (Agents mf) in
      let skills := sortStrings (Skills mf) in
      let hookKeys := sortStrings (elements (dom (Hooks mf))) in
      let hooks :=
        map (fun name =>
               {| hName := name;
                  hValues := sortStrings (default [] (Hooks mf !! name)) |})
            hookKeys in
      inr (marshalPayload
             {| pName := Name mf; pVersion := Version mf;
                pDescription := Description mf; pAuthor := Author mf;
                pCommands := commands; pAgents := agents; pSkills := skills;
                pHooks := hooks;
                pDigest := ToLower unicodeToLower (Digest mf);
                pSigner := Signer mf |})
  end.

Definition SignManifest (mf : option Manifest) (private : PrivateKey)
  : error + string :=
  match CanonicalManifestBytes mf with
  | inl err => inl err
  | inr payload => inr (base64_Encode (ed25519_Sign private (sha256 payload)))
  end.

Record TrustStore := {
  keys           : gmap string PublicKey;
  blockedDigests : gset string;
  allowUnsigned  : bool
}.

Definition NewTrustStore : TrustStore :=
  {| keys := ∅; blockedDigests := ∅; allowUnsigned := false |}.

Definition Register (t : TrustStore) (id : string) (public : PublicKey) :=
  {| keys := <[id := public]> (keys t); blockedDigests := blockedDigests t;
     allowUnsigned := allowUnsigned t |}.

Definition BlockDigest (t : TrustStore) (digest : string) :=
  {| keys := keys t;
     blockedDigests := {[ ToLower unicodeToLower digest ]} ∪ blockedDigests t;
     allowUnsigned := allowUnsigned t |}.

Definition AllowUnsigned (t : TrustStore) (allow : bool) :=
  {| keys := keys t; blockedDigests := blockedDigests t; allowUnsigned := allow |}.

Definition isDigestBlocked (t : TrustStore) (digest : string) : bool :=
  bool_decide (ToLower unicodeToLower digest ∈ blockedDigests t).

(** [Verify]; [None] as result is [nil]. *)
Definition Verify (t : option TrustStore) (mf : option Manifest)
    (payload : list ascii) : option error :=
  match t, mf with
  | None, _ => Some ErrTrustStoreNil
  | _, None => Some ErrManifestNil
  | Some t, Some mf =>
      if isDigestBlocked t (Digest mf) then Some (ErrDigestBlocked (Digest mf))
      else if String.eqb (Signature mf) "" || String.eqb (Signer mf) "" then
        if allowUnsigned t then None else Some ErrUnsigned
      else
        match keys t !! Signer mf with
        | None => Some (ErrUnknownSigner (Signer mf))
        | Some key =>
            match base64_Decode (Signature mf) with
            | None => Some ErrDecodeSignature
            | Some sigBytes =>
                if ed25519_Verify key (sha256 payload) sigBytes then None
                else Some ErrVerificationFailed
            end
        end
  end.

End Signing.

End Plugins.

(** ** pkg/config: the settings merge.  The merge functions and the loader
    are in files that are not among the sources; their tests are
    (settings_merge_test.go, settings_loader_test.go, src/unnamed/part_007),
    and the records below have the fields those tests use. *)
Module Config.

Record PermissionsConfig := {
  Allow                 : list string;
  Ask                   : list string;
  Deny                  : list string;
  DefaultMode           : string;
  AdditionalDirectories : list string
}.

Record HooksConfig := {
  PreToolUse  : gmap string string;
  PostToolUse : gmap string string
}.

Record SandboxNetworkConfig := {
  AllowUnixSockets : list string;
  HTTPProxyPort    : option Z;
  SocksProxyPort   : option Z
}.

Record SandboxConfig := {
  Enabled                  : option bool;
  AutoAllowBashIfSandboxed : option bool;
  AllowUnsandboxedCommands : option bool;
  ExcludedCommands         : list string;
  Network                  : option SandboxNetworkConfig
}.

Record MarketplaceSource := { Source : string; Path : string }.

(** Pointers ([*bool], [*int], [*PermissionsConfig], ...) are options. *)
Record Settings := {
  APIKeyHelper           : string;
  CleanupPeriodDays      : Z;
  CompanyAnnouncements   : list string;
  Env                    : gmap string string;
  IncludeCoAuthoredBy    : option bool;
  Model                  : string;
  Permissions            : option PermissionsConfig;
  Hooks                  : option HooksConfig;
  Sandbox                : option SandboxConfig;
  EnabledPlugins         : gmap string bool;
  ExtraKnownMarketplaces : gmap string MarketplaceSource
}.

(** Modelled from the spec: the scalar rule of [MergeSettings], whose file
    (with its helpers and the loader) is not among the sources.  A scalar
    of the merged settings is the higher layer's value when that layer sets
    it (a string other than the empty one), else the lower layer's. *)
Definition mergeString (lower higher : string) : string :=
  if String.eqb higher "" then lower else higher.

(** Modelled from the spec: the integer case of the scalar rule of the
    missing [MergeSettings]; an integer is set when it is not zero. *)
Definition mergeInt (lower higher : Z) : Z :=
  if higher =? 0 then lower else higher.

(** Modelled from the spec: the pointer case of the scalar rule of the
    missing [MergeSettings]; a pointer is set when it is not nil. *)
Definition mergePtr {A : Type} (lower higher : option A) : option A :=
  match higher with
  | Some v => Some v
  | None => lower
  end.

(** Modelled from the spec: the loop of the missing [mergeStringSlices]:
    the strings of [l] that are not in [seen] and did not occur earlier in
    [l], in the order of [l]. *)
Fixpoint appendUnseen (seen : gset string) (l : list string) : list string :=
  match l with
  | [] => []
  | x :: l' =>
      if decide (x ∈ seen) then appendUnseen seen l'
      else x :: appendUnseen ({[x]} ∪ seen) l'
  end.

(** Modelled from the spec: the missing [mergeStringSlices], "lists
    concatenate with deduplication preserving order", the lower layer
    first. *)
Definition mergeStringSlices (lower higher : list string) : list string :=
  appendUnseen ∅ (lower ++ higher).

(** Modelled from the spec: the missing map merge, "maps union with higher
    wins". *)
Definition mergeMaps {V : Type} (lower higher : gmap string V) : gmap string V :=
  higher ∪ lower.

(** Modelled from the spec: the nil cases of the missing merge functions
    ("deep-merged"), as their tests have them: the other side when one
    pointer is nil, the merge [f] of the two otherwise. *)
Definition mergeNested {A : Type} (f : A -> A -> A) (lower higher : option A)
  : option A :=
  match lower, higher with
  | None, None => None
  | None, Some h => Some h
  | Some l, None => Some l
  | Some l, Some h => Some (f l h)
  end.

(** Modelled from the spec: the missing [mergePermissions] on two
    [PermissionsConfig] that are there. *)
Definition mergePermissionsConfig (l h : PermissionsConfig) : PermissionsConfig :=
  {| Allow := mergeStringSlices (Allow l) (Allow h);
     Ask := mergeStringSlices (Ask l) (Ask h);
     Deny := mergeStringSlices (Deny l) (Deny h);
     DefaultMode := mergeString (DefaultMode l) (DefaultMode h);
     AdditionalDirectories :=
       mergeStringSlices (AdditionalDirectories l) (AdditionalDirectories h) |}.

(** Modelled from the spec: the missing [mergePermissions]. *)
Definition mergePermissions := mergeNested mergePermissionsConfig.

(** Modelled from the spec: the missing deep merge of two [HooksConfig]. *)
Definition mergeHooksConfig (l h : HooksConfig) : HooksConfig :=
  {| PreToolUse := mergeMaps (PreToolUse l) (PreToolUse h);
     PostToolUse := mergeMaps (PostToolUse l) (PostToolUse h) |}.

(** Modelled from the spec: the missing deep merge of two
    [SandboxNetworkConfig]. *)
Definition mergeSandboxNetworkConfig (l h : SandboxNetworkConfig)
  : SandboxNetworkConfig :=
  {| AllowUnixSockets := mergeStringSlices (AllowUnixSockets l) (AllowUnixSockets h);
     HTTPProxyPort := mergePtr (HTTPProxyPort l) (HTTPProxyPort h);
     SocksProxyPort := mergePtr (SocksProxyPort l) (SocksProxyPort h) |}.

(** Modelled from the spec: the missing deep merge of two
    [SandboxConfig]. *)
Definition mergeSandboxConfig (l h : SandboxConfig) : SandboxConfig :=
  {| Enabled := mergePtr (Enabled l) (Enabled h);
     AutoAllowBashIfSandboxed :=
       mergePtr (AutoAllowBashIfSandboxed l) (AutoAllowBashIfSandboxed h);
     AllowUnsandboxedCommands :=
       mergePtr (AllowUnsandboxedCommands l) (AllowUnsandboxedCommands h);
     ExcludedCommands := mergeStringSlices (ExcludedCommands l) (ExcludedCommands h);
     Network := mergeNested mergeSandboxNetworkConfig (Network l) (Network h) |}.

(** Modelled from the spec: the missing [MergeSettings] on two settings
    that are there, field by field: scalars by the scalar rule, maps by
    union with the higher layer winning, lists by concatenation without
    duplicates. *)
Definition mergeSettings (l h : Settings) : Settings :=
  {| APIKeyHelper := mergeString (APIKeyHelper l) (APIKeyHelper h);
     CleanupPeriodDays := mergeInt (CleanupPeriodDays l) (CleanupPeriodDays h);
     CompanyAnnouncements :=
       mergeStringSlices (CompanyAnnouncements l) (CompanyAnnouncements h);
     Env := mergeMaps (Env l) (Env h);
     IncludeCoAuthoredBy := mergePtr (IncludeCoAuthoredBy l) (IncludeCoAuthoredBy h);
     Model := mergeString (Model l) (Model h);
     Permissions := mergePermissions (Permissions l) (Permissions h);
     Hooks := mergeNested mergeHooksConfig (Hooks l) (Hooks h);
     Sandbox := mergeNested mergeSandboxConfig (Sandbox l) (Sandbox h);
     EnabledPlugins := mergeMaps (EnabledPlugins l) (EnabledPlugins h);
     ExtraKnownMarketplaces :=
       mergeMaps (ExtraKnownMarketplaces l) (ExtraKnownMarketplaces h) |}.

(** Modelled from the spec: the missing [MergeSettings(lower, higher)], on
    pointers. *)
Definition MergeSettings (lower higher : option Settings) : option Settings :=
  mergeNested mergeSettings lower higher.

(** Modelled from the spec: the missing [GetDefaultSettings], with the
    values the loader tests read back when no layer sets them. *)
Definition GetDefaultSettings : Settings :=
  {| APIKeyHelper := ""; CleanupPeriodDays := 30; CompanyAnnouncements := [];
     Env := ∅; IncludeCoAuthoredBy := Some true; Model := "";
     Permissions :=
       Some {| Allow := []; Ask := []; Deny := [];
               DefaultMode := "askBeforeRunningTools";
               AdditionalDirectories := [] |};
     Hooks := None;
     Sandbox :=
       Some {| Enabled := Some false; AutoAllowBashIfSandboxed := Some true;
               AllowUnsandboxedCommands := None; ExcludedCommands := [];
               Network := None |};
     EnabledPlugins := ∅; ExtraKnownMarketplaces := ∅ |}.

(** Modelled from the spec: the missing loader ([SettingsLoader.Load]
    followed by the managed layer, as [loadWithManagedPath] of the tests
    runs it), "managed > runtime > local > project > user": the layers that
    exist are merged onto the defaults from the lowest to the highest. *)
Definition loadLayers (user project local runtime managed : option Settings)
  : option Settings :=
  fold_left MergeSettings [user; project; local; runtime; managed]
    (Some GetDefaultSettings).

(** When a scalar counts as set. *)
Definition stringSet (v : string) : bool := negb (String.eqb v "").
Definition intSet (v : Z) : bool := negb (v =? 0).
Definition ptrSet {A : Type} (v : option A) : bool :=
  match v with Some _ => true | None => false end.

(** The value of a field in a layer that may be missing. *)
Definition inLayer {A : Type} (f : Settings -> A) (zero : A) (layer : option Settings) : A :=
  match layer with
  | Some s => f s
  | None => zero
  end.

(** The allow list of the permissions of a layer. *)
Definition allowOf (s : Settings) : list string :=
  match Permissions s with
  | Some p => Allow p
  | None => []
  end.

(** The highest set value among [vals], given from the highest layer to
    the lowest, or [dflt]. *)
Fixpoint highestSet {A : Type} (isSet : A -> bool) (vals : list A) (dflt : A) : A :=
  match vals with
  | [] => dflt
  | v :: vals' => if isSet v then v else highestSet isSet vals' dflt
  end.

(** A list without its repeated elements, each kept where it first
    occurs. *)
Fixpoint firstOccurrences (l : list string) : list string :=
  match l with
  | [] => []
  | x :: l' => x :: filter (fun y => y ≠ x) (firstOccurrences l')
  end.

End Config.

(** ** Sample inputs *)
Module Samples.
Import GoLib.

Definition quoted (s : string) : list ascii :=
  [Json.dquote] ++ list_ascii_of_string s ++ [Json.dquote].

Definition text (s : string) : list ascii := list_ascii_of_string s.

(** The body [{"prompt":"hi"}]. *)
Definition helloBody : list ascii :=
  text "{" ++ quoted "prompt" ++ text ":" ++ quoted "hi" ++ text "}".

(** The same object followed by [n] spaces. *)
Definition paddedBody (n : nat) : list ascii := helloBody ++ replicate n " "%char.

(** The object with a prompt of two spaces. *)
Definition blankBody : list ascii :=
  text "{" ++ quoted "prompt" ++ text ":" ++ quoted "  " ++ text "}".

(** An object with a session id. *)
Definition sessionBody : list ascii :=
  text "{" ++ quoted "prompt" ++ text ":" ++ quoted "hi" ++ text ","
  ++ quoted "session_id" ++ text ":" ++ quoted "s-1" ++ text "}".

(** A body of [n + 1] bytes that is no JSON. *)
Definition junkBody (n : nat) : list ascii := "x"%char :: replicate n " "%char.

Definition helloRequest : Http.runRequest :=
  {| Http.Prompt := "hi"; Http.SessionID := ""; Http.TimeoutMs := 0;
     Http.Tags := ∅; Http.Traits := []; Http.Channels := [];
     Http.Metadata := ∅; Http.ToolWhitelist := [] |}.

Definition post (body : list ascii) : Http.httpRequest :=
  {| Http.Method := "POST"; Http.Body := Some body |}.

Definition doneResponse : Api.Response unit unit unit :=
  {| Api.Result_ := Some {| Api.Output := "done"; Api.StopReason := "done";
                            Api.Usage_ := tt; Api.ToolCalls := [] |};
     Api.Tags_ := None;
     Api.SandboxSnapshot := tt |}.

(** A runtime whose runs succeed, and one whose runs fail with an error of
    kind [k]. *)
Definition okRuntime : @Http.Runtime unit unit unit unit :=
  {| Http.Run := fun _ _ => inl (Some doneResponse);
     Http.RunStream := fun _ _ => None |}.

Definition failingRuntime (k : Api.ErrorKind) : @Http.Runtime unit unit unit unit :=
  {| Http.Run := fun _ _ => inr {| Api.kind := k; Api.text := "run failed" |};
     Http.RunStream := fun _ _ => Some {| Api.kind := k; Api.text := "run failed" |} |}.

Definition server (rt : @Http.Runtime unit unit unit unit) : Http.httpServer :=
  {| Http.runtime := rt; Http.mode := tt; Http.defaultTimeout := 0;
     Http.staticDir := "" |}.

Definition noMarshal (e : unit) : option (list ascii) := None.

(** A file system in which [/work/link] is a symbolic link, [/work/dir] a
    directory that cannot be opened for reading, and [/work/file] a file. *)
Definition sampleOpen : Security.sysOpen :=
  fun path flags _ =>
    if String.eqb path "/work/link" then
      if existsb (fun f => match f with Security.O_NOFOLLOW => true | _ => false end) flags
      then inr Security.ELOOP else inl 3
    else if String.eqb path "/work/dir" then inr Security.EISDIR
    else if String.eqb path "/work/file" then inl 3
    else inr (Security.OtherErrno 2).

(** Two manifests with the same lists in different orders. *)
Definition manifestA : Plugins.Manifest :=
  {| Plugins.Name := "demo"; Plugins.Version := "1.2.3";
     Plugins.Description := "a <demo>"; Plugins.Author := "dev";
     Plugins.Commands := ["run"; "build"]; Plugins.Agents := [];
     Plugins.Skills := ["b"; "a"; "c"];
     Plugins.Hooks := {[ "pre" := ["y"; "x"] ]};
     Plugins.Digest := "ABCD"; Plugins.Signer := "dev"; Plugins.Signature := "c2ln";
     Plugins.ManifestPath := ""; Plugins.PluginDir := ""; Plugins.Trusted := false |}.

Definition manifestB : Plugins.Manifest :=
  {| Plugins.Name := "demo"; Plugins.Version := "1.2.3";
     Plugins.Description := "a <demo>"; Plugins.Author := "dev";
     Plugins.Commands := ["build"; "run"]; Plugins.Agents := [];
     Plugins.Skills := ["a"; "b"; "c"];
     Plugins.Hooks := {[ "pre" := ["x"; "y"] ]};
     Plugins.Digest := "ABCD"; Plugins.Signer := "dev"; Plugins.Signature := "c2ln";
     Plugins.ManifestPath := "/p/plugin.json"; Plugins.PluginDir := "/p";
     Plugins.Trusted := true |}.

(** Stand-ins for the cryptographic primitives. *)
Definition toyHash (l : list ascii) : list ascii := l.
Definition toySign (k : nat) (h : list ascii) : list ascii := h.
Definition toyVerify (k : nat) (h sig : list ascii) : bool := bool_decide (h = sig).
Definition toyEncode (l : list ascii) : string := string_of_list_ascii l.
Definition toyDecode (s : string) : option (list ascii) := Some (list_ascii_of_string s).
Definition toyLower (r : Z) : Z := r.

Definition sampleTimeout : Z := 30 * 1000000000.

(** The two layers of [TestMergeSettingsDeepCopyAndOverrides]. *)
Definition lowerSettings : Config.Settings :=
  {| Config.APIKeyHelper := "lower-helper"; Config.CleanupPeriodDays := 30;
     Config.CompanyAnnouncements := ["a"];
     Config.Env := {[ "K1" := "V1"; "shared" := "low" ]};
     Config.IncludeCoAuthoredBy := Some true; Config.Model := "claude-3";
     Config.Permissions :=
       Some {| Config.Allow := ["fs"]; Config.Ask := ["net"]; Config.Deny := [];
               Config.DefaultMode := "askBeforeRunningTools";
               Config.AdditionalDirectories := ["/data"] |};
     Config.Hooks :=
       Some {| Config.PreToolUse := {[ "bash" := "echo low" ]};
               Config.PostToolUse := ∅ |};
     Config.Sandbox :=
       Some {| Config.Enabled := Some false; Config.AutoAllowBashIfSandboxed := None;
               Config.AllowUnsandboxedCommands := None;
               Config.ExcludedCommands := ["rm"];
               Config.Network :=
                 Some {| Config.AllowUnixSockets := ["/tmp/agent.sock"];
                         Config.HTTPProxyPort := None;
                         Config.SocksProxyPort := None |} |};
     Config.EnabledPlugins := {[ "p1" := true ]};
     Config.ExtraKnownMarketplaces := ∅ |}.

Definition higherSettings : Config.Settings :=
  {| Config.APIKeyHelper := ""; Config.CleanupPeriodDays := 7;
     Config.CompanyAnnouncements := ["b"; "a"];
     Config.Env := {[ "K2" := "V2"; "shared" := "high" ]};
     Config.IncludeCoAuthoredBy := Some false; Config.Model := "claude-3-5";
     Config.Permissions :=
       Some {| Config.Allow := ["fs"; "net"]; Config.Ask := ["net"]; Config.Deny := [];
               Config.DefaultMode := "acceptEdits";
               Config.AdditionalDirectories := [] |};
     Config.Hooks :=
       Some {| Config.PreToolUse := {[ "bash" := "echo high" ]};
               Config.PostToolUse := {[ "bash" := "echo done" ]} |};
     Config.Sandbox :=
       Some {| Config.Enabled := Some true; Config.AutoAllowBashIfSandboxed := None;
               Config.AllowUnsandboxedCommands := None;
               Config.ExcludedCommands := ["sudo"];
               Config.Network :=
                 Some {| Config.AllowUnixSockets :=
                           ["/tmp/agent.sock"; "/var/run/docker.sock"];
                         Config.HTTPProxyPort := Some 8080;
                         Config.SocksProxyPort := None |} |};
     Config.EnabledPlugins := {[ "p2" := true; "p1" := false ]};
     Config.ExtraKnownMarketplaces := ∅ |}.

(** Layers in the manner of the "full five layers" test of the loader: a
    layer that sets a model, an environment, an allow list and plugins. *)
Definition layer (model : string) (days : Z) (env : gmap string string)
    (allow : list string) (plugins : gmap string bool) : Config.Settings :=
  {| Config.APIKeyHelper := ""; Config.CleanupPeriodDays := days;
     Config.CompanyAnnouncements := []; Config.Env := env;
     Config.IncludeCoAuthoredBy := None; Config.Model := model;
     Config.Permissions :=
       Some {| Config.Allow := allow; Config.Ask := []; Config.Deny := [];
               Config.DefaultMode := ""; Config.AdditionalDirectories := [] |};
     Config.Hooks := None; Config.Sandbox := None;
     Config.EnabledPlugins := plugins; Config.ExtraKnownMarketplaces := ∅ |}.

Definition userCfg := layer "user-model" 60 {[ "A" := "1" ]} ["Bash(home:*)"]
                        {[ "alpha@core" := true ]}.
Definition projectCfg := layer "project-model" 20 {[ "A" := "2"; "B" := "p" ]}
                           ["Bash(home:*)"; "Bash(proj:*)"]
                           {[ "alpha@core" := false; "beta@core" := true ]}.
Definition localCfg := layer "local-model" 0 {[ "B" := "local"; "C" := "3" ]} []
                         {[ "beta@core" := false; "local@oss" := true ]}.
Definition runtimeCfg := layer "runtime-model" 0 {[ "C" := "runtime" ]} []
                           {[ "runtime@oss" := true ]}.
Definition managedCfg := layer "managed-model" 0 {[ "C" := "managed" ]}
                           ["Bash(managed:*)"] {[ "alpha@core" := true ]}.

End Samples.

(** ** The rounds of the streaming loop

    What one round of the [select] of [handleStream] does, by the case
    that fires (part_000, l.120-150). *)
Module StreamLoop.
Import GoLib Http.
Section Handlers.
Context {StreamEvent : Type}.
Variable Marshal : StreamEvent -> option (list ascii).

(** The rounds of the streaming loop that end it: the channel is closed,
    the context is done, or the event cannot be marshalled. *)
Definition endsStream (c : @selectCase StreamEvent) : bool :=
  match c with
  | RecvEvent e => match Marshal e with Some _ => false | None => true end
  | RecvClosed | CtxDone => true
  | TickerFired => false
  end.

(** The frame written in a round that does not end the loop. *)
Definition frameOf (c : @selectCase StreamEvent) : list ascii :=
  match c with
  | RecvEvent e => frame (default [] (Marshal e))
  | _ => pingFrame
  end.

End Handlers.
End StreamLoop.

(** ** The trust store over a sequence of calls (pkg/plugins/signature.go) *)
Module TrustOps.
Import GoLib Plugins.

Section Ops.
Context {PublicKey : Type}.
Variable unicodeToLower : Z -> Z.

(** The calls that change a trust store. *)
Inductive storeOp :=
| OpRegister (id : string) (public : PublicKey)
| OpBlockDigest (digest : string)
| OpAllowUnsigned (allow : bool).

Definition applyOp (t : @TrustStore PublicKey) (op : storeOp) : TrustStore :=
  match op with
  | OpRegister id public => Register t id public
  | OpBlockDigest digest => BlockDigest unicodeToLower t digest
  | OpAllowUnsigned allow => AllowUnsigned t allow
  end.

Definition applyOps (ops : list storeOp) (t : @TrustStore PublicKey) : TrustStore :=
  fold_left applyOp ops t.

End Ops.

(** [mf.Signature = sig], as the signing tools do after [SignManifest]. *)
Definition withSignature (mf : Manifest) (sig : string) : Manifest :=
  {| Name := Name mf; Version := Version mf; Description := Description mf;
     Author := Author mf; Commands := Commands mf; Agents := Agents mf;
     Skills := Skills mf; Hooks := Hooks mf; Digest := Digest mf;
     Signer := Signer mf; Signature := sig;
     ManifestPath := ManifestPath mf; PluginDir := PluginDir mf;
     Trusted := Trusted mf |}.

End TrustOps.

(** ** pkg/plugins/manifest.go: normalising, validating, hashing and loading
    a manifest *)
Module Manifests.
Import GoLib Plugins.

Definition manifestFileName : string := "plugin.json".

(** *** [pluginNamePattern], the regular expression
    [^[a-z0-9][a-z0-9_-]{1,63}$]: both ends are anchored, so the match is
    on the whole text; a byte outside ASCII is in neither class. *)
Definition isLowerAlnum (c : ascii) : bool :=
  inRange 0x61 0x7A (byteZ c) || inRange 0x30 0x39 (byteZ c).

Definition isNameByte (c : ascii) : bool :=
  isLowerAlnum c || Ascii.eqb c "_" || Ascii.eqb c "-".

Definition pluginNamePattern (s : string) : bool :=
  match list_ascii_of_string s with
  | c :: rest =>
      isLowerAlnum c && forallb isNameByte rest
      && (1 <=? length rest)%nat && (length rest <=? 63)%nat
  | [] => false
  end.

(** *** [encoding/hex] *)
Definition isHexDigit (c : ascii) : bool :=
  inRange 0x30 0x39 (byteZ c) || inRange 0x61 0x66 (byteZ c)
  || inRange 0x41 0x46 (byteZ c).

(** Whether [hex.DecodeString] returns no error: an even number of
    hexadecimal digits. *)
Definition hexDecodable (s : string) : bool :=
  Nat.even (String.length s) && forallb isHexDigit (list_ascii_of_string s).

(** [hex.EncodeToString]: two lower-case digits for each byte. *)
Definition hexEncodeToString (l : list ascii) : string :=
  string_of_list_ascii
    (flat_map (fun c => [hexDigit (Z.shiftr (byteZ c) 4); hexDigit (Z.land (byteZ c) 0xF)]) l).

(** *** Normalisation *)

(** [normalizeList]: the set of the trimmed entries that are not empty,
    sorted.  The keys of the map [uniq] are distinct, so the order in
    which [range] yields them does not show after [sort.Strings]. *)
Definition normalizeList (values : list string) : list string :=
  if (length values =? 0)%nat then []
  else
    let uniq : gset string :=
      list_to_set (filter (fun trimmed => trimmed <> "") (map TrimSpace values)) in
    sortStrings (elements uniq).

(** The loop of [normalizeHookMap] over the entries of the map in the
    order in which [range] yields them. *)
Definition normalizeHookEntries (entries : list (string * list string))
  : gmap string (list string) :=
  fold_left
    (fun out kv =>
       let trimmedKey := TrimSpace (fst kv) in
       if String.eqb trimmedKey "" then out
       else
         let normVals := normalizeList (snd kv) in
         if (length normVals =? 0)%nat then out
         else <[trimmedKey := normVals]> out)
    entries ∅.

(** [normalizeHookMap], with [range] in the order of [map_to_list]. *)
Definition normalizeHookMap (src : gmap string (list string))
  : gmap string (list string) :=
  if (size src =? 0)%nat then ∅ else normalizeHookEntries (map_to_list src).

(** [normalizeManifest] on a manifest that is not nil. *)
Definition normalizeManifest (m : Manifest) : Manifest :=
  {| Name := TrimSpace (Name m);
     Version := TrimSpace (Version m);
     Description := TrimSpace (Description m);
     Author := TrimSpace (Author m);
     Commands := normalizeList (Commands m);
     Agents := normalizeList (Agents m);
     Skills := normalizeList (Skills m);
     Hooks := normalizeHookMap (Hooks m);
     Digest := Digest m; Signer := Signer m; Signature := Signature m;
     ManifestPath := ManifestPath m; PluginDir := PluginDir m;
     Trusted := Trusted m |}.

(** *** Validation *)

Inductive fieldError :=
| ErrManifestIsNil
| ErrInvalidName (name : string)
| ErrInvalidSemver (version : string)
| ErrEmptyCommand (i : nat)
| ErrEmptyAgent (i : nat)
| ErrEmptySkill (i : nat)
| ErrDigestLength
| ErrInvalidDigest.

(** The index of the first entry that is blank, counting from [i]. *)
Fixpoint firstBlank (i : nat) (l : list string) : option nat :=
  match l with
  | [] => None
  | s :: l' =>
      if String.eqb (TrimSpace s) "" then Some i else firstBlank (S i) l'
  end.

(** [strings.HasPrefix]. *)
Definition HasPrefix (s prefix : string) : bool := String.prefix prefix s.

Section Loading.

(** [semver.IsValid] of golang.org/x/mod, [strings.EqualFold], and the
    primitives of the trust store. *)
Context {PublicKey : Type}.
Variable semver_IsValid : string -> bool.
Variable EqualFold : string -> string -> bool.
Variable sha256 : list ascii -> list ascii.
Variable ed25519_Verify : PublicKey -> list ascii -> list ascii -> bool.
Variable base64_Decode : string -> option (list ascii).
Variable unicodeToLower : Z -> Z.

Definition IsSemVer (version : string) : bool :=
  if String.eqb version "" then false
  else
    let normalized := if HasPrefix version "v" then version else String.append "v" version in
    semver_IsValid normalized.

(** [validateManifestFields]; [None] as argument is the nil manifest,
    [None] as result is [nil]. *)
Definition validateManifestFields (m : option Manifest) : option fieldError :=
  match m with
  | None => Some ErrManifestIsNil
  | Some m =>
      if negb (pluginNamePattern (Name m)) then Some (ErrInvalidName (Name m))
      else if negb (IsSemVer (Version m)) then Some (ErrInvalidSemver (Version m))
      else
        match firstBlank 0 (Commands m) with
        | Some i => Some (ErrEmptyCommand i)
        | None =>
          match firstBlank 0 (Agents m) with
          | Some i => Some (ErrEmptyAgent i)
          | None =>
            match firstBlank 0 (Skills m) with
            | Some i => Some (ErrEmptySkill i)
            | None =>
                if negb (String.eqb (Digest m) "") then
                  if negb (String.length (Digest m) =? 64)%nat then Some ErrDigestLength
                  else if negb (hexDecodable (Digest m)) then Some ErrInvalidDigest
                  else None
                else None
            end
          end
        end
  end.

(** *** The digest *)

(** A [[]string] that is not nil: an array, also when it is empty. *)
Definition marshalStringSlice (l : list string) : list ascii :=
  bytes "[" ++ joinComma (map marshalString l) ++ bytes "]".

(** A [map[string][]string] with entries: an object with the keys in
    sorted order.  The slice under a key is taken not to be nil. *)
Definition marshalHookMap (h : gmap string (list string)) : list ascii :=
  bytes "{"
  ++ joinComma (map (fun k => key k ++ marshalStringSlice (default [] (h !! k)))
                    (sortStrings (elements (dom h))))
  ++ bytes "}".

(** A field with [omitempty]. *)
Definition omitEmpty (empty : bool) (name : string) (value : list ascii) : list ascii :=
  if empty then [] else bytes "," ++ key name ++ value.

(** [json.Marshal] of the payload of [computeManifestDigest]. *)
Definition digestPayload (m : Manifest) : list ascii :=
  bytes "{" ++ key "name" ++ marshalString (Name m) ++ bytes ","
  ++ key "version" ++ marshalString (Version m) ++ bytes ","
  ++ key "description" ++ marshalString (Description m) ++ bytes ","
  ++ key "author" ++ marshalString (Author m)
  ++ omitEmpty (length (Commands m) =? 0)%nat "commands" (marshalStringSlice (Commands m))
  ++ omitEmpty (length (Agents m) =? 0)%nat "agents" (marshalStringSlice (Agents m))
  ++ omitEmpty (length (Skills m) =? 0)%nat "skills" (marshalStringSlice (Skills m))
  ++ omitEmpty (size (Hooks m) =? 0)%nat "hooks" (marshalHookMap (Hooks m))
  ++ bytes "}".

Definition computeManifestDigest (m : option Manifest) : fieldError + string :=
  match m with
  | None => inl ErrManifestIsNil
  | Some m => inr (hexEncodeToString (sha256 (digestPayload m)))
  end.

(** *** Loading *)

(** An error of the [os] package: [fs.ErrNotExist] or another one. *)
Inductive osError :=
| ErrNotExist
| ErrOther (msg : string).

Record FileInfo := { IsDir : bool }.

(** The file system and the path functions [LoadManifest] calls:
    [os.Stat], [os.ReadFile], [filepath.Abs], [filepath.Dir],
    [filepath.Base] and [filepath.Join]; and [json.Unmarshal] into a
    [Manifest] ([None] is an error). *)
Record host := {
  Stat      : string -> osError + FileInfo;
  ReadFile  : string -> osError + list ascii;
  Abs       : string -> osError + string;
  Dir       : string -> string;
  Base      : string -> string;
  Join      : list string -> string;
  Unmarshal : list ascii -> option Manifest
}.

Record manifestOptions := {
  trust : option (@TrustStore PublicKey);
  root  : string
}.

Inductive ManifestOption :=
| WithTrustStore (store : option (@TrustStore PublicKey))
| WithRoot (root : string).

Definition applyOption (opts : manifestOptions) (fn : ManifestOption)
  : manifestOptions :=
  match fn with
  | WithTrustStore store => {| trust := store; root := root opts |}
  | WithRoot r => {| trust := trust opts; root := r |}
  end.

Inductive loadError :=
| ErrStat (e : osError)
| ErrIsDirectory (path : string)
| ErrReadManifest (e : osError)
| ErrDecodeManifest
| ErrResolveRoot (e : osError)
| ErrResolvePluginDir (e : osError)
| ErrOutsideRoot (dir : string)
| ErrFields (e : fieldError)
| ErrDigestMismatch (want computed : string)
| ErrTrust (e : Plugins.error)
| ErrAbs (e : osError).

Definition setDigest (mf : Manifest) (digest : string) : Manifest :=
  {| Name := Name mf; Version := Version mf; Description := Description mf;
     Author := Author mf; Commands := Commands mf; Agents := Agents mf;
     Skills := Skills mf; Hooks := Hooks mf; Digest := digest;
     Signer := Signer mf; Signature := Signature mf;
     ManifestPath := ManifestPath mf; PluginDir := PluginDir mf;
     Trusted := Trusted mf |}.

Definition setLoaded (mf : Manifest) (manifestAbs pluginDirAbs : string) : Manifest :=
  {| Name := Name mf; Version := Version mf; Description := Description mf;
     Author := Author mf; Commands := Commands mf; Agents := Agents mf;
     Skills := Skills mf; Hooks := Hooks mf; Digest := Digest mf;
     Signer := Signer mf; Signature := Signature mf;
     ManifestPath := manifestAbs; PluginDir := pluginDirAbs;
     Trusted := true |}.

Definition LoadManifest (h : host) (path : string) (opts : list ManifestOption)
  : loadError + Manifest :=
  match Stat h path with
  | inl err => inl (ErrStat err)
  | inr info =>
    if IsDir info then inl (ErrIsDirectory path)
    else
      match ReadFile h path with
      | inl err => inl (ErrReadManifest err)
      | inr data =>
        let opt := fold_left applyOption opts {| trust := None; root := "" |} in
        match Unmarshal h data with
        | None => inl ErrDecodeManifest
        | Some mf =>
          let manifestDir := Dir h path in
          let pluginDir :=
            if String.eqb (Base h manifestDir) ".claude-plugin"
            then Dir h manifestDir else manifestDir in
          let root := if String.eqb (root opt) "" then pluginDir else root opt in
          match Abs h root with
          | inl err => inl (ErrResolveRoot err)
          | inr rootAbs =>
            match Abs h pluginDir with
            | inl err => inl (ErrResolvePluginDir err)
            | inr pluginDirAbs =>
              if negb (HasPrefix pluginDirAbs rootAbs)
              then inl (ErrOutsideRoot pluginDirAbs)
              else
                let mf := normalizeManifest mf in
                match validateManifestFields (Some mf) with
                | Some err => inl (ErrFields err)
                | None =>
                  match computeManifestDigest (Some mf) with
                  | inl err => inl (ErrFields err)
                  | inr computedDigest =>
                    if negb (String.eqb (Digest mf) "")
                       && negb (EqualFold (Digest mf) computedDigest)
                    then inl (ErrDigestMismatch (Digest mf) computedDigest)
                    else
                      let mf := setDigest mf computedDigest in
                      match CanonicalManifestBytes unicodeToLower (Some mf) with
                      | inl err => inl (ErrTrust err)
                      | inr payload =>
                        let verdict :=
                          match trust opt with
                          | Some t =>
                              Verify sha256 ed25519_Verify base64_Decode unicodeToLower
                                (Some t) (Some mf) payload
                          | None => None
                          end in
                        match verdict with
                        | Some err => inl (ErrTrust err)
                        | None =>
                          match Abs h path with
                          | inl err => inl (ErrAbs err)
                          | inr manifestAbs => inr (setLoaded mf manifestAbs pluginDirAbs)
                          end
                        end
                      end
                  end
                end
            end
          end
        end
      end
  end.

Inductive findError :=
| ErrFindStat (e : osError)
| ErrManifestNotFound (dir : string).

(** [FindManifest]: the manifest under [.claude-plugin] first, then the
    one directly in [dir]. *)
Definition FindManifest (h : host) (dir : string) : findError + string :=
  let primary := Join h [dir; ".claude-plugin"; manifestFileName] in
  let alt := Join h [dir; manifestFileName] in
  let second :=
    match Stat h alt with
    | inr info =>
        if negb (IsDir info) then inr alt else inl (ErrManifestNotFound dir)
    | inl ErrNotExist => inl (ErrManifestNotFound dir)
    | inl err => inl (ErrFindStat err)
    end in
  match Stat h primary with
  | inr info => if negb (IsDir info) then inr primary else second
  | inl ErrNotExist => second
  | inl err => inl (ErrFindStat err)
  end.

End Loading.

End Manifests.

(** ** pkg/plugins/marketplace_loader.go: the requests of a marketplace
    configuration *)
Module Marketplace.
Import GoLib.

Record MarketplaceSource := {
  Source : string;
  Repo   : string;
  URL    : string;
  Path   : string
}.

(** The field [Source] of an entry is [EntrySource] here, the field [Name]
    of a manifest [MarketName]. *)
Record MarketplacePluginEntry := {
  Name        : string;
  Description : string;
  Version     : string;
  EntrySource : MarketplaceSource
}.

Record MarketplaceManifest := {
  MarketName : string;
  Plugins    : list MarketplacePluginEntry
}.

(** [PluginByName]: the first entry with the name. *)
Definition PluginByName (m : MarketplaceManifest) (name : string)
  : option MarketplacePluginEntry :=
  List.find (fun e => String.eqb (Name e) name) (Plugins m).

(** [strings.Split(s, sep)] for a separator of one byte: the pieces
    between the occurrences of the separator, of which there is always at
    least one. *)
Fixpoint splitBytes (sep : ascii) (s : list ascii) : list (list ascii) :=
  match s with
  | [] => [[]]
  | c :: s' =>
      if Ascii.eqb c sep then [] :: splitBytes sep s'
      else
        match splitBytes sep s' with
        | piece :: pieces => (c :: piece) :: pieces
        | [] => [[c]]
        end
  end.

Definition Split (s : string) (sep : ascii) : list string :=
  map string_of_list_ascii (splitBytes sep (list_ascii_of_string s)).

Inductive keyError :=
| ErrKeyFormat (key : string)
| ErrKeyParts (key : string).

Definition parsePluginKey (key : string) : keyError + (string * string) :=
  match Split (TrimSpace key) "@" with
  | [a; b] =>
      let plugin := TrimSpace a in
      let market := TrimSpace b in
      if String.eqb plugin "" || String.eqb market "" then inl (ErrKeyParts key)
      else inr (plugin, market)
  | _ => inl (ErrKeyFormat key)
  end.

(** The first loop of [groupRequestedPlugins] over the entries of the map
    in the order in which [range] yields them. *)
Fixpoint groupEntries (entries : list (string * bool))
    (grouped : gmap string (list string)) : keyError + gmap string (list string) :=
  match entries with
  | [] => inr grouped
  | (key, on) :: rest =>
      if negb on then groupEntries rest grouped
      else
        match parsePluginKey key with
        | inl err => inl err
        | inr (plugin, market) =>
            groupEntries rest
              (<[market := default [] (grouped !! market) ++ [plugin]]> grouped)
        end
  end.

(** Both loops, for a given order of the first. *)
Definition groupRequested (order : list (string * bool))
  : keyError + gmap string (list string) :=
  match groupEntries order ∅ with
  | inl err => inl err
  | inr grouped => inr (sortStrings <$> grouped)
  end.

(** [groupRequestedPlugins], with [range] in the order of [map_to_list]. *)
Definition groupRequestedPlugins (enabled : gmap string bool)
  : keyError + gmap string (list string) :=
  groupRequested (map_to_list enabled).

(** The plugins that the keys switched on in [entries] request from
    [market], in the order of the entries. *)
Definition requestedFrom (market : string) (entries : list (string * bool))
  : list string :=
  omap (fun kv : string * bool =>
          if snd kv then
            match parsePluginKey (fst kv) with
            | inr (plugin, m) => if String.eqb m market then Some plugin else None
            | inl _ => None
            end
          else None)
       entries.

Definition mergeMarketplaceSources (base extra : gmap string MarketplaceSource)
  : gmap string MarketplaceSource :=
  if (size base =? 0)%nat && (size extra =? 0)%nat then ∅
  else extra ∪ base.

Definition defaultMarketplaces : gmap string MarketplaceSource := ∅.

Inductive sourceError :=
| ErrSourceNil
| ErrSourceEmpty
| ErrSourceUnsupported (source : string).

Definition validateMarketplaceSource (src : option MarketplaceSource)
  : option sourceError :=
  match src with
  | None => Some ErrSourceNil
  | Some src =>
      if String.eqb (Source src) "github" || String.eqb (Source src) "git"
         || String.eqb (Source src) "directory" then None
      else if String.eqb (Source src) "" then Some ErrSourceEmpty
      else Some (ErrSourceUnsupported (Source src))
  end.

End Marketplace.

(** ** The plugin loader (src/unnamed/part_005, package plugins) *)
Module ClaudePlugins.
Import GoLib.

Record MCPConfig := {
  MCPPath : string;
  Data    : gmap string Json.value
}.

Record ClaudePlugin := {
  Name        : string;
  Version     : string;
  Description : string;
  Author      : string;
  RootDir     : string;
  Commands    : list string;
  Agents      : list string;
  Skills      : list string;
  Hooks       : gmap string (list string);
  MCPConfig_  : option MCPConfig
}.

(** [FilterEnabledPlugins]; an element [None] of the list is a nil
    pointer. *)
Definition FilterEnabledPlugins (plugins : list (option ClaudePlugin))
    (enabledPlugins : gmap string bool) : list (option ClaudePlugin) :=
  if (size enabledPlugins =? 0)%nat then plugins
  else
    List.filter
      (fun p =>
         match p with
         | None => false
         | Some p =>
             match enabledPlugins !! Name p with
             | Some allowed => allowed
             | None => true
             end
         end)
      plugins.

Definition sortedCopy (values : list string) : list string :=
  if (length values =? 0)%nat then [] else sortStrings values.

End ClaudePlugins.

(** ** examples/middleware: the helpers (src/unnamed/part_003), the
    security middleware (src/unnamed/part_002) and the monitoring
    middleware (the second file in src/examples/cli/basic.go) *)
Module Middleware.
Import GoLib.

(** A value stored under [any], told apart as the hooks' type assertions
    do. *)
Inductive any :=
| AnyString (s : string)
| AnyStrings (l : list string)
| AnyTime (t : Z)
| AnyOther.

Definition requestIDKey : string := "request_id".
Definition startedAtKey : string := "started_at".
Definition promptKey : string := "prompt".
Definition securityFlagsKey : string := "security.flags".

(** The suffix of a clamped preview, as the source file has it. *)
Definition ellipsis : string := "â€¦".

Definition clampPreview (s : string) (max : Z) : string :=
  if max <=? 0 then ""
  else
    let s := TrimSpace s in
    if Z.of_nat (String.length s) <=? max then s
    else String.append
           (string_of_list_ascii (take (Z.to_nat max) (list_ascii_of_string s)))
           ellipsis.

(** [readString]; a nil map has no entries. *)
Definition readString (m : gmap string any) (key : string) : string :=
  match m !! key with
  | Some (AnyString s) => s
  | _ => ""
  end.

Definition nowOr (stored : option any) (fallback : Z) : Z :=
  match stored with
  | Some (AnyTime t) => t
  | _ => fallback
  end.

(** *** [pkg/agent] and [pkg/middleware], which are not among the sources:
    the fields the hooks read and write.  A field of type [any] is given
    by the result of the type assertion the hooks make on it: [None] when
    the assertion fails or the pointer is nil. *)
Record AgentContext := { CtxValues : gmap string any }.

Record ModelOutput := { Content : string }.

Record ToolCall := { CallName : string; Input : gmap string any }.

Record ToolResult := { ResultName : string; Output : string }.

(** [Values] is [None] for a nil map: reading it finds nothing, writing
    to it panics. *)
Record State := {
  Agent        : option AgentContext;
  Values       : option (gmap string any);
  ModelOutput_ : option ModelOutput;
  ToolCall_    : option ToolCall;
  ToolResult_  : option ToolResult;
  Iteration    : Z
}.

Definition setValues (st : State) (vals : gmap string any) : State :=
  {| Agent := Agent st; Values := Some vals; ModelOutput_ := ModelOutput_ st;
     ToolCall_ := ToolCall_ st; ToolResult_ := ToolResult_ st;
     Iteration := Iteration st |}.

Definition valuesOf (st : State) : gmap string any := default ∅ (Values st).

(** What a hook does: it returns an error or [nil] and leaves a state, or
    it panics. *)
Inductive hookResult (E : Type) :=
| Returned (err : option E) (st : State)
| Panicked.
Arguments Returned {E} err st.
Arguments Panicked {E}.

(** *** The security middleware *)

(** [strings.Contains]. *)
Fixpoint hasPrefixBytes (prefix s : list ascii) : bool :=
  match prefix, s with
  | [], _ => true
  | p :: prefix', c :: s' => Ascii.eqb p c && hasPrefixBytes prefix' s'
  | _ :: _, [] => false
  end.

Fixpoint containsBytes (s substr : list ascii) : bool :=
  hasPrefixBytes substr s
  || match s with
     | [] => false
     | _ :: s' => containsBytes s' substr
     end.

Definition Contains (s substr : string) : bool :=
  containsBytes (list_ascii_of_string s) (list_ascii_of_string substr).

Record securityMiddleware := { blocked : list string }.

Definition newSecurityMiddleware (blocked : list string) : securityMiddleware :=
  if (length blocked =? 0)%nat
  then {| blocked := ["drop table"; "rm -rf"; "system.exit"] |}
  else {| blocked := blocked |}.

Inductive securityError :=
| ErrMissingContext
| ErrEmptyPrompt
| ErrPromptBlocked (hit : string)
| ErrOutputBlocked (hit : string)
| ErrToolMissingQuery (tool : string)
| ErrToolOutputBlocked (tool hit : string).

Section Security.

(** [unicode.ToLower], for [strings.ToLower]. *)
Variable unicodeToLower : Z -> Z.

Definition detect (m : securityMiddleware) (s : string) : string :=
  let text := ToLower unicodeToLower s in
  match List.find (fun b => Contains text (ToLower unicodeToLower b)) (blocked m) with
  | Some b => b
  | None => ""
  end.

(** [noteFlag]: the flags read with a type assertion, the message
    appended, the result stored. *)
Definition noteFlag (st : State) (msg : string) : option State :=
  let flags :=
    match valuesOf st !! securityFlagsKey with
    | Some (AnyStrings l) => l
    | _ => []
    end in
  match Values st with
  | None => None
  | Some vals => Some (setValues st (<[securityFlagsKey := AnyStrings (flags ++ [msg])]> vals))
  end.

Definition securityBeforeAgent (m : securityMiddleware) (st : State)
  : hookResult securityError :=
  match Agent st with
  | None => Returned (Some ErrMissingContext) st
  | Some ctx =>
      let prompt := readString (CtxValues ctx) promptKey in
      if String.eqb prompt "" then Returned (Some ErrEmptyPrompt) st
      else
        let hit := detect m prompt in
        if negb (String.eqb hit "") then Returned (Some (ErrPromptBlocked hit)) st
        else
          match Values st with
          | None => Panicked
          | Some vals =>
              match noteFlag (setValues st (<[securityFlagsKey := AnyStrings []]> vals))
                      "prompt validated" with
              | Some st' => Returned None st'
              | None => Panicked
              end
          end
  end.

Definition securityAfterModel (m : securityMiddleware) (st : State)
  : hookResult securityError :=
  match ModelOutput_ st with
  | Some out =>
      let hit := detect m (Content out) in
      if negb (String.eqb hit "") then Returned (Some (ErrOutputBlocked hit)) st
      else Returned None st
  | None => Returned None st
  end.

(** A failed assertion on [st.ToolCall] leaves the zero [ToolCall]. *)
Definition securityBeforeTool (m : securityMiddleware) (st : State)
  : hookResult securityError :=
  let call := default {| CallName := ""; Input := ∅ |} (ToolCall_ st) in
  let query := readString (Input call) "query" in
  if String.eqb (TrimSpace query) "" then
    Returned (Some (ErrToolMissingQuery (CallName call))) st
  else
    match noteFlag st "tool params ok" with
    | Some st' => Returned None st'
    | None => Panicked
    end.

Definition securityAfterTool (m : securityMiddleware) (st : State)
  : hookResult securityError :=
  let res := default {| ResultName := ""; Output := "" |} (ToolResult_ st) in
  let hit := detect m (Output res) in
  if negb (String.eqb hit "") then
    Returned (Some (ErrToolOutputBlocked (ResultName res) hit)) st
  else Returned None st.

End Security.

(** *** The monitoring middleware *)

(** The wrap-around of Go's [int] (64 bits). *)
Definition wrapInt (z : Z) : Z := (z + 2 ^ 63) mod 2 ^ 64 - 2 ^ 63.

Record metricsRegistry := {
  totalRuns  : Z;
  slowRuns   : Z;
  maxLatency : Z;
  lastRun    : Z
}.

Record monitoringMiddleware := {
  threshold : Z;
  metrics   : metricsRegistry
}.

Definition newMonitoringMiddleware (threshold : Z) : monitoringMiddleware :=
  {| threshold := threshold;
     metrics := {| totalRuns := 0; slowRuns := 0; maxLatency := 0; lastRun := 0 |} |}.

Definition record (reg : metricsRegistry) (latency : Z) (slow : bool)
  : metricsRegistry :=
  {| totalRuns := wrapInt (totalRuns reg + 1);
     lastRun := latency;
     maxLatency := if maxLatency reg <? latency then latency else maxLatency reg;
     slowRuns := if slow then wrapInt (slowRuns reg + 1) else slowRuns reg |}.

Definition Snapshot (m : monitoringMiddleware) : Z * Z * Z * Z :=
  (totalRuns (metrics m), slowRuns (metrics m), maxLatency (metrics m),
   lastRun (metrics m)).

(** [BeforeAgent] at the clock reading [now]. *)
Definition monitoringBeforeAgent (m : monitoringMiddleware) (st : State) (now : Z)
  : hookResult unit :=
  match Values st with
  | None => Panicked
  | Some vals => Returned None (setValues st (<["monitoring.start" := AnyTime now]> vals))
  end.

(** [AfterAgent]; [fallback] is the clock reading given to [nowOr] and
    [now] the later one of [time.Since]. *)
Definition monitoringAfterAgent (m : monitoringMiddleware) (st : State)
    (fallback now : Z) : monitoringMiddleware :=
  let started := nowOr (valuesOf st !! "monitoring.start") fallback in
  let latency := now - started in
  let slow := threshold m <? latency in
  {| threshold := threshold m; metrics := record (metrics m) latency slow |}.

(** The registry after runs with the given latencies. *)
Definition recordAll (m : monitoringMiddleware) (latencies : list Z)
  : monitoringMiddleware :=
  fold_left
    (fun m latency =>
       {| threshold := threshold m;
          metrics := record (metrics m) latency (threshold m <? latency) |})
    latencies m.

End Middleware.

(** ** Sample manifests, hosts and settings *)
Module Fixtures.
Import GoLib Plugins Manifests.

(** A hook map with keys and values to be trimmed. *)
Definition rawHooks : gmap string (list string) :=
  {[ " PreToolUse " := ["Bash "; " Edit"; "Bash"]; "Stop" := [" "] ]}.

(** A manifest as decoded from a file, before normalisation. *)
Definition rawManifest : Manifest :=
  {| Name := " demo "; Version := "1.2.3"; Description := "Demo plugin ";
     Author := "dev"; Commands := ["run "; "build"; "run"]; Agents := [];
     Skills := [" review"]; Hooks := rawHooks;
     Digest := ""; Signer := ""; Signature := "";
     ManifestPath := ""; PluginDir := ""; Trusted := false |}.

(** The same content written differently. *)
Definition rawManifest' : Manifest :=
  {| Name := "demo"; Version := " 1.2.3"; Description := "Demo plugin";
     Author := " dev "; Commands := ["build"; " run"]; Agents := [" "];
     Skills := ["review"; "review"]; Hooks := rawHooks;
     Digest := "ab"; Signer := "dev"; Signature := "c2ln";
     ManifestPath := "/p/plugin.json"; PluginDir := "/p"; Trusted := true |}.

(** A host with one plugin directory, [/plugins/demo], whose manifest
    decodes to [rawManifest]. *)
Definition demoHost : host :=
  {| Stat := fun path =>
       if String.eqb path "/plugins/demo/.claude-plugin/plugin.json"
       then inr {| IsDir := false |}
       else if String.eqb path "/plugins/demo" then inr {| IsDir := true |}
       else inl ErrNotExist;
     ReadFile := fun path =>
       if String.eqb path "/plugins/demo/.claude-plugin/plugin.json"
       then inr (list_ascii_of_string "{}") else inl ErrNotExist;
     Abs := fun path => inr path;
     Dir := fun path =>
       if String.eqb path "/plugins/demo/.claude-plugin/plugin.json"
       then "/plugins/demo/.claude-plugin"
       else if String.eqb path "/plugins/demo/.claude-plugin" then "/plugins/demo"
       else "/";
     Base := fun path =>
       if String.eqb path "/plugins/demo/.claude-plugin" then ".claude-plugin"
       else path;
     Join := fun parts => fold_right (fun a b => String.append a (String.append "/" b)) "" parts;
     Unmarshal := fun _ => Some rawManifest |}.

Definition anySemver (v : string) : bool := true.

(** A manifest with a digest in lower case. *)
Definition blockedManifest : Manifest :=
  {| Name := "demo"; Version := "1.2.3"; Description := ""; Author := "";
     Commands := []; Agents := []; Skills := []; Hooks := ∅;
     Digest := "abcd"; Signer := "dev"; Signature := "c2ln";
     ManifestPath := ""; PluginDir := ""; Trusted := false |}.

(** Plugins switched on and off in a settings file. *)
Definition enabledSample : gmap string bool :=
  {[ "alpha@core" := true; " beta @ core " := true; "no marketplace" := false;
     "lint@tools" := true ]}.

End Fixtures.

(** * Properties *)

(** Taking apart the conjunctions, disjunctions and existentials among the
    hypotheses, and the equations between results. *)
Ltac break_hyps :=
  repeat match goal with
         | H : exists _, _ |- _ => destruct H
         | H : _ /\ _ |- _ => destruct H
         | H : _ \/ _ |- _ => destruct H
         | H : inr _ = inr _ |- _ => inversion H; subst; clear H
         end.

(** ** The admission middleware *)
Section RateLimitFacts.
Import RateLimit.

Lemma Seconds_pos d : (0 < Seconds d)%Q <-> 0 < d.
Proof. unfold Seconds, Qlt; simpl. lia. Qed.

Lemma Seconds_nonneg d : 0 <= d -> (0 <= Seconds d)%Q.
Proof. unfold Seconds, Qle; simpl. lia. Qed.


Lemma refill_fields m now :
  ratePerSec (refill m now) = ratePerSec m /\ burst (refill m now) = burst m
  /\ concurrent (refill m now) = concurrent m.
Proof. unfold refill. destruct (Qlt_le_dec _ _); auto. Qed.

Lemma tryConsume_fields m now :
  ratePerSec (snd (tryConsume m now)) = ratePerSec m
  /\ burst (snd (tryConsume m now)) = burst m
  /\ concurrent (snd (tryConsume m now)) = concurrent m.
Proof.
  unfold tryConsume. destruct (refill_fields m now) as (H1 & H2 & H3).
  destruct (Qlt_le_dec _ _); simpl; auto.
Qed.

(** The bucket stays between empty and full. *)
Lemma refill_bounds m now :
  (0 <= ratePerSec m)%Q -> (0 <= burst m)%Q ->
  (0 <= tokens m <= burst m)%Q ->
  (0 <= tokens (refill m now) <= burst m)%Q.
Proof.
  intros Hr Hb Ht. unfold refill.
  destruct (Qlt_le_dec 0 (Seconds (now - lastRefill m))) as [Hel|Hel]; [|exact Ht].
  simpl. destruct (Qlt_le_dec _ _) as [Hc|Hc]; [lra|].
  split; [|exact Hc].
  assert (0 <= Seconds (now - lastRefill m) * ratePerSec m)%Q
    by (apply Qmult_le_0_compat; lra).
  lra.
Qed.




Lemma inject_nat_S n : (inject_Z (Z.of_nat (S n)) == inject_Z (Z.of_nat n) + 1)%Q.
Proof. rewrite Nat2Z.inj_succ. unfold Z.succ. rewrite inject_Z_plus. reflexivity. Qed.




(** The only error of [waitForToken] is the context's, returned when the
    context is done; success means a token was taken at the time of
    return. *)
Lemma waitForToken_result ctx : forall fuel m now r m' t,
  waitForToken fuel ctx m now = Some (r, m', t) ->
  now <= t
  /\ ctx_Err ctx t = r
  /\ (r = None -> exists m1, tryConsume m1 t = (true, m')).
Proof.
  induction fuel as [|fuel IH]; intros m now r m' t H; simpl in H; [discriminate|].
  destruct (ctx_Err ctx now) as [e|] eqn:He.
  - inversion H; subst. repeat split; auto; [lia | discriminate].
  - destruct (tryConsume m now) as [[|] m1] eqn:Et.
    + inversion H; subst. repeat split; auto; [lia|]. intros _. eauto.
    + apply IH in H as (H1 & H2 & H3). unfold pollInterval, Millisecond in H1.
      repeat split; auto. lia.
Qed.

(** A run that finds the bucket empty is not answered at once: it sleeps
    at least one poll interval. *)
Lemma waitForToken_waits ctx fuel m now r m' t :
  ctx_Err ctx now = None ->
  fst (tryConsume m now) = false ->
  waitForToken fuel ctx m now = Some (r, m', t) ->
  now + pollInterval <= t.
Proof.
  intros Hc Hf H. destruct fuel as [|fuel]; simpl in H; [discriminate|].
  rewrite Hc in H. destruct (tryConsume m now) as [[|] m1]; simpl in Hf; [discriminate|].
  apply waitForToken_result in H. lia.
Qed.

Lemma waitForToken_polls ctx : forall (k : nat) m now,
  (1 <= ratePerSec m)%Q -> (1 <= burst m)%Q ->
  lastRefill m + pollInterval <= now ->
  (1 <= tokens m + inject_Z (Z.of_nat k) * (1 # 100))%Q ->
  exists r, waitForToken (S k) ctx m now = Some r.
Proof.
  induction k as [|k IH]; intros m now Hr Hb Hl Ht; simpl.
  - destruct (ctx_Err ctx now); [eauto|].
    destruct (tryConsume m now) as [[|] m1] eqn:E; [eauto|]. exfalso.
    unfold tryConsume in E.
    destruct (Qlt_le_dec (tokens (refill m now)) 1) as [Hc|Hc]; [|discriminate].
    unfold refill in Hc.
    assert (Hs : (1 # 100 <= Seconds (now - lastRefill m))%Q).
    { unfold Seconds, Qle, pollInterval, Millisecond, Second in *. simpl. lia. }
    destruct (Qlt_le_dec 0 _) as [Hel|Hel]; [|lra]. simpl in Hc.
    assert (0 <= Seconds (now - lastRefill m) * (ratePerSec m - 1))%Q
      by (apply Qmult_le_0_compat; lra).
    change (inject_Z (Z.of_nat 0)) with 0%Q in Ht.
    destruct (Qlt_le_dec _ _); lra.
  - destruct (ctx_Err ctx now); [eauto|].
    destruct (tryConsume m now) as [[|] m1] eqn:E; [eauto|].
    unfold tryConsume in E.
    destruct (Qlt_le_dec (tokens (refill m now)) 1) as [Hc|Hc]; [|discriminate].
    inversion E; subst m1; clear E.
    destruct (refill_fields m now) as (F1 & F2 & _).
    apply IH; rewrite ?F1, ?F2; auto.
    + unfold refill. destruct (Qlt_le_dec 0 _) as [Hel|Hel]; simpl.
      * unfold pollInterval, Millisecond. lia.
      * exfalso. unfold pollInterval, Millisecond in Hl.
        pose proof (proj2 (Seconds_pos (now - lastRefill m)) ltac:(lia)). lra.
    + rewrite inject_nat_S in Ht. unfold refill in *.
      assert (Hs : (1 # 100 <= Seconds (now - lastRefill m))%Q).
      { unfold Seconds, Qle, pollInterval, Millisecond, Second in *. simpl. lia. }
      assert (0 <= Seconds (now - lastRefill m) * (ratePerSec m - 1))%Q
        by (apply Qmult_le_0_compat; lra).
      destruct (Qlt_le_dec 0 _) as [Hel|Hel]; [|lra]. simpl in *.
      destruct (Qlt_le_dec _ _); lra.
Qed.

(** [waitForToken] returns: within 102 rounds of the loop the context is
    done or a token has been refilled. *)
Lemma waitForToken_returns ctx m now :
  (1 <= ratePerSec m)%Q -> (1 <= burst m)%Q -> (0 <= tokens m)%Q ->
  lastRefill m <= now ->
  exists r, waitForToken 102 ctx m now = Some r.
Proof.
  intros Hr Hb Ht Hl. change 102%nat with (S 101). cbn [waitForToken].
  destruct (ctx_Err ctx now); [eauto|].
  destruct (tryConsume m now) as [[|] m1] eqn:E; [eauto|].
  unfold tryConsume in E.
  destruct (Qlt_le_dec (tokens (refill m now)) 1) as [Hc|Hc]; [|discriminate].
  inversion E; subst m1; clear E.
  destruct (refill_fields m now) as (F1 & F2 & _).
  pose proof (refill_bounds m now ltac:(lra) ltac:(lra)) as Hbd.
  apply (waitForToken_polls ctx 100); rewrite ?F1, ?F2; auto.
  - unfold refill. destruct (Qlt_le_dec 0 _); simpl; lia.
  - unfold refill in *. destruct (Qlt_le_dec 0 _) as [Hel|Hel].
    + simpl in *.
      assert (0 <= Seconds (now - lastRefill m) * ratePerSec m)%Q
        by (apply Qmult_le_0_compat; lra).
      change (inject_Z (Z.of_nat 100) * (1 # 100))%Q with (100 * (1 # 100))%Q.
      destruct (Qlt_le_dec _ _); lra.
    + change (inject_Z (Z.of_nat 100) * (1 # 100))%Q with (100 * (1 # 100))%Q. lra.
Qed.



End RateLimitFacts.

Section RateLimitClaims.
Import RateLimit.



(** C3, as the code has it.  A run that finds the bucket empty is not
    refused: [waitForToken] polls every 10 ms until a token has been
    refilled or the context is done.  It always returns (102 rounds are
    enough for a middleware with rate and burst of at least one); its only
    error is the context's, returned when the context is done; it returns
    at once only when the context is done or a token is there, and
    otherwise not before one poll interval has passed.  With rps=1,
    burst=1, concurrent=2 and two runs started together, the first is
    admitted at once and the second is admitted one second later when its
    deadline allows (5 s), and fails with the context's deadline error at
    the deadline otherwise (0.5 s). *)
Theorem C3_exhausted_bucket_waits (ctx : context) (m : rateLimitMiddleware) (now : Z) :
  (1 <= ratePerSec m)%Q -> (1 <= RateLimit.burst m)%Q -> (0 <= tokens m)%Q ->
  lastRefill m <= now ->
  (exists r m' t,
     waitForToken 102 ctx m now = Some (r, m', t)
     /\ now <= t
     /\ ctx_Err ctx t = r
     /\ (r = None -> exists m1, tryConsume m1 t = (true, m'))
     /\ (ctx_Err ctx now = None -> fst (tryConsume m now) = false ->
         now + pollInterval <= t))
  /\ (let m0 := newRateLimitMiddleware 1 1 2 0 in
      let first := BeforeAgent 102 true (WithDeadline (5 * Second)) m0 0 in
      let m1 := middlewareOf first m0 in
      outcome first = Some (None, 0)
      /\ outcome (BeforeAgent 102 true (WithDeadline (5 * Second)) m1 0)
         = Some (None, 1 * Second)
      /\ outcome (BeforeAgent 102 true (WithDeadline (500 * Millisecond)) m1 0)
         = Some (Some (CtxErr DeadlineExceeded), 500 * Millisecond)).
Proof.
  intros Hr Hb Ht Hl. split.
  - destruct (waitForToken_returns ctx m now Hr Hb Ht Hl) as [[[r m'] t] H].
    exists r, m', t. split; [exact H|].
    destruct (waitForToken_result ctx _ _ _ _ _ _ H) as (H1 & H2 & H3).
    repeat split; auto.
    intros Hc Hf. eapply waitForToken_waits; eauto.
  - cbv zeta. repeat split; vm_compute; reflexivity.
Qed.

Lemma C3_exhausted_bucket_waits_witness :
  exists r m' t,
    waitForToken 102 (WithDeadline 100) (newRateLimitMiddleware 1 1 2 0) 0
    = Some (r, m', t) /\ 0 <= t /\ ctx_Err (WithDeadline 100) t = r.
Proof.
  destruct (C3_exhausted_bucket_waits (WithDeadline 100)
              (newRateLimitMiddleware 1 1 2 0) 0) as [(r & m' & t & H & H1 & H2 & _) _].
  - vm_compute. discriminate.
  - vm_compute. discriminate.
  - vm_compute. discriminate.
  - vm_compute. discriminate.
  - exists r, m', t. auto.
Defined.

(** Against failing fast, for rps=1, burst=1, concurrent=2: the second of
    two runs started together finds the bucket empty, and instead of being
    refused at once it is admitted ([nil] error) after waiting a full
    second. *)
Lemma C3_counterexample :
  let m0 := newRateLimitMiddleware 1 1 2 0 in
  let ctx := WithDeadline (5 * Second) in
  let m1 := middlewareOf (BeforeAgent 102 true ctx m0 0) m0 in
  outcome (BeforeAgent 102 true ctx m0 0) = Some (None, 0)
  /\ fst (tryConsume m1 0) = false
  /\ outcome (BeforeAgent 102 true ctx m1 0) = Some (None, 1000000000).
Proof.
  cbv zeta. repeat split; vm_compute; reflexivity.
Qed.





End RateLimitClaims.

(** ** The HTTP front end *)

Section HttpFacts.
Import GoLib Http.

Lemma trimLeftSpace_blank : forall fuel s,
  whitespaceOnly s -> (length s <= fuel)%nat -> trimLeftSpace fuel s = [].
Proof.
  induction fuel as [|fuel IH]; intros s Hs Hlen.
  - destruct s; simpl in *; [reflexivity|lia].
  - destruct Hs as [|r size s Hd Hsz Hsp Hrest]; simpl.
    + reflexivity.
    + rewrite Hd. rewrite Hsp. destruct size; [lia|]. simpl.
      apply IH; [exact Hrest|].
      destruct s; simpl in *; [lia|]. rewrite length_drop. lia.
Qed.

(** [strings.TrimSpace] of a text of white space only is the empty text. *)
Lemma TrimSpace_blank s :
  whitespaceOnly (list_ascii_of_string s) -> TrimSpace s = "".
Proof.
  intros H. unfold TrimSpace. rewrite trimLeftSpace_blank; auto.
Qed.

Lemma maxBodyBytes_val : maxBodyBytes = 1048576.
Proof. reflexivity. Qed.

Lemma LimitReader_take : forall body n,
  LimitReader body n = take (Z.to_nat n) body.
Proof.
  induction body as [|c body IH]; intros n; simpl.
  - rewrite take_nil. reflexivity.
  - destruct (Z.leb_spec n 0) as [Hn|Hn].
    + replace (Z.to_nat n) with 0%nat by lia. reflexivity.
    + rewrite IH. replace (Z.to_nat n) with (S (Z.to_nat (n - 1))) by lia.
      reflexivity.
Qed.

Lemma LimitReader_idemp body n : LimitReader (LimitReader body n) n = LimitReader body n.
Proof. rewrite !LimitReader_take, take_take, Nat.min_id. reflexivity. Qed.

(** The part of the body past the limit is never read. *)
Lemma decode_limit body :
  decode (Some body) = decode (Some (LimitReader body maxBodyBytes)).
Proof. unfold decode. rewrite LimitReader_idemp. reflexivity. Qed.

Lemma skipSpace_spaces k : Json.skipSpace (replicate k " "%char) = [].
Proof. induction k; simpl; auto. Qed.

Lemma Decode_padded k :
  Decode (Samples.helloBody ++ replicate k " "%char)
  = inr (Samples.helloRequest, replicate k " "%char).
Proof. unfold Decode, Json.readValue. cbn. reflexivity. Qed.

Lemma decode_padded k : decode (Some (Samples.paddedBody k)) = inr Samples.helloRequest.
Proof.
  unfold decode, Samples.paddedBody. rewrite LimitReader_take.
  rewrite take_app_ge by (rewrite maxBodyBytes_val; simpl; lia).
  rewrite take_replicate, Decode_padded. unfold Json.More. rewrite skipSpace_spaces. reflexivity.
Qed.

Lemma decode_junk k : decode (Some (Samples.junkBody k)) = inl (JsonError Json.Syntax).
Proof.
  unfold decode, Samples.junkBody. rewrite LimitReader_take.
  destruct (Z.to_nat maxBodyBytes) as [|n] eqn:E;
    [rewrite maxBodyBytes_val in E; lia|].
  rewrite firstn_cons. reflexivity.
Qed.

(** Storing into another field leaves the session id as it was. *)
Lemma setField_SessionID f v r r' :
  f <> FSessionID -> setField f v r = Some r' -> SessionID r' = SessionID r.
Proof.
  intros Hf H. destruct f; try congruence; simpl in H;
    match type of H with
    | (?o ≫= _) = _ => destruct o; simpl in H; [|discriminate]
    end; inversion H; reflexivity.
Qed.

Lemma unmarshalMembers_SessionID : forall l r r',
  Forall (fun kv => lookupField (fst kv) <> Some FSessionID) l ->
  unmarshalMembers l r = inr r' -> SessionID r' = SessionID r.
Proof.
  induction l as [|[k v] l IH]; intros r r' Hall H; simpl in H.
  - inversion H; reflexivity.
  - inversion Hall as [|? ? Hk Hl]; subst. simpl in Hk.
    destruct (lookupField k) as [f|] eqn:Ef; [|discriminate].
    destruct (setField f v r) as [r1|] eqn:Es; [|discriminate].
    rewrite (IH _ _ Hl H). eapply setField_SessionID; eauto. congruence.
Qed.

End HttpFacts.

Section HttpClaims.
Import GoLib Http.
Context {ModeContext Usage ToolCall SandboxReport StreamEvent : Type}.
Variable defaultRunTimeout : Z.
Variable Marshal : StreamEvent -> option (list ascii).
Implicit Types (s : @httpServer ModeContext Usage ToolCall SandboxReport)
  (r : httpRequest) (req : runRequest) (sched : list (@selectCase StreamEvent)).

(** C2.  A POST to the run or to the stream endpoint whose prompt is empty
    or consists only of white space is answered with status 400 and the
    error "prompt is required", and no call of [Run] or [RunStream] is
    made. *)
Theorem C2_blank_prompt_rejected s r req (flusher : bool) sched :
  Method r = "POST" ->
  decode (Body r) = inr req ->
  whitespaceOnly (list_ascii_of_string (Prompt req)) ->
  handleRun defaultRunTimeout s r
    = ([], writeJSON StatusBadRequest (ErrorResponse (Text "prompt is required")))
  /\ handleStream defaultRunTimeout Marshal s flusher sched r
    = ([], writeJSON StatusBadRequest (ErrorResponse (Text "prompt is required"))).
Proof.
  intros Hm Hd Hb. unfold handleRun, handleStream.
  rewrite Hm, Hd, (TrimSpace_blank _ Hb). simpl. auto.
Qed.

(** A POST is answered with 400 exactly when its body is refused, and
    then without a call of the runtime. *)
Lemma refused_iff_400 s r (flusher : bool) sched :
  Method r = "POST" ->
  (status (snd (handleRun defaultRunTimeout s r)) = StatusBadRequest
   <-> refused (Body r))
  /\ (status (snd (handleStream defaultRunTimeout Marshal s flusher sched r))
      = StatusBadRequest <-> refused (Body r))
  /\ (refused (Body r) ->
      fst (handleRun defaultRunTimeout s r) = []
      /\ fst (handleStream defaultRunTimeout Marshal s flusher sched r) = []).
Proof.
  intros Hm. unfold handleRun, handleStream, refused. rewrite Hm.
  change (negb ("POST" =? "POST")%string) with false. cbv iota.
  destruct (decode (Body r)) as [err|req] eqn:Hd.
  - cbn [fst snd status writeJSON]. repeat split; eauto.
  - destruct (String.eqb_spec (TrimSpace (Prompt req)) "") as [Hb|Hb].
    + cbn [fst snd status writeJSON]. repeat split; eauto.
    + destruct (Run (runtime s) _ _) as [resp|e];
        destruct (RunStream (runtime s) _ _) as [e'|];
        destruct flusher;
        try (destruct (buildRunResponse resp (SessionID req)));
        cbn [fst snd status writeJSON negb];
        repeat split; intros;
        break_hyps; try discriminate; try contradiction.
Qed.

(** C1, as the code has it.  On both endpoints the status of the answer to
    a POST is decided as follows.  It is 400 exactly when the body is
    refused (it does not decode, or its prompt is blank), and then the
    runtime is not called.  When the runtime fails on an accepted request
    the status is 502 whatever the kind of the failure, with the error's
    text as body, and 502 is returned in no other case.  500 is returned
    by the run endpoint exactly when the runtime succeeds with an empty
    response, and by the stream endpoint exactly when the writer cannot
    flush. *)
Theorem C1_runtime_failure_is_502 s r (flusher : bool) sched :
  Method r = "POST" ->
  let run := handleRun defaultRunTimeout s r in
  let stream := handleStream defaultRunTimeout Marshal s flusher sched r in
  let ctx req := requestContext defaultRunTimeout s (TimeoutMs req) in
  let areq req := toAPIRequest req (mode s) in
  (forall req e,
     accepted (Body r) req -> Run (runtime s) (ctx req) (areq req) = inr e ->
     run = ([CallRun (ctx req) (areq req)],
            writeJSON StatusBadGateway (ErrorResponse (Text (Api.text e)))))
  /\ (forall req e,
        accepted (Body r) req -> flusher = true ->
        RunStream (runtime s) (ctx req) (areq req) = Some e ->
        stream = ([CallRunStream (ctx req) (areq req)],
                  writeJSON StatusBadGateway (ErrorResponse (Text (Api.text e)))))
  /\ (status (snd run) = StatusBadRequest <-> refused (Body r))
  /\ (status (snd stream) = StatusBadRequest <-> refused (Body r))
  /\ (refused (Body r) -> fst run = [] /\ fst stream = [])
  /\ (status (snd run) = StatusBadGateway
      <-> exists req e, accepted (Body r) req
                        /\ Run (runtime s) (ctx req) (areq req) = inr e)
  /\ (status (snd stream) = StatusBadGateway
      <-> exists req e, accepted (Body r) req /\ flusher = true
                        /\ RunStream (runtime s) (ctx req) (areq req) = Some e)
  /\ (status (snd run) = StatusInternalServerError
      <-> exists req resp, accepted (Body r) req
                           /\ Run (runtime s) (ctx req) (areq req) = inl resp
                           /\ buildRunResponse resp (SessionID req)
                              = inl "agent response is empty")
  /\ (status (snd stream) = StatusInternalServerError
      <-> exists req, accepted (Body r) req /\ flusher = false).
Proof.
  intros Hm run stream ctx areq. subst run stream ctx areq.
  unfold handleRun, handleStream, accepted, refused. rewrite Hm.
  change (negb ("POST" =? "POST")%string) with false. cbv iota.
  destruct (decode (Body r)) as [err|req] eqn:Hd.
  - (* the body does not decode *)
    cbn [fst snd status writeJSON].
    repeat split; try (intros; exact eq_refl); intros; eauto;
      break_hyps; try discriminate.
  - destruct (String.eqb_spec (TrimSpace (Prompt req)) "") as [Hb|Hb].
    + (* the prompt is blank *)
      cbn [fst snd status writeJSON].
      repeat split; try (intros; exact eq_refl); intros; eauto;
        break_hyps; try discriminate; try contradiction.
    + (* the request is accepted *)
      assert (Hbuild : forall resp : option (Api.Response Usage ToolCall SandboxReport),
                (exists p, buildRunResponse resp (SessionID req) = inr p)
                \/ buildRunResponse resp (SessionID req) = inl "agent response is empty").
      { intros [x|]; simpl; [destruct (Api.Result_ x)|]; eauto. }
      destruct (Run (runtime s) _ _) as [resp|e] eqn:Hrun;
        destruct (RunStream (runtime s) _ _) as [e'|] eqn:Hstream;
        destruct flusher; try (destruct (Hbuild resp) as [[p Hp]|Hp]; rewrite Hp);
        cbn [fst snd status writeJSON negb];
        repeat split; intros; 
        break_hyps; try discriminate; try contradiction; try congruence; eauto 10.
Qed.

(** C6, as the code has it.  A request whose body exceeds 1 MiB is
    answered as its first 1 MiB alone would be, on both endpoints: it is
    rejected with status 400, before the runtime runs, exactly when these
    first 1 MiB are refused (they do not decode, as when the JSON value is
    not complete within them, or the prompt is blank).  The bytes past the
    limit are never a reason to reject. *)
Theorem C6_only_first_MiB_is_read s r (body : list ascii) (flusher : bool) sched :
  Method r = "POST" ->
  Body r = Some body ->
  maxBodyBytes < Z.of_nat (length body) ->
  let cut := {| Method := Method r;
                Body := Some (LimitReader body maxBodyBytes) |} in
  handleRun defaultRunTimeout s r = handleRun defaultRunTimeout s cut
  /\ handleStream defaultRunTimeout Marshal s flusher sched r
     = handleStream defaultRunTimeout Marshal s flusher sched cut
  /\ (status (snd (handleRun defaultRunTimeout s r)) = StatusBadRequest
      <-> refused (Some (LimitReader body maxBodyBytes)))
  /\ (status (snd (handleStream defaultRunTimeout Marshal s flusher sched r))
      = StatusBadRequest <-> refused (Some (LimitReader body maxBodyBytes)))
  /\ (refused (Some (LimitReader body maxBodyBytes)) ->
      fst (handleRun defaultRunTimeout s r) = []
      /\ fst (handleStream defaultRunTimeout Marshal s flusher sched r) = []).
Proof.
  intros Hm Hb Hlen cut.
  assert (Hrun : handleRun defaultRunTimeout s r = handleRun defaultRunTimeout s cut).
  { unfold handleRun, cut. cbn [Method Body]. rewrite Hb, (decode_limit body).
    reflexivity. }
  assert (Hstream : handleStream defaultRunTimeout Marshal s flusher sched r
                    = handleStream defaultRunTimeout Marshal s flusher sched cut).
  { unfold handleStream, cut. cbn [Method Body]. rewrite Hb, (decode_limit body).
    reflexivity. }
  split; [exact Hrun|]. split; [exact Hstream|].
  rewrite Hrun, Hstream. apply (refused_iff_400 s cut flusher sched). exact Hm.
Qed.

(** C9.  The session id of every successful answer of the run endpoint is
    the session id of the decoded request, whatever the runtime returned;
    it is empty when the object of the request has no member that names
    the session id field. *)
Theorem C9_session_id_echoed s r (calls : list call) (p : runResponse) :
  handleRun defaultRunTimeout s r = (calls, writeJSON StatusOK (RunResponse p)) ->
  exists req,
    decode (Body r) = inr req
    /\ rSessionID p = SessionID req
    /\ (forall body members rest,
          Body r = Some body ->
          Json.readValue (LimitReader body maxBodyBytes) = inl (Json.Object members, rest) ->
          Forall (fun kv => lookupField (fst kv) <> Some FSessionID) members ->
          rSessionID p = "").
Proof.
  unfold handleRun. intros H.
  destruct (negb (Method r =? "POST")%string); [inversion H|].
  destruct (decode (Body r)) as [err|req] eqn:Hd; [inversion H|].
  destruct (TrimSpace (Prompt req) =? "")%string; [inversion H|].
  destruct (Run _ _ _) as [resp|e]; [|inversion H].
  destruct (buildRunResponse resp (SessionID req)) as [msg|payload] eqn:Hb;
    [inversion H|].
  inversion H; subst payload. clear H.
  assert (Hs : rSessionID p = SessionID req).
  { unfold buildRunResponse in Hb. destruct resp as [resp|]; [|discriminate].
    destruct (Api.Result_ resp); [|discriminate]. inversion Hb. reflexivity. }
  exists req. repeat split; auto.
  intros body members rest HB Hv Hall. rewrite Hs.
  rewrite HB in Hd. unfold decode, Decode in Hd. rewrite Hv in Hd.
  unfold unmarshal in Hd.
  destruct (unmarshalMembers members zeroRequest) as [e|req'] eqn:Hu;
    [destruct e; discriminate|].
  destruct (Json.More rest); [discriminate|]. inversion Hd; subst req'.
  apply (unmarshalMembers_SessionID _ _ _ Hall Hu).
Qed.

End HttpClaims.

Section HttpSamples.
Import GoLib Http Samples.

(** A prompt of two spaces is refused on both endpoints. *)
Lemma C2_blank_prompt_rejected_witness :
  handleRun sampleTimeout (server okRuntime) (post blankBody)
    = ([], writeJSON StatusBadRequest (ErrorResponse (Text "prompt is required")))
  /\ handleStream sampleTimeout noMarshal (server okRuntime) true [] (post blankBody)
    = ([], writeJSON StatusBadRequest (ErrorResponse (Text "prompt is required"))).
Proof.
  apply (C2_blank_prompt_rejected sampleTimeout noMarshal (server okRuntime)
           (post blankBody)
           {| Prompt := "  "; SessionID := ""; TimeoutMs := 0; Tags := ∅;
              Traits := []; Channels := []; Metadata := ∅; ToolWhitelist := [] |}).
  - reflexivity.
  - vm_compute. reflexivity.
  - simpl. apply (ws_rune 32 1); [reflexivity | lia | reflexivity |].
    apply (ws_rune 32 1); [reflexivity | lia | reflexivity |]. apply ws_nil.
Defined.

(** Against the mapping by kind: when the runtime reports a rate limit the
    answer is 502, where the mapping of the specification gives 429. *)
Lemma C1_counterexample :
  status (snd (handleRun sampleTimeout (server (failingRuntime Api.RateLimited))
                 (post helloBody))) = 502
  /\ specStatus Api.RateLimited = 429
  /\ status (snd (handleRun sampleTimeout (server (failingRuntime Api.RateLimited))
                    (post helloBody)))
     <> specStatus Api.RateLimited.
Proof. repeat split; vm_compute; congruence. Qed.

Lemma C1_runtime_failure_is_502_witness :
  handleRun sampleTimeout (server (failingRuntime Api.Timeout)) (post helloBody)
  = ([CallRun sampleTimeout (toAPIRequest helloRequest tt)],
     writeJSON StatusBadGateway (ErrorResponse (Text "run failed"))).
Proof.
  destruct (C1_runtime_failure_is_502 sampleTimeout noMarshal
              (server (failingRuntime Api.Timeout)) (post helloBody) true [])
    as (H1 & _).
  - reflexivity.
  - apply (H1 helloRequest {| Api.kind := Api.Timeout; Api.text := "run failed" |}).
    + split; [vm_compute; reflexivity | vm_compute; discriminate].
    + reflexivity.
Defined.

(** Bodies that are refused: no JSON, an unknown field, two values, no
    prompt. *)
Example refused_bodies :
  decode (Some (text "hello")) = inl (JsonError Json.Syntax)
  /\ decode (Some (text "{" ++ quoted "prompt" ++ text ":" ++ quoted "hi" ++ text ","
                   ++ quoted "user" ++ text ":1}"))
     = inl (JsonError (Json.UnknownField "user"))
  /\ decode (Some (helloBody ++ helloBody))
     = inl (Text "request body must contain a single JSON object")
  /\ decode (Some (text "")) = inl (Text "request body is empty")
  /\ refused (Some (text "{}")).
Proof.
  repeat split; try (vm_compute; reflexivity).
  right. exists zeroRequest. split; vm_compute; reflexivity.
Qed.

(** Against the rejection of every body above 1 MiB: the object
    [{"prompt":"hi"}] followed by 2^20 spaces is longer than 1 MiB, the
    object fits in the first 1 MiB, and the request is accepted, run and
    answered with 200. *)
Lemma C6_counterexample :
  maxBodyBytes < Z.of_nat (length (paddedBody (Z.to_nat maxBodyBytes)))
  /\ handleRun sampleTimeout (server okRuntime) (post (paddedBody (Z.to_nat maxBodyBytes)))
     = handleRun sampleTimeout (server okRuntime) (post helloBody)
  /\ status (snd (handleRun sampleTimeout (server okRuntime) (post helloBody))) = 200
  /\ length (fst (handleRun sampleTimeout (server okRuntime) (post helloBody))) = 1%nat.
Proof.
  split; [|split; [|split]].
  - unfold paddedBody. rewrite length_app, length_replicate, Nat2Z.inj_add, Z2Nat.id.
    + simpl. lia.
    + rewrite maxBodyBytes_val. lia.
  - unfold handleRun, post. cbn [Method Body]. rewrite decode_padded.
    vm_compute. reflexivity.
  - vm_compute. reflexivity.
  - vm_compute. reflexivity.
Qed.

(** A body of 2^20 + 1 bytes that is no JSON is answered with 400. *)
Lemma C6_only_first_MiB_is_read_witness :
  status (snd (handleRun sampleTimeout (server okRuntime)
                 (post (junkBody (Z.to_nat maxBodyBytes))))) = StatusBadRequest.
Proof.
  destruct (C6_only_first_MiB_is_read sampleTimeout noMarshal (server okRuntime)
              (post (junkBody (Z.to_nat maxBodyBytes)))
              (junkBody (Z.to_nat maxBodyBytes)) true [])
    as (_ & _ & H & _).
  - reflexivity.
  - reflexivity.
  - unfold junkBody. rewrite length_cons, length_replicate, Nat2Z.inj_succ, Z2Nat.id.
    + lia.
    + rewrite maxBodyBytes_val. lia.
  - apply H. left. exists (JsonError Json.Syntax).
    rewrite <- decode_limit. apply decode_junk.
Defined.

(** A run with session id "s-1" is answered with session id "s-1". *)
Lemma C9_session_id_echoed_witness :
  exists req,
    decode (Body (post sessionBody)) = inr req /\ SessionID req = "s-1".
Proof.
  destruct (C9_session_id_echoed sampleTimeout (server okRuntime) (post sessionBody)
              (fst (handleRun sampleTimeout (server okRuntime) (post sessionBody)))
              {| rSessionID := "s-1"; rOutput := "done"; rStopReason := "done";
                 rUsage := tt; rTags := ∅; rToolCalls := []; rSandbox := tt |})
    as (req & Hd & Hs & _).
  - vm_compute. reflexivity.
  - exists req. split; [exact Hd | symmetry; exact Hs].
Defined.

End HttpSamples.

(** ** The no-follow open *)

Section SecurityClaims.
Import Security.

(** C7.  On hosts with the primitive, [supportsNoFollow] is true and
    [openNoFollow] returns the symlink-loop error exactly when the open
    with [O_NOFOLLOW] fails with [ELOOP]; it returns no error when the open
    succeeds and when it fails with [ENOTDIR] or [EISDIR], and another
    error for any other failure.  On Windows [supportsNoFollow] is false
    and [openNoFollow] returns no error for any path. *)
Theorem C7_openNoFollow (open : sysOpen) (path : string) :
  let result := open path [O_RDONLY; O_CLOEXEC; O_NOFOLLOW] 0 in
  Unix.supportsNoFollow = true
  /\ ((exists p, Unix.openNoFollow open path = Some (SymlinkLoopDetected p))
      <-> result = inr ELOOP)
  /\ (result = inr ELOOP -> Unix.openNoFollow open path = Some (SymlinkLoopDetected path))
  /\ (result = inr ENOTDIR \/ result = inr EISDIR \/ (exists fd, result = inl fd) ->
      Unix.openNoFollow open path = None)
  /\ (forall n, result = inr (OtherErrno n) ->
      Unix.openNoFollow open path = Some (NoFollowOpenFailed path (OtherErrno n)))
  /\ Windows.supportsNoFollow = false
  /\ Windows.openNoFollow path = None.
Proof.
  cbv zeta. unfold Unix.openNoFollow.
  destruct (open path [O_RDONLY; O_CLOEXEC; O_NOFOLLOW] 0) as [fd|[| | |n]]; simpl;
    repeat split; try reflexivity; try discriminate; eauto;
    try (intros [p Hp]; discriminate);
    try (intros [H|[H|[x H]]]; congruence).
  intros k Hk. inversion Hk. reflexivity.
Qed.

(** On the sample file system the link is refused, the directory and the
    file pass. *)
Example openNoFollow_sample :
  Unix.openNoFollow Samples.sampleOpen "/work/link" = Some (SymlinkLoopDetected "/work/link")
  /\ Unix.openNoFollow Samples.sampleOpen "/work/dir" = None
  /\ Unix.openNoFollow Samples.sampleOpen "/work/file" = None
  /\ Unix.openNoFollow Samples.sampleOpen "/work/none"
     = Some (NoFollowOpenFailed "/work/none" (OtherErrno 2)).
Proof. repeat split; reflexivity. Qed.

End SecurityClaims.

(** ** The canonical bytes of a manifest *)

Section SortFacts.
Import GoLib.

Lemma ascii_compare_trans_le a b c :
  Ascii.compare a b <> Gt -> Ascii.compare b c <> Gt -> Ascii.compare a c <> Gt.
Proof.
  unfold Ascii.compare. rewrite !N.compare_le_iff. lia.
Qed.

Lemma string_leb_trans : forall a b c,
  String.leb a b = true -> String.leb b c = true -> String.leb a c = true.
Proof.
  unfold String.leb.
  induction a as [|x a IH]; intros [|y b] [|z c]; simpl; auto; try discriminate.
  intros Hab Hbc.
  destruct (Ascii.compare x y) eqn:Exy; try discriminate;
    destruct (Ascii.compare y z) eqn:Eyz; try discriminate.
  - apply Ascii.compare_eq_iff in Exy, Eyz. subst.
    rewrite (proj2 (N.compare_eq_iff _ _) eq_refl : Ascii.compare z z = Eq).
    apply IH with b; assumption.
  - apply Ascii.compare_eq_iff in Exy. subst. rewrite Eyz. reflexivity.
  - apply Ascii.compare_eq_iff in Eyz. subst. rewrite Exy. reflexivity.
  - assert (H : Ascii.compare x z = Lt).
    { unfold Ascii.compare in *. rewrite N.compare_lt_iff in *. lia. }
    rewrite H. reflexivity.
Qed.

#[local] Instance string_le_trans : Transitive string_le.
Proof. intros a b c. apply string_leb_trans. Qed.

#[local] Instance string_le_total : Total string_le.
Proof. intros a b. apply String.leb_total. Qed.

#[local] Instance string_le_antisym : AntiSymm (=) string_le.
Proof. intros a b. apply String.leb_antisym. Qed.

(** [sort.Strings] gives the same list for every arrangement of its
    input. *)
Lemma sortStrings_Permutation l1 l2 : l1 ≡ₚ l2 -> sortStrings l1 = sortStrings l2.
Proof.
  intros H. unfold sortStrings.
  apply (StronglySorted_unique string_le).
  - apply StronglySorted_merge_sort; apply _.
  - apply StronglySorted_merge_sort; apply _.
  - rewrite !merge_sort_Permutation. exact H.
Qed.

End SortFacts.

Section PluginClaims.
Import GoLib Plugins.
Context {PublicKey PrivateKey : Type}.
Variable sha256 : list ascii -> list ascii.
Variable ed25519_Sign : PrivateKey -> list ascii -> list ascii.
Variable ed25519_Verify : PublicKey -> list ascii -> list ascii -> bool.
Variable base64_Encode : list ascii -> string.
Variable base64_Decode : string -> option (list ascii).
Variable unicodeToLower : Z -> Z.

(** C10.  [CanonicalManifestBytes] returns the same bytes for two
    manifests that differ only in the order of their commands, agents and
    skills and of the values under each hook (and in the fields that are
    not serialised); hence [SignManifest] gives the same signature for
    both, and [Verify] gives the same verdict on both with their canonical
    bytes. *)
Theorem C10_canonical_bytes_order_insensitive (m1 m2 : Manifest)
    (private : PrivateKey) (t : option (@TrustStore PublicKey)) :
  sameUpToOrder m1 m2 ->
  (exists payload,
     CanonicalManifestBytes unicodeToLower (Some m1) = inr payload
     /\ CanonicalManifestBytes unicodeToLower (Some m2) = inr payload
     /\ Verify sha256 ed25519_Verify base64_Decode unicodeToLower t (Some m1) payload
        = Verify sha256 ed25519_Verify base64_Decode unicodeToLower t (Some m2) payload)
  /\ SignManifest sha256 ed25519_Sign base64_Encode unicodeToLower (Some m1) private
     = SignManifest sha256 ed25519_Sign base64_Encode unicodeToLower (Some m2) private.
Proof.
  intros (Hn & Hv & Hd & Ha & Hc & Hag & Hs & Hdom & Hh & Hdi & Hsi & Hsg).
  assert (Hbytes : CanonicalManifestBytes unicodeToLower (Some m1)
                   = CanonicalManifestBytes unicodeToLower (Some m2)).
  { unfold CanonicalManifestBytes.
    rewrite Hn, Hv, Hd, Ha, Hdi, Hsi, Hdom.
    rewrite (sortStrings_Permutation _ _ Hc), (sortStrings_Permutation _ _ Hag),
      (sortStrings_Permutation _ _ Hs).
    do 2 f_equal. f_equal. apply map_ext. intros k.
    rewrite (sortStrings_Permutation _ _ (Hh k)). reflexivity. }
  split.
  - eexists. split; [reflexivity|]. split; [symmetry; exact Hbytes|].
    unfold Verify. destruct t as [t|]; [|reflexivity].
    rewrite Hdi, Hsi, Hsg. reflexivity.
  - unfold SignManifest. rewrite Hbytes. reflexivity.
Qed.

End PluginClaims.

Section PluginSamples.
Import GoLib Plugins Samples.

(** The canonical bytes of the first sample manifest: the lists are
    sorted, the digest is in lower case, the angle brackets are escaped, and
    the empty list of agents is [null]. *)
Example canonical_bytes_sample :
  CanonicalManifestBytes toyLower (Some manifestA)
  = inr (text "{" ++ quoted "name" ++ text ":" ++ quoted "demo" ++ text ","
         ++ quoted "version" ++ text ":" ++ quoted "1.2.3" ++ text ","
         ++ quoted "description" ++ text ":" ++ quoted "a \u003cdemo\u003e" ++ text ","
         ++ quoted "author" ++ text ":" ++ quoted "dev" ++ text ","
         ++ quoted "commands" ++ text ":[" ++ quoted "build" ++ text "," ++ quoted "run" ++ text "],"
         ++ quoted "agents" ++ text ":null,"
         ++ quoted "skills" ++ text ":[" ++ quoted "a" ++ text "," ++ quoted "b"
         ++ text "," ++ quoted "c" ++ text "],"
         ++ quoted "hooks" ++ text ":[{" ++ quoted "name" ++ text ":" ++ quoted "pre"
         ++ text "," ++ quoted "values" ++ text ":[" ++ quoted "x" ++ text ","
         ++ quoted "y" ++ text "]}],"
         ++ quoted "digest" ++ text ":" ++ quoted "abcd" ++ text ","
         ++ quoted "signer" ++ text ":" ++ quoted "dev" ++ text "}").
Proof. vm_compute. reflexivity. Qed.

Lemma C10_canonical_bytes_order_insensitive_witness :
  SignManifest toyHash toySign toyEncode toyLower (Some manifestA) 0%nat
  = SignManifest toyHash toySign toyEncode toyLower (Some manifestB) 0%nat.
Proof.
  refine (proj2 (C10_canonical_bytes_order_insensitive toyHash toySign toyVerify
                   toyEncode toyDecode toyLower manifestA manifestB 0%nat None _)).
  unfold sameUpToOrder, manifestA, manifestB. cbn [Name Version Description Author
    Commands Agents Skills Hooks Digest Signer Signature].
  repeat split; try reflexivity; try apply perm_swap.
  intros k. destruct (decide (k = "pre")) as [->|Hk].
  - rewrite !lookup_singleton_eq. apply perm_swap.
  - rewrite !lookup_singleton_ne by congruence. reflexivity.
Defined.

End PluginSamples.

(** ** The settings merge *)

Section ConfigFacts.
Import Config.
#[local] Set Warnings "-clear-no-such-hyp".

Lemma appendUnseen_app : forall l1 l2 seen,
  appendUnseen seen (l1 ++ l2)
  = appendUnseen seen l1 ++ appendUnseen (seen ∪ list_to_set l1) l2.
Proof.
  induction l1 as [|x l1 IH]; intros l2 seen; simpl.
  - replace (seen ∪ ∅) with seen by set_solver. reflexivity.
  - destruct (decide (x ∈ seen)) as [Hx|Hx]; rewrite IH; simpl.
    + replace (seen ∪ ({[x]} ∪ list_to_set l1)) with (seen ∪ list_to_set l1)
        by set_solver.
      reflexivity.
    + replace (seen ∪ ({[x]} ∪ list_to_set l1)) with ({[x]} ∪ seen ∪ list_to_set l1)
        by set_solver.
      reflexivity.
Qed.

Lemma appendUnseen_idemp : forall l seen,
  appendUnseen seen (appendUnseen seen l) = appendUnseen seen l.
Proof.
  induction l as [|x l IH]; intros seen; simpl; [reflexivity|].
  destruct (decide (x ∈ seen)) as [Hx|Hx]; [apply IH|].
  simpl. destruct (decide (x ∈ seen)); [contradiction|]. rewrite IH. reflexivity.
Qed.

Lemma appendUnseen_elements : forall l (seen : gset string),
  seen ∪ list_to_set (appendUnseen seen l) = seen ∪ list_to_set l.
Proof.
  induction l as [|x l IH]; intros seen; simpl; [reflexivity|].
  destruct (decide (x ∈ seen)) as [Hx|Hx].
  - rewrite IH. set_solver.
  - simpl. specialize (IH ({[x]} ∪ seen)). set_solver.
Qed.

(** Merging in two steps is merging the concatenation. *)
Lemma mergeStringSlices_assoc a b c :
  mergeStringSlices (mergeStringSlices a b) c = mergeStringSlices a (b ++ c).
Proof.
  unfold mergeStringSlices. rewrite (app_assoc a b c).
  rewrite (appendUnseen_app (a ++ b) c), (appendUnseen_app (appendUnseen ∅ (a ++ b)) c).
  rewrite appendUnseen_idemp, appendUnseen_elements. reflexivity.
Qed.

(** [appendUnseen] keeps each string where it first occurs. *)
Lemma appendUnseen_firstOccurrences : forall l (seen : gset string),
  appendUnseen seen l = filter (fun y => y ∉ seen) (firstOccurrences l).
Proof.
  induction l as [|x l IH]; intros seen; simpl; [reflexivity|].
  destruct (decide (x ∈ seen)) as [Hx|Hx].
  - rewrite filter_cons_False by (intros H; apply H, Hx).
    rewrite IH, list_filter_filter. apply list_filter_iff.
    intros y. split; [intros H; split; [exact H | intros ->; apply H, Hx] | intros [H _]; exact H].
  - rewrite filter_cons_True by exact Hx. f_equal.
    rewrite IH, list_filter_filter. apply list_filter_iff.
    intros y. set_solver.
Qed.

Lemma mergeStringSlices_firstOccurrences a b :
  mergeStringSlices a b = firstOccurrences (a ++ b).
Proof.
  unfold mergeStringSlices. rewrite appendUnseen_firstOccurrences.
  induction (firstOccurrences (a ++ b)) as [|x l IH]; [reflexivity|].
  rewrite filter_cons_True by set_solver. f_equal. exact IH.
Qed.

Lemma firstOccurrences_NoDup l : NoDup (firstOccurrences l).
Proof.
  induction l as [|x l IH]; simpl; constructor.
  - rewrite list_elem_of_filter. intros [H _]. apply H. reflexivity.
  - apply NoDup_filter, IH.
Qed.

Lemma firstOccurrences_elem x l : x ∈ firstOccurrences l <-> x ∈ l.
Proof.
  induction l as [|y l IH]; simpl; [reflexivity|].
  rewrite !elem_of_cons, list_elem_of_filter, IH.
  destruct (decide (x = y)); tauto.
Qed.

Lemma highestSet_app {A} (isSet : A -> bool) l1 l2 d :
  highestSet isSet (l1 ++ l2) d = highestSet isSet l1 (highestSet isSet l2 d).
Proof. induction l1 as [|v l1 IH]; simpl; [reflexivity|]. rewrite IH. reflexivity. Qed.

(** One layer applied to settings that are there. *)
Lemma MergeSettings_Some base layer :
  MergeSettings (Some base) layer
  = Some (match layer with Some h => mergeSettings base h | None => base end).
Proof. destruct layer; reflexivity. Qed.

(** A scalar field that merges by [step] ends as the highest set value. *)
Lemma fold_scalar {A} (f : Settings -> A) (zero : A) (isSet : A -> bool)
    (Hzero : isSet zero = false)
    (Hstep : forall l h, f (mergeSettings l h) = if isSet (f h) then f h else f l) :
  forall layers base,
  exists merged,
    fold_left MergeSettings layers (Some base) = Some merged
    /\ f merged = highestSet isSet (map (inLayer f zero) (rev layers)) (f base).
Proof.
  induction layers as [|layer layers IH]; intros base; cbn [fold_left rev].
  - eauto.
  - rewrite MergeSettings_Some.
    destruct (IH (match layer with Some h => mergeSettings base h | None => base end))
      as (merged & Hm & Hf).
    exists merged. split; [exact Hm|].
    rewrite Hf, map_app, highestSet_app. simpl. f_equal.
    destruct layer as [h|]; simpl; [apply Hstep | rewrite Hzero; reflexivity].
Qed.

(** A list field that merges by [mergeStringSlices] ends as the
    concatenation of the layers, lowest first, without duplicates.  [Inv]
    is what the merge keeps true of the settings merged so far. *)
Lemma fold_list (f : Settings -> list string) (Inv : Settings -> Prop)
    (Hstep : forall l h,
       Inv l -> mergeStringSlices (f l) [] = f l ->
       f (mergeSettings l h) = mergeStringSlices (f l) (f h)
       /\ Inv (mergeSettings l h)) :
  forall layers base,
  Inv base ->
  mergeStringSlices (f base) [] = f base ->
  exists merged,
    fold_left MergeSettings layers (Some base) = Some merged
    /\ f merged = mergeStringSlices (f base) (concat (map (inLayer f []) layers)).
Proof.
  induction layers as [|layer layers IH]; intros base Hinv Hfix;
    cbn [fold_left map concat].
  - exists base. split; [reflexivity | symmetry; exact Hfix].
  - rewrite MergeSettings_Some.
    destruct (IH (match layer with Some h => mergeSettings base h | None => base end))
      as (merged & Hm & Hf).
    + destruct layer as [h|]; [|exact Hinv]. apply (Hstep base h Hinv Hfix).
    + destruct layer as [h|]; [|exact Hfix].
      rewrite (proj1 (Hstep base h Hinv Hfix)), mergeStringSlices_assoc, app_nil_r.
      reflexivity.
    + exists merged. split; [exact Hm|]. rewrite Hf.
      destruct layer as [h|]; simpl; [|reflexivity].
      rewrite (proj1 (Hstep base h Hinv Hfix)). apply mergeStringSlices_assoc.
Qed.

Lemma mergeStringSlices_nil_fix a b :
  mergeStringSlices (mergeStringSlices a b) [] = mergeStringSlices a b.
Proof. rewrite mergeStringSlices_assoc, app_nil_r. reflexivity. Qed.

Lemma allowOf_merge l h :
  Permissions l <> None -> mergeStringSlices (allowOf l) [] = allowOf l ->
  allowOf (mergeSettings l h) = mergeStringSlices (allowOf l) (allowOf h)
  /\ Permissions (mergeSettings l h) <> None.
Proof.
  unfold allowOf. simpl. destruct (Permissions l) as [pl|]; [|congruence].
  intros _ Hfix. destruct (Permissions h) as [ph|]; simpl; split; try discriminate.
  - reflexivity.
  - symmetry. exact Hfix.
Qed.

Lemma lookup_merge {V} (f : Settings -> gmap string V) k
    (Hstep : forall l h, f (mergeSettings l h) = mergeMaps (f l) (f h)) l h :
  f (mergeSettings l h) !! k = if ptrSet (f h !! k) then f h !! k else f l !! k.
Proof.
  rewrite Hstep. unfold mergeMaps. rewrite lookup_union.
  destruct (f h !! k), (f l !! k); reflexivity.
Qed.

End ConfigFacts.

Section ConfigClaims.
Import Config.

(** C8.  For every combination of settings layers, each present or not,
    the loader's result follows managed > runtime > local > project >
    user: a scalar is the value of the highest layer that sets it (else the
    default), a key of a map has the value of the highest layer that has
    it, and a list is the concatenation of the layers' lists from the
    lowest to the highest, each string kept where it first occurs and no
    string twice. *)
Theorem C8_settings_precedence (user project local runtime managed : option Settings) :
  exists merged,
    loadLayers user project local runtime managed = Some merged
    /\ Model merged
       = highestSet stringSet
           (map (inLayer Model "") [managed; runtime; local; project; user]) ""
    /\ CleanupPeriodDays merged
       = highestSet intSet
           (map (inLayer CleanupPeriodDays 0) [managed; runtime; local; project; user]) 30
    /\ IncludeCoAuthoredBy merged
       = highestSet ptrSet
           (map (inLayer IncludeCoAuthoredBy None) [managed; runtime; local; project; user])
           (Some true)
    /\ (forall k,
          Env merged !! k
          = highestSet ptrSet
              (map (fun layer => inLayer Env ∅ layer !! k)
                 [managed; runtime; local; project; user]) None)
    /\ (forall k,
          EnabledPlugins merged !! k
          = highestSet ptrSet
              (map (fun layer => inLayer EnabledPlugins ∅ layer !! k)
                 [managed; runtime; local; project; user]) None)
    /\ CompanyAnnouncements merged
       = firstOccurrences
           (concat (map (inLayer CompanyAnnouncements [])
                      [user; project; local; runtime; managed]))
    /\ allowOf merged
       = firstOccurrences
           (concat (map (inLayer allowOf []) [user; project; local; runtime; managed]))
    /\ NoDup (CompanyAnnouncements merged) /\ NoDup (allowOf merged).
Proof.
  set (layers := [user; project; local; runtime; managed]).
  unfold loadLayers. fold layers.
  destruct (fold_scalar Model "" stringSet eq_refl
              ltac:(intros l h; simpl; unfold mergeString, stringSet;
                    destruct (String.eqb (Model h) ""); reflexivity)
              layers GetDefaultSettings) as (merged & Hm & HModel).
  exists merged. split; [exact Hm|].
  destruct (fold_scalar CleanupPeriodDays 0 intSet eq_refl
              ltac:(intros l h; simpl; unfold mergeInt, intSet;
                    destruct (CleanupPeriodDays h =? 0); reflexivity)
              layers GetDefaultSettings) as (m2 & Hm2 & HDays).
  destruct (fold_scalar IncludeCoAuthoredBy None ptrSet eq_refl
              ltac:(intros l h; simpl; destruct (IncludeCoAuthoredBy h); reflexivity)
              layers GetDefaultSettings) as (m3 & Hm3 & HCo).
  destruct (fold_list CompanyAnnouncements (fun _ => True)
              ltac:(intros l h _ _; split; [reflexivity | exact I])
              layers GetDefaultSettings I eq_refl) as (m4 & Hm4 & HCA).
  destruct (fold_list allowOf (fun x => Permissions x <> None) allowOf_merge
              layers GetDefaultSettings ltac:(discriminate) eq_refl) as (m5 & Hm5 & HAllow).
  rewrite Hm in Hm2, Hm3, Hm4, Hm5.
  inversion Hm2; inversion Hm3; inversion Hm4; inversion Hm5; subst m2 m3 m4 m5.
  split; [exact HModel|]. split; [exact HDays|]. split; [exact HCo|].
  split; [|split].
  - intros k.
    destruct (fold_scalar (fun x => Env x !! k) None ptrSet eq_refl
                (lookup_merge Env k ltac:(reflexivity)) layers GetDefaultSettings)
      as (m6 & Hm6 & HEnv).
    rewrite Hm in Hm6. inversion Hm6; subst m6. rewrite HEnv. simpl.
    destruct managed, runtime, local, project, user; reflexivity.
  - intros k.
    destruct (fold_scalar (fun x => EnabledPlugins x !! k) None ptrSet eq_refl
                (lookup_merge EnabledPlugins k ltac:(reflexivity)) layers GetDefaultSettings)
      as (m6 & Hm6 & HPl).
    rewrite Hm in Hm6. inversion Hm6; subst m6. rewrite HPl. simpl.
    destruct managed, runtime, local, project, user; reflexivity.
  - rewrite HCA, HAllow, !mergeStringSlices_firstOccurrences. simpl app.
    repeat split; auto using firstOccurrences_NoDup.
Qed.

(** The values [TestMergeSettingsDeepCopyAndOverrides] expects. *)
Example MergeSettings_test :
  exists merged,
    MergeSettings (Some Samples.lowerSettings) (Some Samples.higherSettings) = Some merged
    /\ Model merged = "claude-3-5"
    /\ CleanupPeriodDays merged = 7
    /\ Env merged = {[ "K1" := "V1"; "K2" := "V2"; "shared" := "high" ]}
    /\ CompanyAnnouncements merged = ["a"; "b"]
    /\ IncludeCoAuthoredBy merged = Some false
    /\ allowOf merged = ["fs"; "net"]
    /\ (Ask <$> Permissions merged) = Some ["net"]
    /\ (DefaultMode <$> Permissions merged) = Some "acceptEdits"
    /\ (AdditionalDirectories <$> Permissions merged) = Some ["/data"]
    /\ (ExcludedCommands <$> Sandbox merged) = Some ["rm"; "sudo"]
    /\ EnabledPlugins merged = {[ "p1" := false; "p2" := true ]}.
Proof. eexists. split; [reflexivity|]. repeat split; vm_compute; reflexivity. Qed.

(** [TestMergeStringSlicesHandlesNil]. *)
Example mergeStringSlices_test :
  mergeStringSlices [] ["a"; "a"; "b"] = ["a"; "b"] /\ mergeStringSlices [] [] = [].
Proof. split; reflexivity. Qed.

(** The values the "full five layers" test of the loader expects. *)
Example loadLayers_test :
  exists merged,
    loadLayers (Some Samples.userCfg) (Some Samples.projectCfg) (Some Samples.localCfg)
      (Some Samples.runtimeCfg) (Some Samples.managedCfg) = Some merged
    /\ Model merged = "managed-model"
    /\ CleanupPeriodDays merged = 20
    /\ Env merged = {[ "A" := "2"; "B" := "local"; "C" := "managed" ]}
    /\ allowOf merged = ["Bash(home:*)"; "Bash(proj:*)"; "Bash(managed:*)"]
    /\ EnabledPlugins merged
       = {[ "alpha@core" := true; "beta@core" := false; "local@oss" := true;
            "runtime@oss" := true ]}.
Proof. eexists. split; [reflexivity|]. repeat split; vm_compute; reflexivity. Qed.

End ConfigClaims.

Section TrimFacts.
Import GoLib.

(** A prefix of a text starts with the same rune, or with a rune that
    cannot be decoded. *)
Lemma DecodeRune_take (l : list ascii) (k : nat) :
  DecodeRune (take k l) = DecodeRune l \/ fst (DecodeRune (take k l)) = RuneError.
Proof.
  destruct l as [|c0 [|c1 [|c2 [|c3 l]]]]; destruct k as [|[|[|[|k]]]];
    cbn [take]; unfold DecodeRune;
    repeat match goal with
           | |- context [if ?b then _ else _] => destruct b
           end; cbn [fst]; auto.
Qed.

Lemma DecodeRune_size (l : list ascii) :
  l <> [] -> (1 <= snd (DecodeRune l) <= length l)%nat.
Proof.
  intros Hl. destruct l as [|c0 [|c1 [|c2 [|c3 l]]]]; [contradiction| | | |];
    unfold DecodeRune;
    repeat match goal with
           | |- context [if ?b then _ else _] => destruct b
           end; cbn [snd length]; lia.
Qed.

Lemma trimLeftSpace_stop fuel s :
  (let '(r, size) := DecodeRune s in (0 <? size)%nat && IsSpace r) = false ->
  trimLeftSpace fuel s = s.
Proof.
  intros H. destruct fuel; [reflexivity|]. cbn [trimLeftSpace].
  destruct (DecodeRune s) as [r size]. rewrite H. reflexivity.
Qed.

Lemma trimRightSpace_stop fuel rs :
  (let '(r, size) := DecodeLastRune rs in (0 <? size)%nat && IsSpace r) = false ->
  trimRightSpace fuel rs = rs.
Proof.
  intros H. destruct fuel; [reflexivity|]. cbn [trimRightSpace].
  destruct (DecodeLastRune rs) as [r size]. rewrite H. reflexivity.
Qed.

(** With enough fuel the trimming loops stop at a rune that is no white
    space, or at the end of the text. *)
Lemma trimLeftSpace_result : forall fuel s,
  (length s <= fuel)%nat ->
  (exists k, trimLeftSpace fuel s = drop k s)
  /\ (let '(r, size) := DecodeRune (trimLeftSpace fuel s) in
      (0 <? size)%nat && IsSpace r) = false.
Proof.
  induction fuel as [|fuel IH]; intros s Hlen.
  - destruct s; [|cbn in Hlen; lia]. split; [exists 0%nat|]; reflexivity.
  - cbn [trimLeftSpace]. destruct (DecodeRune s) as [r size] eqn:E.
    destruct ((0 <? size)%nat && IsSpace r) eqn:Ec.
    + apply andb_prop in Ec as [Hs _]. apply Nat.ltb_lt in Hs.
      destruct (IH (drop size s)) as ((k & Hk) & Hh).
      { rewrite length_drop. lia. }
      split; [|exact Hh]. exists (size + k)%nat. rewrite Hk, drop_drop. reflexivity.
    + split; [exists 0%nat; reflexivity|]. rewrite E. exact Ec.
Qed.

Lemma trimRightSpace_result : forall fuel rs,
  (length rs <= fuel)%nat ->
  (exists k, trimRightSpace fuel rs = drop k rs)
  /\ (let '(r, size) := DecodeLastRune (trimRightSpace fuel rs) in
      (0 <? size)%nat && IsSpace r) = false.
Proof.
  induction fuel as [|fuel IH]; intros rs Hlen.
  - destruct rs; [|cbn in Hlen; lia]. split; [exists 0%nat|]; reflexivity.
  - cbn [trimRightSpace]. destruct (DecodeLastRune rs) as [r size] eqn:E.
    destruct ((0 <? size)%nat && IsSpace r) eqn:Ec.
    + apply andb_prop in Ec as [Hs _]. apply Nat.ltb_lt in Hs.
      destruct (IH (drop size rs)) as ((k & Hk) & Hh).
      { rewrite length_drop. lia. }
      split; [|exact Hh]. exists (size + k)%nat. rewrite Hk, drop_drop. reflexivity.
    + split; [exists 0%nat; reflexivity|]. rewrite E. exact Ec.
Qed.

(** [strings.TrimSpace] leaves a trimmed text as it is. *)
Lemma TrimSpace_idemp (s : string) : TrimSpace (TrimSpace s) = TrimSpace s.
Proof.
  unfold TrimSpace at 2.
  set (l := list_ascii_of_string s).
  set (l1 := trimLeftSpace (length l) l).
  destruct (trimLeftSpace_result (length l) l (Nat.le_refl _)) as (_ & Hhead).
  fold l1 in Hhead.
  destruct (trimRightSpace_result (length l1) (rev l1)) as ((k & Hk) & Hlast).
  { rewrite length_rev. lia. }
  set (rs := trimRightSpace (length l1) (rev l1)) in *.
  assert (Hl2 : rev rs = take (length l1 - k) l1).
  { rewrite Hk, skipn_rev, rev_involutive. reflexivity. }
  unfold TrimSpace. rewrite list_ascii_of_string_of_list_ascii.
  assert (Hh2 : (let '(r, size) := DecodeRune (rev rs) in
                 (0 <? size)%nat && IsSpace r) = false).
  { rewrite Hl2. destruct (DecodeRune_take l1 (length l1 - k)) as [H|H].
    - rewrite H. exact Hhead.
    - destruct (DecodeRune (take (length l1 - k) l1)) as [r size]. cbn [fst] in H.
      subst r. rewrite andb_false_r. reflexivity. }
  rewrite (trimLeftSpace_stop _ _ Hh2), rev_involutive.
  rewrite (trimRightSpace_stop _ _ Hlast). reflexivity.
Qed.

End TrimFacts.

Section TrimAt.
Import GoLib.

(** An [@] after a text does not change the rune the text starts with,
    nor, in front of a text, the rune it ends with. *)
Lemma DecodeRune_before_at (p rest : list ascii) :
  p <> [] -> DecodeRune (p ++ "@"%char :: rest) = DecodeRune p.
Proof.
  intros Hp.
  destruct p as [|c0 [|c1 [|c2 [|c3 p]]]]; [contradiction| | | |];
    destruct rest as [|r0 [|r1 [|r2 rest]]]; cbn [app]; unfold DecodeRune;
    change (byteZ "@"%char) with 64;
    repeat match goal with
           | |- context [byteZ c0 <? ?x] => destruct (byteZ c0 <? x)
           | |- context [byteZ c0 =? ?x] => destruct (byteZ c0 =? x)
           | |- context [inRange ?x ?y (byteZ c0)] => destruct (inRange x y (byteZ c0))
           end;
    cbn [isCont inRange Z.leb Z.compare Pos.compare Pos.compare_cont andb];
    rewrite ?andb_false_r;
    try reflexivity;
    repeat match goal with
           | |- context [if ?b then _ else _] => destruct b
           end; reflexivity.
Qed.

Lemma DecodeLastRune_after_at (rs rest : list ascii) :
  rs <> [] -> DecodeLastRune (rs ++ "@"%char :: rest) = DecodeLastRune rs.
Proof.
  intros Hp.
  destruct rs as [|c0 [|c1 [|c2 [|c3 rs]]]]; [contradiction| | | |];
    cbn [app]; unfold DecodeLastRune; cbn [findStart];
    change (byteZ "@"%char) with 64;
    change (RuneStart 64) with true; cbv iota;
    repeat match goal with
           | |- context [if ?b then _ else _] =>
               lazymatch b with
               | context [RuneStart] => destruct b
               | context [RuneSelf] => destruct b
               end
           end; try reflexivity;
    unfold DecodeRune; change (byteZ "@"%char) with 64;
    cbn [Z.ltb Z.compare Pos.compare Pos.compare_cont RuneSelf length Nat.eqb];
    reflexivity.
Qed.

(** A text is its own trimmed form exactly when it neither starts nor
    ends with a white space rune. *)
Lemma TrimSpace_fixed (s : string) :
  TrimSpace s = s
  <-> (let '(r, size) := DecodeRune (list_ascii_of_string s) in
       (0 <? size)%nat && IsSpace r) = false
      /\ (let '(r, size) := DecodeLastRune (rev (list_ascii_of_string s)) in
          (0 <? size)%nat && IsSpace r) = false.
Proof.
  split.
  - intros H. unfold TrimSpace in H.
    set (l := list_ascii_of_string s) in *.
    destruct (trimLeftSpace_result (length l) l (Nat.le_refl _)) as ((k & Hk) & Hhead).
    set (l1 := trimLeftSpace (length l) l) in *.
    destruct (trimRightSpace_result (length l1) (rev l1)) as ((k' & Hk') & Hlast).
    { rewrite length_rev. lia. }
    set (rs := trimRightSpace (length l1) (rev l1)) in *.
    assert (Hl : rev rs = l).
    { transitivity (list_ascii_of_string (string_of_list_ascii (rev rs)));
        [symmetry; apply list_ascii_of_string_of_list_ascii|].
      rewrite H. reflexivity. }
    assert (Hlen : length l1 = length l).
    { assert (length (rev rs) <= length l1)%nat.
      { rewrite Hk', skipn_rev, rev_involutive, length_take. lia. }
      assert (length l1 <= length l)%nat by (rewrite Hk, length_drop; lia).
      rewrite Hl in *. lia. }
    assert (Hl1 : l1 = l).
    { rewrite Hk. rewrite Hk, length_drop in Hlen.
      destruct k; [reflexivity|]. destruct l; [reflexivity|]. cbn [length] in Hlen. lia. }
    rewrite Hl1 in Hhead. split; [exact Hhead|].
    assert (Hrs : rs = rev l) by (rewrite <- Hl, rev_involutive; reflexivity).
    rewrite <- Hrs. exact Hlast.
  - intros (Hhead & Hlast). unfold TrimSpace.
    rewrite (trimLeftSpace_stop _ _ Hhead), (trimRightSpace_stop _ _ Hlast).
    rewrite rev_involutive. apply string_of_list_ascii_of_string.
Qed.

Lemma list_ascii_of_string_append (s1 s2 : string) :
  list_ascii_of_string (String.append s1 s2)
  = list_ascii_of_string s1 ++ list_ascii_of_string s2.
Proof. induction s1 as [|c s1 IH]; simpl; [reflexivity | rewrite IH; reflexivity]. Qed.

(** Two trimmed texts that are not empty, joined by [@], make a trimmed
    text. *)
Lemma TrimSpace_join (p m : string) :
  TrimSpace p = p -> p <> "" -> TrimSpace m = m -> m <> "" ->
  TrimSpace (String.append p (String "@" m)) = String.append p (String "@" m).
Proof.
  intros Hp Hpn Hm Hmn.
  apply TrimSpace_fixed in Hp as (Hph & _). apply TrimSpace_fixed in Hm as (_ & Hml).
  apply TrimSpace_fixed. rewrite list_ascii_of_string_append.
  cbn [list_ascii_of_string]. split.
  - rewrite DecodeRune_before_at; [exact Hph|].
    destruct p; [contradiction | discriminate].
  - rewrite rev_app_distr. cbn [rev]. rewrite <- app_assoc. cbn [app].
    rewrite DecodeLastRune_after_at; [exact Hml|].
    destruct m; [contradiction|]. cbn [list_ascii_of_string rev].
    intros E. apply app_eq_nil in E as [_ E]. discriminate.
Qed.

End TrimAt.

(** ** The admission middleware over longer runs *)
Section RateLimitRuns.
Import RateLimit.

(** The number of attempts that were admitted. *)
Local Abbreviation admitted oks := (length (filter (fun b : bool => b = true) oks)).




(** [waitForToken] leaves the concurrency gate and the configured rate
    and burst alone. *)
Lemma waitForToken_fields ctx : forall fuel m now r m' t,
  waitForToken fuel ctx m now = Some (r, m', t) ->
  concurrent m' = concurrent m /\ ratePerSec m' = ratePerSec m
  /\ burst m' = burst m.
Proof.
  induction fuel as [|fuel IH]; intros m now r m' t H; cbn [waitForToken] in H;
    [discriminate|].
  destruct (ctx_Err ctx now).
  - inversion H; subst. auto.
  - destruct (tryConsume_fields m now) as (F1 & F2 & F3).
    destruct (tryConsume m now) as [[|] m1]; cbn [snd] in *.
    + inversion H; subst. auto.
    + apply IH in H as (H1 & H2 & H3). repeat split; congruence.
Qed.

(** Under a deadline the loop returns at its first round or before the
    deadline has passed by a full poll interval, and its only error is
    the deadline's. *)
Lemma waitForToken_deadline d : forall fuel m now r m' t,
  waitForToken fuel (WithDeadline d) m now = Some (r, m', t) ->
  (t = now \/ t < d + pollInterval)
  /\ (r = None \/ (r = Some DeadlineExceeded /\ d <= t)).
Proof.
  induction fuel as [|fuel IH]; intros m now r m' t H; cbn [waitForToken] in H;
    [discriminate|].
  cbn [ctx_Err] in H. destruct (Z.leb_spec d now) as [Hd|Hd].
  - inversion H; subst. auto.
  - destruct (tryConsume m now) as [[|] m1].
    + inversion H; subst. auto.
    + apply IH in H as ([H1|H1] & H2); split; auto; right; lia.
Qed.

Lemma waitForToken_deadline_returns d : forall (k : nat) m now,
  d <= now + Z.of_nat k * pollInterval ->
  exists res, waitForToken (S k) (WithDeadline d) m now = Some res.
Proof.
  induction k as [|k IH]; intros m now Hk; cbn [waitForToken ctx_Err].
  - destruct (Z.leb_spec d now); [eauto | lia].
  - destruct (Z.leb_spec d now); [eauto|].
    destruct (tryConsume m now) as [[|] m1]; [eauto|].
    apply IH. lia.
Qed.

End RateLimitRuns.

Section RateLimitExtras.
Import RateLimit.


(** X2.  The wait for a token is bounded by the deadline of the context:
    within the stated number of rounds [waitForToken] returns, either at
    once or before the deadline has passed by one poll interval (10 ms);
    it returns [nil] only after a successful [tryConsume] at that moment,
    and its only error is the deadline's.  This holds for every rate and
    every state of the bucket. *)
Theorem waitForToken_bounded_by_deadline (d : Z) (m : rateLimitMiddleware) (now : Z) :
  exists r m' t,
    waitForToken (S (Z.to_nat ((d - now) / pollInterval + 1))) (WithDeadline d) m now
    = Some (r, m', t)
    /\ now <= t
    /\ (t = now \/ t < d + pollInterval)
    /\ (r = None \/ (r = Some DeadlineExceeded /\ d <= t))
    /\ (r = None -> exists m1, tryConsume m1 t = (true, m'))
    /\ concurrent m' = concurrent m.
Proof.
  destruct (waitForToken_deadline_returns d (Z.to_nat ((d - now) / pollInterval + 1)) m now)
    as [[[r m'] t] H].
  - assert (Hp : 0 < pollInterval) by reflexivity.
    pose proof (Z.mul_succ_div_gt (d - now) pollInterval Hp).
    destruct (Z.le_gt_cases 0 ((d - now) / pollInterval + 1)) as [Hq|Hq].
    + rewrite Z2Nat.id by exact Hq. lia.
    + rewrite Z2Nat.nonpos by lia.
      destruct (Z.le_gt_cases 0 (d - now)) as [Hn|Hn]; [|lia].
      pose proof (Z.div_pos (d - now) pollInterval Hn Hp). lia.
  - exists r, m', t. split; [exact H|].
    destruct (waitForToken_result _ _ _ _ _ _ _ H) as (R1 & R2 & R3).
    destruct (waitForToken_deadline _ _ _ _ _ _ _ H) as (D1 & D2).
    destruct (waitForToken_fields _ _ _ _ _ _ _ H) as (F1 & _).
    auto.
Qed.



End RateLimitExtras.

Section RateLimitExtraSamples.
Import RateLimit.




End RateLimitExtraSamples.

Section HttpExtras.
Import GoLib Http StreamLoop.
Context {ModeContext Usage ToolCall SandboxReport StreamEvent : Type}.
Variable defaultRunTimeout : Z.
Variable Marshal : StreamEvent -> option (list ascii).
Implicit Types (s : @httpServer ModeContext Usage ToolCall SandboxReport)
  (r : httpRequest) (req : runRequest) (sched : list (@selectCase StreamEvent)).

(** X5.  The run endpoint answers 200 exactly when the method is POST, the
    body is accepted and [Run] returns a response with a result; the
    answer then carries the session id of the request, the output, stop
    reason, usage and tool calls of the result, the sandbox snapshot, and
    the tags of the response, an empty map when they are nil; the runtime
    was called once, with the timeout of [requestContext] and the request
    of [toAPIRequest]. *)
Theorem handleRun_success s r :
  status (snd (handleRun defaultRunTimeout s r)) = StatusOK
  <-> exists req rsp res,
        Method r = "POST" /\ accepted (Body r) req
        /\ Run (runtime s) (requestContext defaultRunTimeout s (TimeoutMs req))
             (toAPIRequest req (mode s)) = inl (Some rsp)
        /\ Api.Result_ rsp = Some res
        /\ handleRun defaultRunTimeout s r
           = ([CallRun (requestContext defaultRunTimeout s (TimeoutMs req))
                       (toAPIRequest req (mode s))],
              writeJSON StatusOK
                (RunResponse
                   {| rSessionID := SessionID req;
                      rOutput := Api.Output res;
                      rStopReason := Api.StopReason res;
                      rUsage := Api.Usage_ res;
                      rTags := default ∅ (Api.Tags_ rsp);
                      rToolCalls := Api.ToolCalls res;
                      rSandbox := Api.SandboxSnapshot rsp |})).
Proof.
  unfold handleRun, accepted.
  destruct (String.eqb_spec (Method r) "POST") as [Hm|Hm]; cbn [negb].
  - destruct (decode (Body r)) as [err|req] eqn:Hd.
    + cbn [snd status writeJSON]. split; [discriminate|].
      intros (? & ? & ? & _ & (? & _) & _). discriminate.
    + destruct (String.eqb_spec (TrimSpace (Prompt req)) "") as [Hb|Hb].
      * cbn [snd status writeJSON]. split; [discriminate|].
        intros (? & ? & ? & _ & (E & Hn) & _). inversion E; subst. contradiction.
      * destruct (Run (runtime s) _ _) as [[rsp|]|e] eqn:Hr; cbn [buildRunResponse].
        -- destruct (Api.Result_ rsp) as [res|] eqn:Hres; cbn [snd status writeJSON].
           ++ split; [intros _|reflexivity].
              exists req, rsp, res. repeat split; auto.
           ++ split; [discriminate|].
              intros (? & ? & ? & _ & (E & _) & Hr' & Hres' & _).
              inversion E; subst. rewrite Hr in Hr'. inversion Hr'; subst.
              congruence.
        -- cbn [snd status writeJSON]. split; [discriminate|].
           intros (? & ? & ? & _ & (E & _) & Hr' & _).
           inversion E; subst. rewrite Hr in Hr'. discriminate.
        -- cbn [snd status writeJSON]. split; [discriminate|].
           intros (? & ? & ? & _ & (E & _) & Hr' & _).
           inversion E; subst. rewrite Hr in Hr'. discriminate.
  - cbn [snd status writeJSON]. split; [discriminate|].
    intros (? & ? & ? & ? & _). contradiction.
Qed.

(** X6.  Both endpoints answer a request whose method is not POST with 405
    and "only POST supported" whatever its body, and answer 405 in no
    other case; every request is answered with one of 200, 400, 405, 500
    and 502; and the runtime is called at most once per request. *)
Theorem method_gate s r (flusher : bool) sched :
  let run := handleRun defaultRunTimeout s r in
  let stream := handleStream defaultRunTimeout Marshal s flusher sched r in
  let refusal :=
    ([], writeJSON StatusMethodNotAllowed (ErrorResponse (Text "only POST supported"))) in
  (Method r <> "POST" -> run = refusal /\ stream = refusal)
  /\ (status (snd run) = StatusMethodNotAllowed <-> Method r <> "POST")
  /\ (status (snd stream) = StatusMethodNotAllowed <-> Method r <> "POST")
  /\ status (snd run) ∈ [200; 400; 405; 500; 502]
  /\ status (snd stream) ∈ [200; 400; 405; 500; 502]
  /\ (length (fst run) <= 1)%nat /\ (length (fst stream) <= 1)%nat.
Proof.
  cbv zeta. unfold handleRun, handleStream.
  destruct (String.eqb_spec (Method r) "POST") as [Hm|Hm]; cbn [negb].
  - destruct (decode (Body r)) as [err|req].
    + cbn [fst snd status writeJSON length].
      repeat split; try discriminate; try contradiction; try lia;
        try (intros; congruence); set_solver.
    + destruct (String.eqb (TrimSpace (Prompt req)) "").
      * cbn [fst snd status writeJSON length].
        repeat split; try discriminate; try contradiction; try lia;
          try (intros; congruence); set_solver.
      * destruct (Run (runtime s) _ _) as [resp|e];
          destruct (RunStream (runtime s) _ _) as [e'|];
          destruct flusher;
          try (destruct (buildRunResponse resp (SessionID req)));
          cbn [fst snd status writeJSON length negb];
          repeat split; try discriminate; try contradiction; try lia;
            try (intros; congruence); set_solver.
  - cbn [fst snd status writeJSON length].
    repeat split; auto; try lia; set_solver.
Qed.

(** X7.  The timeout that [requestContext] gives to the runtime is
    positive when the package default is: a positive [timeout_ms] of at
    most 9223372036854 is taken in milliseconds; beyond that the product
    overflows the 64-bit duration, and [timeout_ms] = 9223372036855 falls
    back to the package default; without a positive [timeout_ms] the
    timeout is the server's default when that is positive, else the
    package default. *)
Theorem requestContext_timeout s (timeoutMs : Z) :
  0 < defaultRunTimeout ->
  0 < requestContext defaultRunTimeout s timeoutMs
  /\ (0 < timeoutMs <= 9223372036854 ->
      requestContext defaultRunTimeout s timeoutMs = timeoutMs * 1000000)
  /\ (timeoutMs <= 0 -> 0 < defaultTimeout s ->
      requestContext defaultRunTimeout s timeoutMs = defaultTimeout s)
  /\ (timeoutMs <= 0 -> defaultTimeout s <= 0 ->
      requestContext defaultRunTimeout s timeoutMs = defaultRunTimeout)
  /\ requestContext defaultRunTimeout s 9223372036855 = defaultRunTimeout.
Proof.
  intros Hd. unfold requestContext.
  split; [|split; [|split; [|split]]].
  - destruct (Z.ltb_spec 0 timeoutMs);
      match goal with |- context [?a <=? 0] => destruct (Z.leb_spec a 0) end; lia.
  - intros [H1 H2]. destruct (Z.ltb_spec 0 timeoutMs); [|lia].
    assert (Hw : wrap64 (timeoutMs * 1000000) = timeoutMs * 1000000).
    { unfold wrap64.
      rewrite Z.mod_small by lia. lia. }
    rewrite Hw. destruct (Z.leb_spec (timeoutMs * 1000000) 0); lia.
  - intros H1 H2. destruct (Z.ltb_spec 0 timeoutMs); [lia|].
    destruct (Z.leb_spec (defaultTimeout s) 0); lia.
  - intros H1 H2. destruct (Z.ltb_spec 0 timeoutMs); [lia|].
    destruct (Z.leb_spec (defaultTimeout s) 0); lia.
  - reflexivity.
Qed.

Lemma skipSpace_blank (l : list ascii) :
  Forall (fun c => Json.isSpace c = true) l -> Json.skipSpace l = [].
Proof.
  induction 1 as [|c l Hc _ IH]; [reflexivity|]. cbn [Json.skipSpace].
  rewrite Hc. exact IH.
Qed.

(** X8.  A POST without a body, with an empty body, or with a body that
    holds only JSON white space (space, tab, carriage return, line feed)
    in its first 1 MiB is answered on both endpoints with 400 and the
    error "request body is empty", and the runtime is not called. *)
Theorem empty_body_rejected s r (flusher : bool) sched :
  Method r = "POST" ->
  (forall body, Body r = Some body ->
     Forall (fun c => Json.isSpace c = true) (LimitReader body maxBodyBytes)) ->
  handleRun defaultRunTimeout s r
    = ([], writeJSON StatusBadRequest (ErrorResponse (Text "request body is empty")))
  /\ handleStream defaultRunTimeout Marshal s flusher sched r
    = ([], writeJSON StatusBadRequest (ErrorResponse (Text "request body is empty"))).
Proof.
  intros Hm Hb. unfold handleRun, handleStream. rewrite Hm.
  change (negb ("POST" =? "POST")%string) with false. cbv iota.
  assert (Hd : decode (Body r) = inl (Text "request body is empty")).
  { destruct (Body r) as [body|]; [|reflexivity].
    unfold decode, Decode, Json.readValue.
    rewrite (skipSpace_blank _ (Hb body eq_refl)). reflexivity. }
  rewrite Hd. auto.
Qed.

Lemma streamLoop_stop sched c post :
  endsStream Marshal c = true ->
  streamLoop Marshal (sched ++ c :: post) = streamLoop Marshal sched.
Proof.
  intros Hc. induction sched as [|d sched IH]; cbn [app streamLoop].
  - destruct c as [e| | |]; cbn [endsStream] in Hc; try reflexivity; try discriminate.
    destruct (Marshal e); [discriminate | reflexivity].
  - destruct d as [e| | |]; try reflexivity.
    + destruct (Marshal e); [rewrite IH|]; reflexivity.
    + rewrite IH. reflexivity.
Qed.

(** X9.  The event stream is made of whole frames and ends for good: a
    closed channel, a done context or an event that cannot be marshalled
    ends the loop, and nothing that happens afterwards is written; up to
    there every round writes exactly one frame, the event's or a ping;
    and every frame written starts with "data: " and ends with an empty
    line. *)
Theorem stream_frames sched :
  (forall c post, endsStream Marshal c = true ->
     streamLoop Marshal (sched ++ c :: post) = streamLoop Marshal sched)
  /\ (forallb (fun c => negb (endsStream Marshal c)) sched = true ->
      streamLoop Marshal sched = map (frameOf Marshal) sched)
  /\ Forall (fun f => exists data,
               f = list_ascii_of_string "data: " ++ data ++ [newline; newline])
       (streamLoop Marshal sched)
  /\ (length (streamLoop Marshal sched) <= length sched)%nat.
Proof.
  split; [intros; apply streamLoop_stop; assumption|].
  split; [|split].
  - induction sched as [|d sched IH]; [reflexivity|].
    cbn [forallb]. intros H. apply andb_prop in H as [H1 H2].
    destruct d as [e| | |]; cbn [endsStream negb] in H1; try discriminate;
      cbn [streamLoop map frameOf].
    + destruct (Marshal e); [|discriminate]. rewrite (IH H2). reflexivity.
    + rewrite (IH H2). reflexivity.
  - induction sched as [|d sched IH]; [constructor|].
    destruct d as [e| | |]; cbn [streamLoop]; try constructor; auto.
    + destruct (Marshal e) as [data|]; constructor; auto.
      exists data. reflexivity.
    + eexists. reflexivity.
  - induction sched as [|d sched IH]; [reflexivity|].
    destruct d as [e| | |]; cbn [streamLoop length]; try lia.
    destruct (Marshal e); cbn [length]; lia.
Qed.

(** X10.  The stream endpoint opens an event stream (status 200, content
    type text/event-stream) exactly when the method is POST, the body is
    accepted, the writer can flush and [RunStream] returns no error; the
    frames are then those of the streaming loop, and every other answer
    is a JSON document. *)
Theorem handleStream_success s r (flusher : bool) sched :
  let stream := handleStream defaultRunTimeout Marshal s flusher sched r in
  (status (snd stream) = StatusOK
   <-> exists req,
         Method r = "POST" /\ accepted (Body r) req /\ flusher = true
         /\ RunStream (runtime s) (requestContext defaultRunTimeout s (TimeoutMs req))
              (toAPIRequest req (mode s)) = None
         /\ stream
            = ([CallRunStream (requestContext defaultRunTimeout s (TimeoutMs req))
                              (toAPIRequest req (mode s))],
               {| status := StatusOK; contentType := "text/event-stream";
                  content := EventStream (streamLoop Marshal sched) |}))
  /\ (status (snd stream) <> StatusOK ->
      contentType (snd stream) = "application/json"
      /\ exists m, content (snd stream) = ErrorResponse m).
Proof.
  cbv zeta. unfold handleStream, accepted.
  destruct (String.eqb_spec (Method r) "POST") as [Hm|Hm]; cbn [negb].
  - destruct (decode (Body r)) as [err|req] eqn:Hd.
    + cbn [snd status writeJSON contentType content]. split; [|eauto].
      split; [discriminate|]. intros (? & _ & (? & _) & _). discriminate.
    + destruct (String.eqb_spec (TrimSpace (Prompt req)) "") as [Hb|Hb].
      * cbn [snd status writeJSON contentType content]. split; [|eauto].
        split; [discriminate|].
        intros (? & _ & (E & Hn) & _). inversion E; subst. contradiction.
      * destruct flusher; cbn [negb].
        -- destruct (RunStream (runtime s) _ _) as [e|] eqn:Hr;
             cbn [snd status writeJSON contentType content].
           ++ split; [|eauto]. split; [discriminate|].
              intros (? & _ & (E & _) & _ & Hr' & _).
              inversion E; subst. rewrite Hr in Hr'. discriminate.
           ++ split; [|intros H; contradiction H; reflexivity].
              split; [intros _|reflexivity].
              exists req. repeat split; auto.
        -- cbn [snd status writeJSON contentType content]. split; [|eauto].
           split; [discriminate|]. intros (? & _ & _ & ? & _). discriminate.
  - cbn [snd status writeJSON contentType content]. split; [|eauto].
    split; [discriminate|]. intros (? & ? & _). contradiction.
Qed.

End HttpExtras.

Section HttpExtraSamples.
Import GoLib Http StreamLoop Samples.

Lemma requestContext_timeout_witness :
  requestContext sampleTimeout (server okRuntime) 1500 = 1500000000
  /\ requestContext sampleTimeout (server okRuntime) 9223372036855 = sampleTimeout.
Proof.
  destruct (requestContext_timeout (ModeContext := unit) (Usage := unit)
              (ToolCall := unit) (SandboxReport := unit)
              sampleTimeout (server okRuntime) 1500 eq_refl)
    as (_ & H & _ & _ & H').
  split; [apply H; lia | exact H'].
Defined.

Lemma empty_body_rejected_witness :
  handleRun sampleTimeout (server okRuntime) (post (text "  "))
  = ([], writeJSON StatusBadRequest (ErrorResponse (Text "request body is empty"))).
Proof.
  apply (empty_body_rejected sampleTimeout noMarshal (server okRuntime)
           (post (text "  ")) true [] eq_refl).
  intros body Hb. inversion Hb; subst. repeat constructor.
Defined.

End HttpExtraSamples.

(** ** [strings.TrimSpace] *)

(** ** Manifests: normalisation, validation and loading *)
Section ManifestFacts.
Import GoLib Plugins Manifests.
#[local] Existing Instance string_le_trans.
#[local] Existing Instance string_le_total.
#[local] Existing Instance string_le_antisym.

Lemma sortStrings_elem (l : list string) x : x ∈ sortStrings l <-> x ∈ l.
Proof. unfold sortStrings. rewrite merge_sort_Permutation. reflexivity. Qed.

Lemma sortStrings_NoDup (l : list string) : NoDup l -> NoDup (sortStrings l).
Proof. unfold sortStrings. rewrite merge_sort_Permutation. auto. Qed.

Lemma sortStrings_Sorted (l : list string) : Sorted string_le (sortStrings l).
Proof. apply Sorted_merge_sort. apply _. Qed.

Lemma sortStrings_length (l : list string) : length (sortStrings l) = length l.
Proof. unfold sortStrings. rewrite merge_sort_Permutation. reflexivity. Qed.

(** The entries that [normalizeList] keeps. *)
Lemma normalizeList_elem values x :
  x ∈ normalizeList values <-> x <> "" /\ exists v, v ∈ values /\ TrimSpace v = x.
Proof.
  unfold normalizeList. destruct values as [|v0 values].
  - cbn. split; [intros H; inversion H|].
    intros (_ & v & Hv & _). inversion Hv.
  - cbn [length Nat.eqb].
    rewrite sortStrings_elem, elem_of_elements, elem_of_list_to_set,
      list_elem_of_filter, list_elem_of_fmap.
    split; intros (H1 & v & H2 & H3); (split; [exact H1|]); exists v; auto.
Qed.

Lemma normalizeList_same_set l1 l2 :
  (forall x, x ∈ normalizeList l1 <-> x ∈ normalizeList l2) ->
  normalizeList l1 = normalizeList l2.
Proof.
  intros H.
  assert (Hs : forall l, normalizeList l
                 = sortStrings (elements (list_to_set (normalizeList l) : gset string))).
  { intros l. unfold normalizeList. destruct l as [|v l]; [reflexivity|].
    cbn [length Nat.eqb]. apply sortStrings_Permutation.
    apply NoDup_Permutation.
    - apply NoDup_elements.
    - apply NoDup_elements.
    - intros x. rewrite !elem_of_elements, !elem_of_list_to_set.
      rewrite sortStrings_elem, elem_of_elements, elem_of_list_to_set. reflexivity. }
  rewrite (Hs l1), (Hs l2). f_equal. f_equal.
  apply set_eq. intros x. rewrite !elem_of_list_to_set. apply H.
Qed.

(** What the loop of [normalizeHookMap] leaves under a key, when no two
    entries have the same trimmed key. *)
Lemma normalizeHookEntries_lookup : forall entries (init : gmap string (list string)),
  NoDup (map (fun kv : string * list string => TrimSpace (fst kv)) entries) ->
  (forall kv, kv ∈ entries -> init !! TrimSpace (fst kv) = None) ->
  forall k vs,
    fold_left
      (fun out kv =>
         let trimmedKey := TrimSpace (fst kv) in
         if String.eqb trimmedKey "" then out
         else
           let normVals := normalizeList (snd kv) in
           if (length normVals =? 0)%nat then out
           else <[trimmedKey := normVals]> out)
      entries init !! k = Some vs
    <-> init !! k = Some vs
        \/ (exists key raw, (key, raw) ∈ entries /\ TrimSpace key = k /\ k <> ""
                           /\ normalizeList raw = vs /\ vs <> []).
Proof.
  induction entries as [|[key raw] entries IH]; intros init Hnd Hinit k vs.
  - cbn [fold_left]. split; [auto|].
    intros [H|(? & ? & H & _)]; [exact H | inversion H].
  - cbn [fold_left fst snd]. cbn [map fst] in Hnd.
    apply NoDup_cons in Hnd as [Hnotin Hnd].
    set (init' := if String.eqb (TrimSpace key) "" then init
                  else if (length (normalizeList raw) =? 0)%nat then init
                       else <[TrimSpace key := normalizeList raw]> init).
    assert (Hinit' : forall kv, kv ∈ entries -> init' !! TrimSpace (fst kv) = None).
    { intros kv Hkv. assert (Hne : TrimSpace key <> TrimSpace (fst kv)).
      { intros E. apply Hnotin. rewrite E.
        apply (list_elem_of_fmap_2 (fun kv => TrimSpace (fst kv))). exact Hkv. }
      assert (H0 : init !! TrimSpace (fst kv) = None) by (apply Hinit; right; exact Hkv).
      unfold init'. destruct (String.eqb _ ""); [exact H0|].
      destruct (_ =? 0)%nat; [exact H0|].
      rewrite lookup_insert_ne by exact Hne. exact H0. }
    rewrite (IH init' Hnd Hinit' k vs).
    assert (Hkey : init !! TrimSpace key = None) by (apply (Hinit (key, raw)); left).
    assert (Hstep : init' !! k = Some vs
                    <-> init !! k = Some vs
                        \/ (TrimSpace key = k /\ k <> "" /\ normalizeList raw = vs
                            /\ vs <> [])).
    { unfold init'. destruct (String.eqb_spec (TrimSpace key) "") as [He|He].
      - split; [auto|]. intros [H|(E & Hk & _)]; [exact H|]. congruence.
      - destruct (normalizeList raw) as [|v0 nl] eqn:En; cbn [length Nat.eqb].
        + split; [auto|]. intros [H|(_ & _ & E & Hv)]; [exact H|]. congruence.
        + destruct (decide (TrimSpace key = k)) as [Ek|Ek].
          * subst k. rewrite lookup_insert_eq. rewrite Hkey.
            split.
            -- intros H. right. inversion H; subst. repeat split; auto.
            -- intros [H|(_ & _ & E & _)]; [discriminate | congruence].
          * rewrite lookup_insert_ne by exact Ek.
            split; [auto|]. intros [H|(E & _)]; [exact H | contradiction]. }
    rewrite Hstep. split.
    + intros [[H|(E & Hk & Hn & Hv)]|(key' & raw' & Hin & H)].
      * left; exact H.
      * right. exists key, raw. split; [left|]; auto.
      * right. exists key', raw'. split; [right; exact Hin | exact H].
    + intros [H|(key' & raw' & Hin & E & Hk & Hn & Hv)].
      * left; left; exact H.
      * apply elem_of_cons in Hin as [Heq|Hin].
        -- inversion Heq; subst. left; right. auto.
        -- right. exists key', raw'. auto.
Qed.

Lemma setDigest_fields mf d :
  Name (setDigest mf d) = Name mf /\ Version (setDigest mf d) = Version mf
  /\ Signer (setDigest mf d) = Signer mf /\ Signature (setDigest mf d) = Signature mf
  /\ Digest (setDigest mf d) = d.
Proof. repeat split. Qed.

(** Two lists with the same trimmed entries, the empty one apart, have
    the same normal form. *)
Lemma normalizeList_same_trimmed (values values' : list string) :
  (forall x, x <> "" -> (x ∈ map TrimSpace values <-> x ∈ map TrimSpace values')) ->
  normalizeList values' = normalizeList values.
Proof.
  intros H. apply normalizeList_same_set. intros x.
  rewrite !normalizeList_elem. split; intros (Hx & v & Hv & E); (split; [exact Hx|]).
  - assert (Hx' : x ∈ map TrimSpace values).
    { subst x. apply (proj2 (H _ Hx)). apply list_elem_of_fmap_2. exact Hv. }
    apply list_elem_of_fmap in Hx' as (w & -> & Hw). eauto.
  - assert (Hx' : x ∈ map TrimSpace values').
    { subst x. apply (proj1 (H _ Hx)). apply list_elem_of_fmap_2. exact Hv. }
    apply list_elem_of_fmap in Hx' as (w & -> & Hw). eauto.
Qed.

End ManifestFacts.

Section ManifestExtras.
Import GoLib Plugins Manifests.
#[local] Existing Instance string_le_trans.
#[local] Existing Instance string_le_total.
#[local] Existing Instance string_le_antisym.
Context {PublicKey : Type}.
Variable semver_IsValid : string -> bool.
Variable EqualFold : string -> string -> bool.
Variable sha256 : list ascii -> list ascii.
Variable ed25519_Verify : PublicKey -> list ascii -> list ascii -> bool.
Variable base64_Decode : string -> option (list ascii).
Variable unicodeToLower : Z -> Z.

(** X11.  [normalizeList] returns the canonical form of a list: its
    entries are exactly the trimmed entries of the input that are not
    empty, each once, in ascending byte order; hence two inputs with the
    same trimmed entries (in any order, with any repetition) give the same
    list, and normalising a normalised list changes nothing. *)
Theorem normalizeList_canonical (values : list string) :
  Sorted string_le (normalizeList values)
  /\ NoDup (normalizeList values)
  /\ (forall x, x ∈ normalizeList values
                <-> x <> "" /\ exists v, v ∈ values /\ TrimSpace v = x)
  /\ (forall values',
        (forall x, x <> "" -> (x ∈ map TrimSpace values <-> x ∈ map TrimSpace values')) ->
        normalizeList values' = normalizeList values)
  /\ normalizeList (normalizeList values) = normalizeList values.
Proof.
  split; [|split; [|split; [|split]]].
  - unfold normalizeList. destruct (_ =? _)%nat; [constructor|].
    apply sortStrings_Sorted.
  - unfold normalizeList. destruct (_ =? _)%nat; [constructor|].
    apply sortStrings_NoDup, NoDup_elements.
  - apply normalizeList_elem.
  - intros values'. apply normalizeList_same_trimmed.
  - apply normalizeList_same_set. intros x.
    rewrite (normalizeList_elem (normalizeList values)). split.
    + intros (Hx & v & Hv & E).
      apply normalizeList_elem in Hv as (_ & w & Hw & <-).
      rewrite TrimSpace_idemp in E. apply normalizeList_elem. eauto.
    + intros Hin. pose proof Hin as Hin'.
      apply normalizeList_elem in Hin' as (Hx & v & Hv & E).
      split; [exact Hx|]. exists x. split; [exact Hin|].
      subst x. apply TrimSpace_idemp.
Qed.

(** X12.  When no two keys of a hook map have the same trimmed form,
    [normalizeHookMap] gives the same map in whatever order [range] yields
    the entries: under the trimmed form of each key that is not blank it
    holds the normalised values of that key, unless they are empty, and
    nothing else. *)
Theorem normalizeHookMap_order_free (src : gmap string (list string))
    (order : list (string * list string)) :
  order ≡ₚ map_to_list src ->
  (forall k1 k2, k1 ∈ dom src -> k2 ∈ dom src -> TrimSpace k1 = TrimSpace k2 -> k1 = k2) ->
  normalizeHookEntries order = normalizeHookMap src
  /\ (forall k vs,
        normalizeHookMap src !! k = Some vs
        <-> k <> "" /\ vs <> []
            /\ exists key raw, src !! key = Some raw /\ TrimSpace key = k
                               /\ normalizeList raw = vs).
Proof.
  intros Hperm Hinj.
  assert (Hnd : NoDup (map (fun kv : string * list string => TrimSpace (fst kv))
                         (map_to_list src))).
  { rewrite <- (map_map fst TrimSpace). apply NoDup_fmap_2_strong.
    - intros k1 k2 H1 H2. apply Hinj.
      + apply elem_of_dom. apply list_elem_of_fmap in H1 as ([k v] & -> & Hkv).
        apply elem_of_map_to_list in Hkv. eauto.
      + apply elem_of_dom. apply list_elem_of_fmap in H2 as ([k v] & -> & Hkv).
        apply elem_of_map_to_list in Hkv. eauto.
    - apply NoDup_fst_map_to_list. }
  assert (Hnd' : NoDup (map (fun kv : string * list string => TrimSpace (fst kv)) order))
    by (rewrite Hperm; exact Hnd).
  assert (Hlook : forall entries k vs,
            entries ≡ₚ map_to_list src ->
            normalizeHookEntries entries !! k = Some vs
            <-> k <> "" /\ vs <> []
                /\ exists key raw, src !! key = Some raw /\ TrimSpace key = k
                                   /\ normalizeList raw = vs).
  { intros entries k vs He. unfold normalizeHookEntries.
    rewrite normalizeHookEntries_lookup.
    - rewrite lookup_empty. split.
      + intros [H|(key & raw & Hin & E & Hk & Hn & Hv)]; [discriminate|].
        repeat split; auto. exists key, raw. repeat split; auto.
        apply elem_of_map_to_list. rewrite <- He. exact Hin.
      + intros (Hk & Hv & key & raw & Hs & E & Hn). right.
        exists key, raw. repeat split; auto.
        rewrite He. apply elem_of_map_to_list. exact Hs.
    - rewrite He. exact Hnd.
    - intros kv _. apply lookup_empty. }
  assert (Hsame : normalizeHookEntries order = normalizeHookEntries (map_to_list src)).
  { apply map_eq. intros k. apply option_eq. intros vs.
    rewrite (Hlook order k vs Hperm), (Hlook (map_to_list src) k vs (reflexivity _)).
    reflexivity. }
  assert (Hdef : normalizeHookMap src = normalizeHookEntries (map_to_list src)).
  { unfold normalizeHookMap. destruct (Nat.eqb_spec (size src) 0) as [Hz|Hz]; [|reflexivity].
    apply map_size_empty_inv in Hz. subst src. rewrite map_to_list_empty. reflexivity. }
  split; [rewrite Hdef; exact Hsame|].
  intros k vs. rewrite Hdef. apply Hlook. reflexivity.
Qed.

Lemma length_list_ascii_of_string (s : string) :
  length (list_ascii_of_string s) = String.length s.
Proof. induction s as [|c s IH]; cbn; [reflexivity | rewrite IH; reflexivity]. Qed.

Lemma firstBlank_None : forall l i,
  firstBlank i l = None <-> Forall (fun s => TrimSpace s <> "") l.
Proof.
  induction l as [|s l IH]; intros i; cbn [firstBlank].
  - split; [constructor | reflexivity].
  - destruct (String.eqb_spec (TrimSpace s) "") as [E|E].
    + split; [discriminate|]. intros H. inversion H; subst. contradiction.
    + rewrite IH. split; [constructor; auto|]. intros H. inversion H; auto.
Qed.

Lemma firstBlank_Some : forall l i j,
  firstBlank i l = Some j ->
  (i <= j)%nat /\ (exists s, l !! (j - i)%nat = Some s /\ TrimSpace s = "")
  /\ Forall (fun s => TrimSpace s <> "") (take (j - i) l).
Proof.
  induction l as [|s l IH]; intros i j; cbn [firstBlank]; [discriminate|].
  destruct (String.eqb_spec (TrimSpace s) "") as [E|E].
  - intros H. inversion H; subst. rewrite Nat.sub_diag.
    split; [lia|]. split; [exists s; auto | constructor].
  - intros H. apply IH in H as (Hle & (t & Ht & Hb) & Hall).
    replace (j - i)%nat with (S (j - S i)) by lia.
    split; [lia|]. split; [exists t; auto|]. cbn [take]. constructor; auto.
Qed.

(** X13.  [validateManifestFields] accepts a manifest exactly when its
    name has 2 to 64 bytes, all of them lower-case letters, digits, [_] or
    [-] and the first a letter or a digit; its version is a semantic
    version; no command, agent or skill is blank; and its digest is empty
    or 64 hexadecimal digits.  Otherwise the error is that of the first
    of these checks that fails, and for a blank entry it carries the index
    of the first blank one. *)
Theorem validateManifestFields_accepts (m : Manifest) :
  let nameOK :=
    (2 <= String.length (Name m) <= 64)%nat
    /\ (exists c rest, list_ascii_of_string (Name m) = c :: rest /\ isLowerAlnum c = true)
    /\ Forall (fun c => isNameByte c = true) (list_ascii_of_string (Name m)) in
  let digestOK :=
    Digest m = ""
    \/ (String.length (Digest m) = 64%nat
        /\ Forall (fun c => isHexDigit c = true) (list_ascii_of_string (Digest m))) in
  let noBlank l := Forall (fun s => TrimSpace s <> "") l in
  (validateManifestFields semver_IsValid (Some m) = None
   <-> nameOK /\ IsSemVer semver_IsValid (Version m) = true
       /\ noBlank (Commands m) /\ noBlank (Agents m) /\ noBlank (Skills m)
       /\ digestOK)
  /\ (~ nameOK -> validateManifestFields semver_IsValid (Some m)
                  = Some (ErrInvalidName (Name m)))
  /\ (forall i, validateManifestFields semver_IsValid (Some m) = Some (ErrEmptyCommand i) ->
        (exists s, Commands m !! i = Some s /\ TrimSpace s = "")
        /\ noBlank (take i (Commands m)))
  /\ validateManifestFields semver_IsValid None = Some ErrManifestIsNil.
Proof.
  cbv zeta.
  assert (Hname : pluginNamePattern (Name m) = true
                  <-> (2 <= String.length (Name m) <= 64)%nat
                      /\ (exists c rest, list_ascii_of_string (Name m) = c :: rest
                                         /\ isLowerAlnum c = true)
                      /\ Forall (fun c => isNameByte c = true)
                           (list_ascii_of_string (Name m))).
  { unfold pluginNamePattern. rewrite <- (length_list_ascii_of_string (Name m)).
    destruct (list_ascii_of_string (Name m)) as [|c rest].
    - split; [discriminate|]. cbn [length]. lia.
    - rewrite !andb_true_iff, Nat.leb_le, Nat.leb_le, forallb_forall.
      cbn [length]. split.
      + intros (((H1 & H2) & H3) & H4). split; [lia|]. split; [eauto|].
        constructor.
        * unfold isNameByte. rewrite H1. reflexivity.
        * apply Forall_forall. intros x Hx. apply H2. apply list_elem_of_In. exact Hx.
      + intros (H1 & (c' & rest' & E & H2) & H3). inversion E; subst.
        inversion H3; subst. repeat split; try lia; auto.
        intros x Hx. rewrite Forall_forall in H5. apply H5. apply list_elem_of_In. exact Hx. }
  assert (Hdigest : (if negb (String.eqb (Digest m) "") then
                       if negb (String.length (Digest m) =? 64)%nat then Some ErrDigestLength
                       else if negb (hexDecodable (Digest m)) then Some ErrInvalidDigest
                       else None
                     else None) = None
                    <-> Digest m = ""
                        \/ (String.length (Digest m) = 64%nat
                            /\ Forall (fun c => isHexDigit c = true)
                                 (list_ascii_of_string (Digest m)))).
  { destruct (String.eqb_spec (Digest m) "") as [E|E]; cbn [negb]; [tauto|].
    destruct (Nat.eqb_spec (String.length (Digest m)) 64) as [El|El]; cbn [negb].
    - unfold hexDecodable. rewrite El. cbn [Nat.even andb].
      destruct (forallb isHexDigit (list_ascii_of_string (Digest m))) eqn:Eh; cbn [negb].
      + split; [intros _; right; split; [reflexivity|] | reflexivity].
        apply Forall_forall. intros x Hx. rewrite forallb_forall in Eh. apply Eh.
        apply list_elem_of_In. exact Hx.
      + split; [discriminate|]. intros [H|(_ & H)]; [contradiction|].
        exfalso. assert (forallb isHexDigit (list_ascii_of_string (Digest m)) = true).
        { apply forallb_forall. intros x Hx. rewrite Forall_forall in H. apply H.
          apply list_elem_of_In. exact Hx. }
        congruence.
    - split; [discriminate|]. intros [H|(H & _)]; contradiction. }
  split; [|split; [|split]].
  - unfold validateManifestFields.
    destruct (pluginNamePattern (Name m)) eqn:En; cbn [negb].
    + destruct (IsSemVer semver_IsValid (Version m)) eqn:Ev; cbn [negb].
      * destruct (firstBlank 0 (Commands m)) eqn:Ec.
        -- split; [discriminate|]. intros (_ & _ & H & _).
           apply (proj2 (firstBlank_None _ 0%nat)) in H. congruence.
        -- destruct (firstBlank 0 (Agents m)) eqn:Ea.
           ++ split; [discriminate|]. intros (_ & _ & _ & H & _).
              apply (proj2 (firstBlank_None _ 0%nat)) in H. congruence.
           ++ destruct (firstBlank 0 (Skills m)) eqn:Es.
              ** split; [discriminate|]. intros (_ & _ & _ & _ & H & _).
                 apply (proj2 (firstBlank_None _ 0%nat)) in H. congruence.
              ** rewrite Hdigest. apply firstBlank_None in Ec, Ea, Es.
                 pose proof (proj1 Hname eq_refl). tauto.
      * split; [discriminate|]. intros (_ & H & _). discriminate.
    + split; [discriminate|]. intros (H & _). apply Hname in H. discriminate.
  - intros Hn. unfold validateManifestFields.
    destruct (pluginNamePattern (Name m)) eqn:En; cbn [negb]; [|reflexivity].
    exfalso. apply Hn. apply Hname. reflexivity.
  - intros i. unfold validateManifestFields.
    destruct (pluginNamePattern (Name m)); cbn [negb]; [|discriminate].
    destruct (IsSemVer semver_IsValid (Version m)); cbn [negb]; [|discriminate].
    destruct (firstBlank 0 (Commands m)) as [j|] eqn:Ec.
    + intros H. inversion H; subst j.
      apply firstBlank_Some in Ec as (_ & H1 & H2).
      rewrite Nat.sub_0_r in H1, H2. auto.
    + destruct (firstBlank 0 (Agents m)); [discriminate|].
      destruct (firstBlank 0 (Skills m)); [discriminate|].
      destruct (negb (String.eqb (Digest m) "")); [|discriminate].
      destruct (negb (String.length (Digest m) =? 64)%nat); [discriminate|].
      destruct (negb (hexDecodable (Digest m))); discriminate.
  - reflexivity.
Qed.

(** X14.  The digest that [LoadManifest] computes after normalising does
    not depend on the order, the repetition or the surrounding white
    space of the commands, agents and skills, nor on the white space
    around name, version, description and author, nor on the digest,
    signer, signature, path and trust fields: two manifests that agree on
    the trimmed forms and on the hooks have the same digest. *)
Theorem digest_of_normalised (m1 m2 : Manifest) :
  TrimSpace (Name m1) = TrimSpace (Name m2) ->
  TrimSpace (Version m1) = TrimSpace (Version m2) ->
  TrimSpace (Description m1) = TrimSpace (Description m2) ->
  TrimSpace (Author m1) = TrimSpace (Author m2) ->
  (forall x, x <> "" ->
     (x ∈ map TrimSpace (Commands m1) <-> x ∈ map TrimSpace (Commands m2))
     /\ (x ∈ map TrimSpace (Agents m1) <-> x ∈ map TrimSpace (Agents m2))
     /\ (x ∈ map TrimSpace (Skills m1) <-> x ∈ map TrimSpace (Skills m2))) ->
  Hooks m1 = Hooks m2 ->
  computeManifestDigest sha256 (Some (normalizeManifest m1))
  = computeManifestDigest sha256 (Some (normalizeManifest m2)).
Proof.
  intros Hn Hv Hd Ha Hl Hh.
  pose proof (normalizeList_same_trimmed (Commands m2)) as Hc.
  pose proof (normalizeList_same_trimmed (Agents m2)) as Hag.
  pose proof (normalizeList_same_trimmed (Skills m2)) as Hs.
  unfold computeManifestDigest, digestPayload, normalizeManifest.
  cbn [Name Version Description Author Commands Agents Skills Hooks].
  rewrite Hn, Hv, Hd, Ha, Hh.
  rewrite (Hc (Commands m1)) by (intros x Hx; symmetry; apply (Hl x Hx)).
  rewrite (Hag (Agents m1)) by (intros x Hx; symmetry; apply (Hl x Hx)).
  rewrite (Hs (Skills m1)) by (intros x Hx; symmetry; apply (Hl x Hx)).
  reflexivity.
Qed.

(** X15.  What holds of every manifest [LoadManifest] returns: the path is
    a file (not a directory) whose content decodes; the manifest is the
    normalised form of the decoded one and passes
    [validateManifestFields]; a digest stated in the file matches the
    computed one up to case, and the digest field holds the computed
    digest, which is the digest of the returned manifest itself; the
    plugin directory has the absolute root as a string prefix; when a
    trust store is given, [Verify] accepted the manifest with its
    canonical bytes; and [Trusted] is set in every case, with or without
    a trust store. *)
Theorem LoadManifest_postconditions (h : host) (path : string)
    (opts : list (@ManifestOption PublicKey)) (mf : Manifest) :
  LoadManifest semver_IsValid EqualFold sha256 ed25519_Verify base64_Decode
    unicodeToLower h path opts = inr mf ->
  let opt := fold_left applyOption opts {| trust := None; root := "" |} in
  Trusted mf = true
  /\ (exists info, Stat h path = inr info /\ IsDir info = false)
  /\ Abs h path = inr (ManifestPath mf)
  /\ (exists data raw,
        ReadFile h path = inr data /\ Unmarshal h data = Some raw
        /\ validateManifestFields semver_IsValid (Some (normalizeManifest raw)) = None
        /\ mf = setLoaded (setDigest (normalizeManifest raw) (Digest mf))
                  (ManifestPath mf) (PluginDir mf)
        /\ (Digest raw = "" \/ EqualFold (Digest raw) (Digest mf) = true))
  /\ computeManifestDigest sha256 (Some mf) = inr (Digest mf)
  /\ (exists rootAbs, HasPrefix (PluginDir mf) rootAbs = true
                      /\ (root opt <> "" -> Abs h (root opt) = inr rootAbs))
  /\ (forall t, trust opt = Some t ->
        exists payload,
          CanonicalManifestBytes unicodeToLower (Some mf) = inr payload
          /\ Verify sha256 ed25519_Verify base64_Decode unicodeToLower
               (Some t) (Some mf) payload = None).
Proof.
  intros H opt. unfold LoadManifest in H. fold opt in H.
  destruct (Stat h path) as [|info] eqn:Estat; [discriminate|].
  destruct (IsDir info) eqn:Edir; [discriminate|].
  destruct (ReadFile h path) as [|data] eqn:Eread; [discriminate|].
  destruct (Unmarshal h data) as [raw|] eqn:Eun; [|discriminate].
  set (pluginDir := if String.eqb (Base h (Dir h path)) ".claude-plugin"
                    then Dir h (Dir h path) else Dir h path) in *.
  destruct (Abs h (if String.eqb (root opt) "" then pluginDir else root opt))
    as [|rootAbs] eqn:Eroot; [discriminate|].
  destruct (Abs h pluginDir) as [|pluginDirAbs] eqn:Epd; [discriminate|].
  destruct (HasPrefix pluginDirAbs rootAbs) eqn:Epre; cbn [negb] in H; [|discriminate].
  destruct (validateManifestFields semver_IsValid (Some (normalizeManifest raw)))
    eqn:Eval; [discriminate|].
  cbn [computeManifestDigest] in H.
  set (computed := hexEncodeToString (sha256 (digestPayload (normalizeManifest raw)))) in *.
  destruct (negb (String.eqb (Digest (normalizeManifest raw)) "")
            && negb (EqualFold (Digest (normalizeManifest raw)) computed)) eqn:Edig;
    [discriminate|].
  cbn [CanonicalManifestBytes] in H.
  match type of H with
  | match ?v with _ => _ end = _ => destruct v as [err|] eqn:Ever; [discriminate|]
  end.
  destruct (Abs h path) as [|manifestAbs] eqn:Eabs; [discriminate|].
  inversion H; subst mf; clear H.
  cbn [Trusted setLoaded ManifestPath PluginDir Digest setDigest].
  split; [reflexivity|]. split; [eauto|]. split; [reflexivity|].
  split.
  { exists data, raw. repeat split; auto.
    cbn [Digest normalizeManifest] in Edig.
    destruct (String.eqb_spec (Digest raw) "") as [E|E]; [left; exact E|].
    cbn [negb andb] in Edig. right. apply negb_false_iff in Edig. exact Edig. }
  split; [reflexivity|].
  split.
  { exists rootAbs. split; [exact Epre|]. intros Hr.
    destruct (String.eqb_spec (root opt) "") as [E|E]; [contradiction | exact Eroot]. }
  intros t Ht. rewrite Ht in Ever.
  eexists. split; [reflexivity|]. exact Ever.
Qed.

End ManifestExtras.

(** ** Finding the manifest of a plugin directory *)
Section FindExtras.
Import GoLib Plugins Manifests.

(** A path that [os.Stat] reports as an existing file that is no
    directory. *)
Local Abbreviation isFile h p := (exists info, Stat h p = inr info /\ IsDir info = false).

(** A path that is missing or is a directory. *)
Local Abbreviation noFile h p :=
  (Stat h p = inl ErrNotExist \/ exists info, Stat h p = inr info /\ IsDir info = true).

(** X25.  [FindManifest] returns a path only if [os.Stat] shows a file
    there that is no directory, and the path is the manifest under
    [.claude-plugin] or else the one directly in the directory; the first
    is preferred whenever it is such a file, whatever the second is.  The
    not-found error is returned exactly when each of the two paths is
    missing or a directory; any other [os.Stat] error on the first path is
    returned at once, even when the second path holds a manifest. *)
Theorem FindManifest_contract (h : host) (dir : string) :
  let primary := Join h [dir; ".claude-plugin"; manifestFileName] in
  let alt := Join h [dir; manifestFileName] in
  (forall p, FindManifest h dir = inr p ->
     isFile h p /\ (p = primary \/ (p = alt /\ noFile h primary)))
  /\ (isFile h primary -> FindManifest h dir = inr primary)
  /\ (FindManifest h dir = inl (ErrManifestNotFound dir)
      <-> noFile h primary /\ noFile h alt)
  /\ (forall msg, Stat h primary = inl (ErrOther msg) ->
        FindManifest h dir = inl (ErrFindStat (ErrOther msg))).
Proof.
  intros primary alt. unfold FindManifest. fold primary alt.
  destruct (Stat h primary) as [[|msg1]|[[|]]] eqn:Ep;
    destruct (Stat h alt) as [[|msg2]|[[|]]] eqn:Ea; cbn [negb IsDir];
    (split; [intros p Hp; try discriminate; inversion Hp; subst p;
             rewrite ?Ep, ?Ea; eauto 10 |
     split; [intros (i & Hi & Hd); inversion Hi; subst i;
             first [discriminate | reflexivity] |
     split; [split; [intros Hn; first [discriminate | eauto 10] |
                     intros ([H1|(i1 & H1 & D1)] & [H2|(i2 & H2 & D2)]);
                     first [discriminate | reflexivity
                           | inversion H1; subst i1; discriminate
                           | inversion H2; subst i2; discriminate] ] |
             intros m Hm; inversion Hm; reflexivity]]]).
Qed.

End FindExtras.

(** ** The trust store *)
Section TrustFacts.
Import GoLib Plugins TrustOps.
Context {PublicKey : Type}.
Variable unicodeToLower : Z -> Z.
#[local] Set Warnings "-clear-no-such-hyp".

(** A digest that is blocked stays blocked under every later call. *)
Lemma applyOps_blocked (ops : list (@storeOp PublicKey)) : forall t d,
  isDigestBlocked unicodeToLower t d = true ->
  isDigestBlocked unicodeToLower (applyOps unicodeToLower ops t) d = true.
Proof.
  induction ops as [|op ops IH]; intros t d H; [exact H|].
  cbn [applyOps fold_left]. apply IH.
  unfold isDigestBlocked in *. apply bool_decide_eq_true in H.
  apply bool_decide_eq_true.
  destruct op; cbn [applyOp Register BlockDigest AllowUnsigned blockedDigests]; set_solver.
Qed.

(** Blocking a digest makes it blocked, whatever its case. *)
Lemma BlockDigest_blocked (t : @TrustStore PublicKey) (digest d : string) :
  ToLower unicodeToLower d = ToLower unicodeToLower digest ->
  isDigestBlocked unicodeToLower (BlockDigest unicodeToLower t digest) d = true.
Proof.
  intros Hd. unfold isDigestBlocked, BlockDigest. cbn [blockedDigests].
  apply bool_decide_eq_true. rewrite Hd. set_solver.
Qed.

End TrustFacts.

Section TrustExtras.
Import GoLib Plugins TrustOps.
Context {PublicKey PrivateKey : Type}.
Variable sha256 : list ascii -> list ascii.
Variable ed25519_Sign : PrivateKey -> list ascii -> list ascii.
Variable ed25519_Verify : PublicKey -> list ascii -> list ascii -> bool.
Variable base64_Encode : list ascii -> string.
Variable base64_Decode : string -> option (list ascii).
Variable unicodeToLower : Z -> Z.

Local Abbreviation Verify' := (Verify sha256 ed25519_Verify base64_Decode unicodeToLower).

(** X16.  A manifest signed with [SignManifest] verifies: when the
    signature found for the signer's private key is stored in the
    manifest, the signer's public key is registered and the digest is not
    blocked, [Verify] accepts the manifest with its canonical bytes.  The
    canonical bytes do not depend on the signature field, so signing does
    not change what is signed.  The cryptographic primitives enter through
    two facts: a signature made with the private key verifies under the
    public key, and the base64 encoding decodes to what was encoded. *)
Theorem sign_then_verify (mf : Manifest) (private : PrivateKey) (public : PublicKey)
    (t : @TrustStore PublicKey) (sig : string) :
  (forall msg, ed25519_Verify public msg (ed25519_Sign private msg) = true) ->
  (forall b, base64_Decode (base64_Encode b) = Some b) ->
  SignManifest sha256 ed25519_Sign base64_Encode unicodeToLower (Some mf) private
    = inr sig ->
  sig <> "" -> Signer mf <> "" ->
  keys t !! Signer mf = Some public ->
  isDigestBlocked unicodeToLower t (Digest mf) = false ->
  exists payload,
    CanonicalManifestBytes unicodeToLower (Some mf) = inr payload
    /\ CanonicalManifestBytes unicodeToLower (Some (withSignature mf sig)) = inr payload
    /\ Verify' (Some t) (Some (withSignature mf sig)) payload = None.
Proof.
  intros Hsig Hb64 Hsign Hne Hsigner Hkey Hblock.
  unfold SignManifest in Hsign.
  destruct (CanonicalManifestBytes unicodeToLower (Some mf)) as [e|payload] eqn:Ec;
    [discriminate|].
  inversion Hsign as [Hs]. exists payload. split; [reflexivity|].
  split; [exact Ec|].
  unfold Verify. cbn [withSignature Digest Signature Signer]. rewrite Hblock.
  rewrite Hs.
  destruct (String.eqb_spec sig "") as [E|_]; [contradiction|].
  destruct (String.eqb_spec (Signer mf) "") as [E|_]; [contradiction|].
  cbn [orb]. rewrite Hkey. rewrite <- Hs, Hb64, Hsig. reflexivity.
Qed.

(** X17.  [Verify] accepts a manifest exactly when its digest is not
    blocked and either it is unsigned (no signature or no signer) and the
    store allows unsigned manifests, or it is signed, the signer's key is
    registered, the signature decodes and verifies for the hash of the
    payload.  In particular a new trust store accepts no manifest at all,
    and allowing unsigned manifests changes nothing for a manifest that
    names both a signature and a signer. *)
Theorem Verify_accepts (t : @TrustStore PublicKey) (mf : Manifest) (payload : list ascii) :
  (Verify' (Some t) (Some mf) payload = None
   <-> isDigestBlocked unicodeToLower t (Digest mf) = false
       /\ (((Signature mf = "" \/ Signer mf = "") /\ allowUnsigned t = true)
           \/ (Signature mf <> "" /\ Signer mf <> ""
               /\ exists key sigBytes,
                    keys t !! Signer mf = Some key
                    /\ base64_Decode (Signature mf) = Some sigBytes
                    /\ ed25519_Verify key (sha256 payload) sigBytes = true)))
  /\ Verify' (Some NewTrustStore) (Some mf) payload <> None
  /\ (forall allow, Signature mf <> "" -> Signer mf <> "" ->
        Verify' (Some (AllowUnsigned t allow)) (Some mf) payload
        = Verify' (Some t) (Some mf) payload).
Proof.
  split; [|split].
  - unfold Verify.
    destruct (isDigestBlocked unicodeToLower t (Digest mf)).
    { split; [discriminate|]. intros (H & _). discriminate. }
    destruct (String.eqb (Signature mf) "" || String.eqb (Signer mf) "") eqn:Eu.
    { assert (Hu : Signature mf = "" \/ Signer mf = "").
      { apply orb_true_iff in Eu as [E|E]; apply String.eqb_eq in E; auto. }
      destruct (allowUnsigned t).
      - split; [intros _|reflexivity]. split; [reflexivity|]. left. auto.
      - split; [discriminate|].
        intros (_ & [(_ & H)|(H1 & H2 & _)]); [discriminate|].
        destruct Hu; contradiction. }
    apply orb_false_iff in Eu as [Es Er].
    apply String.eqb_neq in Es, Er.
    destruct (keys t !! Signer mf) as [key|] eqn:Ek.
    + destruct (base64_Decode (Signature mf)) as [sigBytes|] eqn:Ed.
      * destruct (ed25519_Verify key (sha256 payload) sigBytes) eqn:Ev.
        -- split; [intros _|reflexivity]. split; [reflexivity|]. right.
           repeat split; auto. exists key, sigBytes. auto.
        -- split; [discriminate|].
           intros (_ & [([H|H] & _)|(_ & _ & k & sb & H1 & H2 & H3)]);
             try contradiction. congruence.
      * split; [discriminate|].
        intros (_ & [([H|H] & _)|(_ & _ & k & sb & H1 & H2 & H3)]);
          try contradiction. congruence.
    + split; [discriminate|].
      intros (_ & [([H|H] & _)|(_ & _ & k & sb & H1 & H2 & H3)]);
        try contradiction. congruence.
  - unfold Verify, NewTrustStore, isDigestBlocked. cbn [blockedDigests allowUnsigned keys].
    rewrite bool_decide_eq_false_2 by set_solver.
    destruct (_ || _); [discriminate|]. rewrite lookup_empty. discriminate.
  - intros allow Hs Hr. unfold Verify, isDigestBlocked.
    cbn [AllowUnsigned blockedDigests keys allowUnsigned].
    destruct (bool_decide _); [reflexivity|].
    destruct (String.eqb_spec (Signature mf) "") as [E|_]; [contradiction|].
    destruct (String.eqb_spec (Signer mf) "") as [E|_]; [contradiction|].
    reflexivity.
Qed.

(** X18.  [BlockDigest] revokes for good and without regard to case: after
    it, whatever keys are registered, whatever is allowed and whatever
    else is blocked later, [Verify] rejects every manifest whose digest is
    the blocked one up to [strings.ToLower], signed or not, with the
    blocked-digest error. *)
Theorem blocked_digest_stays_blocked (t : @TrustStore PublicKey) (digest : string)
    (ops : list (@storeOp PublicKey)) (mf : Manifest) (payload : list ascii) :
  ToLower unicodeToLower (Digest mf) = ToLower unicodeToLower digest ->
  Verify' (Some (applyOps unicodeToLower ops (BlockDigest unicodeToLower t digest)))
    (Some mf) payload
  = Some (ErrDigestBlocked (Digest mf)).
Proof.
  intros Hd. unfold Verify.
  rewrite applyOps_blocked; [reflexivity|]. apply BlockDigest_blocked, Hd.
Qed.

End TrustExtras.

(** ** The marketplace requests *)
Section MarketplaceFacts.
Import GoLib Marketplace.

Lemma splitBytes_nonempty sep s : splitBytes sep s <> [].
Proof.
  destruct s as [|c s]; cbn [splitBytes]; [discriminate|].
  destruct (Ascii.eqb c sep); [discriminate|].
  destruct (splitBytes sep s); discriminate.
Qed.

Lemma splitBytes_inv sep : forall s a rest,
  splitBytes sep s = a :: rest ->
  (sep ∉ a)
  /\ ((rest = [] /\ s = a)
      \/ (exists r, s = a ++ sep :: r /\ splitBytes sep r = rest)).
Proof.
  induction s as [|c s IH]; intros a rest H; cbn [splitBytes] in H.
  - inversion H; subst. split; [apply not_elem_of_nil | left; auto].
  - destruct (Ascii.eqb_spec c sep) as [E|E].
    + inversion H; subst. split; [apply not_elem_of_nil|].
      right. exists s. auto.
    + destruct (splitBytes sep s) as [|piece pieces] eqn:Es.
      * exfalso. exact (splitBytes_nonempty _ _ Es).
      * inversion H; subst.
        destruct (IH piece rest eq_refl) as (Hn & [(Hr & Hs)|(r & Hs & Hr)]).
        -- subst. split; [|left; auto].
           rewrite not_elem_of_cons. auto.
        -- subst s. split; [rewrite not_elem_of_cons; auto|].
           right. exists r. auto.
Qed.

Lemma splitBytes_cons sep : forall a r,
  sep ∉ a -> splitBytes sep (a ++ sep :: r) = a :: splitBytes sep r.
Proof.
  induction a as [|c a IH]; intros r Hn; cbn [app splitBytes].
  - rewrite (proj2 (Ascii.eqb_eq sep sep) eq_refl). reflexivity.
  - apply not_elem_of_cons in Hn as [Hc Ha].
    destruct (Ascii.eqb_spec c sep) as [E|_]; [congruence|].
    rewrite (IH r Ha). reflexivity.
Qed.

Lemma splitBytes_single sep : forall a, sep ∉ a -> splitBytes sep a = [a].
Proof.
  induction a as [|c a IH]; intros Hn; cbn [splitBytes]; [reflexivity|].
  apply not_elem_of_cons in Hn as [Hc Ha].
  destruct (Ascii.eqb_spec c sep) as [E|_]; [congruence|].
  rewrite (IH Ha). reflexivity.
Qed.

(** Exactly two pieces: one occurrence of the separator. *)
Lemma splitBytes_two sep s a b :
  splitBytes sep s = [a; b] <-> s = a ++ sep :: b /\ (sep ∉ a) /\ (sep ∉ b).
Proof.
  split.
  - intros H. apply splitBytes_inv in H as (Ha & [(Hr & _)|(r & Hs & Hr)]);
      [discriminate|].
    apply splitBytes_inv in Hr as (Hb & [(_ & Hr)|(r' & _ & Hr)]).
    + subst. auto.
    + exfalso. exact (splitBytes_nonempty _ _ Hr).
  - intros (Hs & Ha & Hb). subst s.
    rewrite (splitBytes_cons _ _ _ Ha), (splitBytes_single _ _ Hb). reflexivity.
Qed.

Lemma string_of_list_ascii_inj (l1 l2 : list ascii) :
  string_of_list_ascii l1 = string_of_list_ascii l2 -> l1 = l2.
Proof.
  intros H. rewrite <- (list_ascii_of_string_of_list_ascii l1),
    <- (list_ascii_of_string_of_list_ascii l2), H. reflexivity.
Qed.

Lemma Split_two (s : string) (sep : ascii) (a b : string) :
  Split s sep = [a; b]
  <-> s = String.append a (String sep b)
      /\ (sep ∉ list_ascii_of_string a) /\ (sep ∉ list_ascii_of_string b).
Proof.
  unfold Split. split.
  - intros H.
    destruct (splitBytes sep (list_ascii_of_string s)) as [|x [|y [|z l]]] eqn:E;
      cbn [map] in H; try discriminate.
    inversion H; subst a b. apply splitBytes_two in E as (Hs & Ha & Hb).
    rewrite !list_ascii_of_string_of_list_ascii. split; [|auto].
    rewrite <- (string_of_list_ascii_of_string s), Hs.
    rewrite <- (string_of_list_ascii_of_string
                  (String.append (string_of_list_ascii x) (String sep (string_of_list_ascii y)))).
    rewrite list_ascii_of_string_append. cbn [list_ascii_of_string].
    rewrite !list_ascii_of_string_of_list_ascii. reflexivity.
  - intros (Hs & Ha & Hb). subst s. rewrite list_ascii_of_string_append.
    cbn [list_ascii_of_string].
    rewrite (proj2 (splitBytes_two sep _ (list_ascii_of_string a) (list_ascii_of_string b)))
      by auto.
    cbn [map]. rewrite !string_of_list_ascii_of_string. reflexivity.
Qed.

(** The bytes of a trimmed text are bytes of the text. *)
Lemma TrimSpace_bytes (s : string) (c : ascii) :
  c ∈ list_ascii_of_string (TrimSpace s) -> c ∈ list_ascii_of_string s.
Proof.
  unfold TrimSpace. rewrite list_ascii_of_string_of_list_ascii.
  set (l := list_ascii_of_string s).
  destruct (trimLeftSpace_result (length l) l (Nat.le_refl _)) as ((k & Hk) & _).
  set (l1 := trimLeftSpace (length l) l) in *.
  destruct (trimRightSpace_result (length l1) (rev l1)) as ((k' & Hk') & _).
  { rewrite length_rev. lia. }
  rewrite Hk', skipn_rev, rev_involutive, Hk.
  intros H. apply elem_of_take in H as (i & H & _).
  rewrite lookup_drop in H. apply list_elem_of_lookup_2 in H. exact H.
Qed.

Lemma groupEntries_ok : forall entries g0 g,
  groupEntries entries g0 = inr g ->
  (forall key, (key, true) ∈ entries -> exists pm, parsePluginKey key = inr pm)
  /\ (forall market,
        g !! market
        = match requestedFrom market entries with
          | [] => g0 !! market
          | l => Some (default [] (g0 !! market) ++ l)
          end).
Proof.
  induction entries as [|[key on] entries IH]; intros g0 g H; cbn [groupEntries] in H.
  - inversion H; subst. split; [intros key Hk; inversion Hk | reflexivity].
  - destruct on; cbn [negb] in H.
    + destruct (parsePluginKey key) as [err|[plugin m]] eqn:Ep; [discriminate|].
      apply IH in H as (H1 & H2). split.
      * intros k Hk. apply elem_of_cons in Hk as [E|Hk]; [|auto].
        inversion E; subst. eauto.
      * intros market. rewrite H2. unfold requestedFrom. cbn [omap list_omap fst snd].
        rewrite Ep. fold (requestedFrom market entries).
        destruct (String.eqb_spec m market) as [E|E].
        -- subst m. rewrite lookup_insert_eq. cbn [default].
           destruct (requestedFrom market entries) as [|x l]; cbn [app].
           ++ destruct (g0 !! market); reflexivity.
           ++ unfold id. rewrite <- app_assoc. reflexivity.
        -- rewrite lookup_insert_ne by exact E. reflexivity.
    + apply IH in H as (H1 & H2). split.
      * intros k Hk. apply elem_of_cons in Hk as [E|Hk]; [discriminate|auto].
      * intros market. rewrite H2. reflexivity.
Qed.

Lemma groupEntries_err : forall entries g0 err,
  groupEntries entries g0 = inl err ->
  exists key, (key, true) ∈ entries /\ parsePluginKey key = inl err.
Proof.
  induction entries as [|[key on] entries IH]; intros g0 err H; cbn [groupEntries] in H.
  - discriminate.
  - destruct on; cbn [negb] in H.
    + destruct (parsePluginKey key) as [e|[plugin m]] eqn:Ep.
      * inversion H; subst. exists key. split; [left | exact Ep].
      * apply IH in H as (k & Hk & E). exists k. split; [right; exact Hk | exact E].
    + apply IH in H as (k & Hk & E). exists k. split; [right; exact Hk | exact E].
Qed.

Lemma groupEntries_total : forall entries g0,
  (forall key, (key, true) ∈ entries -> exists pm, parsePluginKey key = inr pm) ->
  exists g, groupEntries entries g0 = inr g.
Proof.
  induction entries as [|[key on] entries IH]; intros g0 H; cbn [groupEntries].
  - eauto.
  - destruct on; cbn [negb].
    + destruct (H key ltac:(left)) as ([p m] & Ep). rewrite Ep.
      apply IH. intros k Hk. apply H. right. exact Hk.
    + apply IH. intros k Hk. apply H. right. exact Hk.
Qed.

Lemma requestedFrom_elem market entries p :
  p ∈ requestedFrom market entries
  <-> exists key, (key, true) ∈ entries /\ parsePluginKey key = inr (p, market).
Proof.
  unfold requestedFrom. rewrite list_elem_of_omap. split.
  - intros ([key on] & Hin & H). cbn [fst snd] in H.
    destruct on; [|discriminate].
    destruct (parsePluginKey key) as [|[q m]] eqn:Ep; [discriminate|].
    destruct (String.eqb_spec m market); [|discriminate].
    inversion H; subst. eauto.
  - intros (key & Hin & Ep). exists (key, true). split; [exact Hin|].
    cbn [fst snd]. rewrite Ep, String.eqb_refl. reflexivity.
Qed.

(** The elements of a filtered list, in the terms of [elem_of]. *)
Lemma elem_of_List_filter {A} (f : A -> bool) (l : list A) (x : A) :
  x ∈ List.filter f l <-> x ∈ l /\ f x = true.
Proof. rewrite !list_elem_of_In. apply filter_In. Qed.

End MarketplaceFacts.

Section MarketplaceExtras.
Import GoLib Marketplace ClaudePlugins.
#[local] Existing Instance string_le_trans.
#[local] Existing Instance string_le_total.
#[local] Existing Instance string_le_antisym.

(** X19.  [parsePluginKey] accepts exactly the keys that, once trimmed,
    consist of two parts around a single [@], neither of them blank, and
    returns the trimmed parts.  The parts it returns hold no [@], are
    trimmed and not empty, and joined by [@] they parse to themselves. *)
Theorem parsePluginKey_spec (key plugin market : string) :
  (parsePluginKey key = inr (plugin, market)
   <-> exists a b,
         TrimSpace key = String.append a (String "@" b)
         /\ ("@"%char ∉ list_ascii_of_string a)
         /\ ("@"%char ∉ list_ascii_of_string b)
         /\ plugin = TrimSpace a /\ market = TrimSpace b
         /\ plugin <> "" /\ market <> "")
  /\ (parsePluginKey key = inr (plugin, market) ->
      ("@"%char ∉ list_ascii_of_string plugin)
      /\ ("@"%char ∉ list_ascii_of_string market)
      /\ TrimSpace plugin = plugin /\ TrimSpace market = market
      /\ plugin <> "" /\ market <> ""
      /\ parsePluginKey (String.append plugin (String "@" market))
         = inr (plugin, market)).
Proof.
  assert (Hiff : parsePluginKey key = inr (plugin, market)
                 <-> exists a b,
                       TrimSpace key = String.append a (String "@" b)
                       /\ ("@"%char ∉ list_ascii_of_string a)
                       /\ ("@"%char ∉ list_ascii_of_string b)
                       /\ plugin = TrimSpace a /\ market = TrimSpace b
                       /\ plugin <> "" /\ market <> "").
  { unfold parsePluginKey. split.
    - intros H.
      destruct (Split (TrimSpace key) "@") as [|a [|b [|c l]]] eqn:E; try discriminate.
      apply Split_two in E as (E1 & E2 & E3).
      destruct (String.eqb_spec (TrimSpace a) "") as [Ea|Ea]; [discriminate|].
      destruct (String.eqb_spec (TrimSpace b) "") as [Eb|Eb]; [discriminate|].
      cbn [orb] in H. inversion H; subst. exists a, b. auto 10.
    - intros (a & b & E1 & E2 & E3 & Hp & Hm & Hpn & Hmn).
      rewrite (proj2 (Split_two (TrimSpace key) "@" a b)) by auto.
      subst plugin market.
      destruct (String.eqb_spec (TrimSpace a) "") as [Ea|Ea]; [contradiction|].
      destruct (String.eqb_spec (TrimSpace b) "") as [Eb|Eb]; [contradiction|].
      reflexivity. }
  split; [exact Hiff|].
  intros H. apply Hiff in H as (a & b & E1 & E2 & E3 & Hp & Hm & Hpn & Hmn).
  assert (Hp1 : "@"%char ∉ list_ascii_of_string plugin)
    by (subst plugin; intros Hc; apply E2; apply TrimSpace_bytes; exact Hc).
  assert (Hm1 : "@"%char ∉ list_ascii_of_string market)
    by (subst market; intros Hc; apply E3; apply TrimSpace_bytes; exact Hc).
  assert (Hp2 : TrimSpace plugin = plugin) by (subst plugin; apply TrimSpace_idemp).
  assert (Hm2 : TrimSpace market = market) by (subst market; apply TrimSpace_idemp).
  repeat split; auto.
  unfold parsePluginKey.
  rewrite (TrimSpace_join plugin market Hp2 Hpn Hm2 Hmn).
  rewrite (proj2 (Split_two _ "@" plugin market)) by auto.
  rewrite Hp2, Hm2.
  destruct (String.eqb_spec plugin "") as [Ea|Ea]; [contradiction|].
  destruct (String.eqb_spec market "") as [Eb|Eb]; [contradiction|].
  reflexivity.
Qed.

(** X20.  [groupRequestedPlugins] does not depend on the order in which
    [range] yields the entries of the map: in any order it succeeds
    exactly when every key that is switched on parses (a key that is
    switched off is never parsed, so it may be malformed), an error is the
    parse error of a key that is switched on, and on success the result is
    the same map in every order: under each marketplace the plugins
    requested from it by the keys switched on, sorted, and no marketplace
    without a request. *)
Theorem groupRequestedPlugins_order_free (enabled : gmap string bool)
    (order : list (string * bool)) :
  order ≡ₚ map_to_list enabled ->
  ((exists g, groupRequested order = inr g)
   <-> forall key, enabled !! key = Some true ->
                   exists pm, parsePluginKey key = inr pm)
  /\ (forall err, groupRequested order = inl err ->
        exists key, enabled !! key = Some true /\ parsePluginKey key = inl err)
  /\ (forall g, groupRequested order = inr g ->
        groupRequestedPlugins enabled = inr g
        /\ (forall market plugins, g !! market = Some plugins ->
              plugins <> [] /\ Sorted string_le plugins
              /\ (forall p, p ∈ plugins
                            <-> exists key, enabled !! key = Some true
                                            /\ parsePluginKey key = inr (p, market)))).
Proof.
  intros Hperm.
  assert (Hin : forall key on, (key, on) ∈ order <-> enabled !! key = Some on).
  { intros key on. rewrite Hperm. apply elem_of_map_to_list. }
  assert (Hin' : forall key on,
            (key, on) ∈ map_to_list enabled <-> enabled !! key = Some on).
  { intros key on. apply elem_of_map_to_list. }
  split; [|split].
  - unfold groupRequested. split.
    + intros (g & H) key Hk.
      destruct (groupEntries order ∅) as [|g1] eqn:E; [discriminate|].
      apply groupEntries_ok in E as (E1 & _). apply E1. apply Hin. exact Hk.
    + intros H. destruct (groupEntries_total order ∅) as (g1 & E).
      { intros key Hk. apply H. apply Hin. exact Hk. }
      rewrite E. eauto.
  - unfold groupRequested. intros err H.
    destruct (groupEntries order ∅) as [e|g1] eqn:E; [|discriminate].
    inversion H; subst e. apply groupEntries_err in E as (key & Hk & Ep).
    exists key. split; [apply Hin; exact Hk | exact Ep].
  - unfold groupRequestedPlugins, groupRequested. intros g H.
    destruct (groupEntries order ∅) as [|g1] eqn:E1; [discriminate|].
    inversion H; subst g; clear H.
    pose proof (groupEntries_ok _ _ _ E1) as (Hok & Hg1).
    destruct (groupEntries_total (map_to_list enabled) ∅) as (g2 & E2).
    { intros key Hk. apply Hok. apply Hin. apply Hin'. exact Hk. }
    pose proof (groupEntries_ok _ _ _ E2) as (_ & Hg2).
    rewrite E2.
    assert (Hreq : forall market,
              requestedFrom market order ≡ₚ requestedFrom market (map_to_list enabled)).
    { intros market. unfold requestedFrom. rewrite Hperm. reflexivity. }
    split.
    + f_equal. apply map_eq. intros market. rewrite !lookup_fmap, Hg1, Hg2.
      rewrite !lookup_empty. cbn [default app].
      pose proof (Hreq market) as Hp.
      destruct (requestedFrom market order) as [|x l] eqn:Ea.
      * apply Permutation.Permutation_nil in Hp. rewrite Hp. reflexivity.
      * destruct (requestedFrom market (map_to_list enabled)) as [|y l'] eqn:Eb.
        -- symmetry in Hp. apply Permutation.Permutation_nil in Hp. discriminate.
        -- cbn [fmap option_fmap option_map]. f_equal.
           apply sortStrings_Permutation. symmetry. exact Hp.
    + intros market plugins Hm. rewrite lookup_fmap, Hg1, lookup_empty in Hm.
      cbn [default app] in Hm.
      destruct (requestedFrom market order) as [|x l] eqn:Ea; [discriminate|].
      cbn [fmap option_fmap option_map] in Hm. inversion Hm; subst plugins; clear Hm.
      split; [|split].
      * intros En. apply (f_equal length) in En.
        unfold sortStrings in En. rewrite merge_sort_Permutation in En. discriminate.
      * unfold sortStrings. apply Sorted_merge_sort. apply _.
      * intros p. unfold sortStrings. rewrite merge_sort_Permutation, <- Ea.
        rewrite requestedFrom_elem. split; intros (key & Hk & Ep); exists key;
          (split; [apply Hin; exact Hk | exact Ep]).
Qed.

(** X21.  [FilterEnabledPlugins] keeps the plugins in their order and
    drops only what the settings switch off: with an empty map the list
    comes back as it is; otherwise the result holds exactly the plugins
    of the input that are not nil and whose name is not mapped to false
    (a name that is not mentioned stays), and filtering again changes
    nothing. *)
Theorem FilterEnabledPlugins_spec (plugins : list (option ClaudePlugin))
    (enabledPlugins : gmap string bool) :
  sublist (FilterEnabledPlugins plugins enabledPlugins) plugins
  /\ (size enabledPlugins = 0%nat ->
      FilterEnabledPlugins plugins enabledPlugins = plugins)
  /\ (size enabledPlugins <> 0%nat ->
      forall p, p ∈ FilterEnabledPlugins plugins enabledPlugins
                <-> p ∈ plugins
                    /\ exists q, p = Some q /\ enabledPlugins !! Name q <> Some false)
  /\ FilterEnabledPlugins (FilterEnabledPlugins plugins enabledPlugins) enabledPlugins
     = FilterEnabledPlugins plugins enabledPlugins.
Proof.
  unfold FilterEnabledPlugins.
  destruct (Nat.eqb_spec (size enabledPlugins) 0) as [Hz|Hz].
  - repeat split; try reflexivity; try contradiction.
  - split; [|split; [|split]].
    + induction plugins as [|p ps IH]; cbn [List.filter]; [constructor|].
      destruct (match p with Some _ => _ | None => _ end);
        [apply sublist_skip | apply sublist_cons]; exact IH.
    + intros E. contradiction.
    + intros _ p. rewrite elem_of_List_filter. split.
      * intros (Hin & H). split; [exact Hin|]. destruct p as [q|]; [|discriminate].
        exists q. split; [reflexivity|].
        destruct (enabledPlugins !! Name q) as [[|]|]; congruence.
      * intros (Hin & q & -> & H). split; [exact Hin|].
        destruct (enabledPlugins !! Name q) as [[|]|]; congruence.
    + induction plugins as [|p ps IH]; cbn [List.filter]; [reflexivity|].
      destruct (match p with Some _ => _ | None => _ end) eqn:E; [|exact IH].
      cbn [List.filter]. rewrite E, IH. reflexivity.
Qed.

End MarketplaceExtras.

(** ** The middleware example *)
Section MiddlewareFacts.
Import GoLib Middleware.

Lemma hasPrefixBytes_spec : forall pfx s,
  hasPrefixBytes pfx s = true <-> exists post, s = pfx ++ post.
Proof.
  induction pfx as [|p pfx IH]; intros s; cbn [hasPrefixBytes].
  - split; [intros _; exists s; reflexivity | reflexivity].
  - destruct s as [|c s].
    + split; [discriminate|]. intros (post & H). discriminate.
    + rewrite andb_true_iff, IH. split.
      * intros (E & post & ->). apply Ascii.eqb_eq in E. subst. exists post. reflexivity.
      * intros (post & H). inversion H; subst. split; [apply Ascii.eqb_refl | eauto].
Qed.

(** [strings.Contains]: the text holds the other one as a run of
    consecutive bytes. *)
Lemma containsBytes_spec : forall s substr,
  containsBytes s substr = true <-> exists pre post, s = pre ++ substr ++ post.
Proof.
  induction s as [|c s IH]; intros substr; cbn [containsBytes].
  - rewrite orb_false_r, hasPrefixBytes_spec. split.
    + intros (post & H). exists [], post. exact H.
    + intros (pre & post & H). symmetry in H.
      apply app_eq_nil in H as [-> H]. apply app_eq_nil in H as [-> ->].
      exists []. reflexivity.
  - rewrite orb_true_iff, hasPrefixBytes_spec, IH. split.
    + intros [(post & H)|(pre & post & H)].
      * exists [], post. exact H.
      * exists (c :: pre), post. rewrite H. reflexivity.
    + intros (pre & post & H). destruct pre as [|c' pre].
      * left. exists post. exact H.
      * right. inversion H; subst. eauto.
Qed.

End MiddlewareFacts.

Section MiddlewareExtras.
Import GoLib Middleware.
Variable unicodeToLower : Z -> Z.

(** The phrase occurs in the text, both in lower case. *)
Local Abbreviation occurs s b :=
  (exists pre post,
     list_ascii_of_string (ToLower unicodeToLower s)
     = pre ++ list_ascii_of_string (ToLower unicodeToLower b) ++ post).

Lemma Contains_occurs s b :
  Contains (ToLower unicodeToLower s) (ToLower unicodeToLower b) = true <-> occurs s b.
Proof. unfold Contains. apply containsBytes_spec. Qed.

(** X22.  [detect] reports the first blocked phrase, in the order of the
    list, that occurs in the text when both are put in lower case, and the
    empty text when none does.  So a report that is not empty names a
    phrase of the list that occurs; and when the list holds no empty
    phrase, as the default list of [newSecurityMiddleware] does not, the
    report is empty exactly when no phrase of the list occurs. *)
Theorem detect_spec (m : securityMiddleware) (s : string) :
  (detect unicodeToLower m s <> "" ->
   detect unicodeToLower m s ∈ blocked m /\ occurs s (detect unicodeToLower m s))
  /\ (forall before b after,
        blocked m = before ++ b :: after -> occurs s b ->
        (forall b', b' ∈ before -> ~ occurs s b') ->
        detect unicodeToLower m s = b)
  /\ (("" : string) ∉ blocked m ->
      (detect unicodeToLower m s = "" <-> forall b, b ∈ blocked m -> ~ occurs s b))
  /\ blocked (newSecurityMiddleware []) = ["drop table"; "rm -rf"; "system.exit"]
  /\ (forall l, l <> [] -> blocked (newSecurityMiddleware l) = l).
Proof.
  unfold detect.
  split; [|split; [|split; [|split]]].
  - destruct (List.find _ (blocked m)) as [b|] eqn:E; [|intros H; contradiction].
    intros _. apply find_some in E as (Hin & Hc).
    split; [apply list_elem_of_In; exact Hin | apply Contains_occurs; exact Hc].
  - intros before b after Hb Ho Hbefore. rewrite Hb. clear Hb.
    induction before as [|b0 before IH]; cbn [app List.find].
    + rewrite (proj2 (Contains_occurs s b) Ho). reflexivity.
    + destruct (Contains _ (ToLower unicodeToLower b0)) eqn:E.
      * exfalso. apply (Hbefore b0); [left|]. apply Contains_occurs. exact E.
      * apply IH. intros b' Hb'. apply Hbefore. right. exact Hb'.
  - intros Hne. destruct (List.find _ (blocked m)) as [b|] eqn:E.
    + apply find_some in E as (Hin & Hc). apply list_elem_of_In in Hin. split.
      * intros ->. contradiction.
      * intros H. exfalso. apply (H b Hin). apply Contains_occurs. exact Hc.
    + split; [intros _|reflexivity]. intros b Hb Ho.
      pose proof (find_none _ _ E b (proj1 (list_elem_of_In _ _) Hb)) as Hf.
      cbv beta in Hf. rewrite (proj2 (Contains_occurs s b) Ho) in Hf. discriminate.
  - reflexivity.
  - intros l Hl. destruct l; [contradiction | reflexivity].
Qed.

(** The flags stored in the state. *)
Local Abbreviation flagsOf st :=
  (match valuesOf st !! securityFlagsKey with
   | Some (AnyStrings l) => l
   | _ => []
   end).

(** X23.  The security hooks and the flags.  [BeforeAgent] returns [nil]
    exactly when the agent context is there, its prompt is a string that
    is not empty, [detect] reports nothing and the value map is not nil;
    the flags are then exactly "prompt validated", whatever was stored
    before.  With a nil value map such a prompt makes the hook panic.
    [BeforeTool] returns [nil] exactly when the call has a query that is
    not blank and the value map is not nil, and then appends "tool params
    ok" to the flags.  A hook that returns an error leaves the state as it
    was. *)
Theorem security_flags (m : securityMiddleware) (st : State) :
  (forall st',
     securityBeforeAgent unicodeToLower m st = Returned None st'
     <-> exists ctx vals,
           Agent st = Some ctx /\ Values st = Some vals
           /\ readString (CtxValues ctx) promptKey <> ""
           /\ detect unicodeToLower m (readString (CtxValues ctx) promptKey) = ""
           /\ st' = setValues st
                      (<[securityFlagsKey := AnyStrings ["prompt validated"]]> vals))
  /\ (securityBeforeAgent unicodeToLower m st = Panicked
      <-> exists ctx,
            Agent st = Some ctx /\ Values st = None
            /\ readString (CtxValues ctx) promptKey <> ""
            /\ detect unicodeToLower m (readString (CtxValues ctx) promptKey) = "")
  /\ (forall st',
        securityBeforeTool m st = Returned None st'
        <-> exists vals,
              Values st = Some vals
              /\ TrimSpace (readString
                   (Input (default {| CallName := ""; Input := ∅ |} (ToolCall_ st)))
                   "query") <> ""
              /\ st' = setValues st
                         (<[securityFlagsKey
                            := AnyStrings (flagsOf st ++ ["tool params ok"])]> vals))
  /\ (forall e st',
        securityBeforeAgent unicodeToLower m st = Returned (Some e) st'
        \/ securityBeforeTool m st = Returned (Some e) st'
        \/ securityAfterModel unicodeToLower m st = Returned (Some e) st'
        \/ securityAfterTool unicodeToLower m st = Returned (Some e) st' ->
        st' = st).
Proof.
  split; [|split; [|split]].
  - intros st'. unfold securityBeforeAgent.
    destruct (Agent st) as [ctx|].
    2: { split; [discriminate|]. intros (? & ? & H & _). discriminate. }
    destruct (String.eqb_spec (readString (CtxValues ctx) promptKey) "") as [Ep|Ep].
    { split; [discriminate|]. intros (c & ? & H & _ & Hn & _).
      inversion H; subst. contradiction. }
    destruct (String.eqb_spec (detect unicodeToLower m (readString (CtxValues ctx) promptKey)) "")
      as [Ed|Ed]; cbn [negb].
    2: { split; [discriminate|]. intros (c & ? & H & _ & _ & Hd & _).
         inversion H; subst. contradiction. }
    destruct (Values st) as [vals|] eqn:Ev.
    2: { split; [discriminate|]. intros (? & ? & _ & H & _). discriminate. }
    unfold noteFlag, valuesOf. cbn [setValues Values default].
    unfold id. rewrite lookup_insert_eq. cbn [app]. rewrite insert_insert_eq.
    split.
    + intros H. inversion H; subst. exists ctx, vals. repeat split; auto.
    + intros (c & v & Hc & Hv & _ & _ & ->). inversion Hc; inversion Hv; subst.
      reflexivity.
  - unfold securityBeforeAgent.
    destruct (Agent st) as [ctx|].
    2: { split; [discriminate|]. intros (? & H & _). discriminate. }
    destruct (String.eqb_spec (readString (CtxValues ctx) promptKey) "") as [Ep|Ep].
    { split; [discriminate|]. intros (c & H & _ & Hn & _).
      inversion H; subst. contradiction. }
    destruct (String.eqb_spec (detect unicodeToLower m (readString (CtxValues ctx) promptKey)) "")
      as [Ed|Ed]; cbn [negb].
    2: { split; [discriminate|]. intros (c & H & _ & _ & Hd).
         inversion H; subst. contradiction. }
    destruct (Values st) as [vals|] eqn:Ev.
    + unfold noteFlag. cbn [setValues Values]. split; [discriminate|].
      intros (? & _ & H & _). discriminate.
    + split; [intros _|reflexivity]. exists ctx. auto.
  - intros st'. unfold securityBeforeTool.
    destruct (String.eqb_spec
                (TrimSpace (readString
                   (Input (default {| CallName := ""; Input := ∅ |} (ToolCall_ st)))
                   "query")) "") as [Eq|Eq].
    { split; [discriminate|]. intros (? & _ & H & _). contradiction. }
    unfold noteFlag. destruct (Values st) as [vals|] eqn:Ev.
    + split.
      * intros H. inversion H; subst. exists vals. auto.
      * intros (v & Hv & _ & ->). inversion Hv; subst. reflexivity.
    + split; [discriminate|]. intros (? & H & _). discriminate.
  - intros e st' [H|[H|[H|H]]].
    + unfold securityBeforeAgent in H.
      destruct (Agent st) as [ctx|]; [|inversion H; reflexivity].
      destruct (String.eqb _ ""); [inversion H; reflexivity|].
      destruct (negb _); [inversion H; reflexivity|].
      destruct (Values st) as [vals|]; [|discriminate].
      unfold noteFlag in H. cbn [setValues Values] in H. discriminate.
    + unfold securityBeforeTool in H.
      destruct (String.eqb _ ""); [inversion H; reflexivity|].
      destruct (noteFlag st "tool params ok"); discriminate.
    + unfold securityAfterModel in H.
      destruct (ModelOutput_ st) as [out|]; [|discriminate].
      destruct (negb _); [inversion H; reflexivity | discriminate].
    + unfold securityAfterTool in H.
      destruct (negb _); [inversion H; reflexivity | discriminate].
Qed.

Lemma wrapInt_small z : - 2 ^ 63 <= z < 2 ^ 63 -> wrapInt z = z.
Proof. intros H. unfold wrapInt. rewrite Z.mod_small by lia. lia. Qed.

Lemma recordAll_threshold : forall latencies m,
  threshold (recordAll m latencies) = threshold m.
Proof.
  unfold recordAll.
  induction latencies as [|l ls IH]; intros m; cbn [fold_left]; [reflexivity|].
  rewrite IH. reflexivity.
Qed.

Lemma recordAll_snoc m latencies l :
  recordAll m (latencies ++ [l])
  = {| threshold := threshold (recordAll m latencies);
       metrics := record (metrics (recordAll m latencies)) l
                    (threshold (recordAll m latencies) <? l) |}.
Proof. unfold recordAll. rewrite fold_left_app. reflexivity. Qed.

(** X24.  The metrics of the monitoring middleware after any number of
    runs below 2^63: the total is the number of runs, the slow count is
    the number of runs whose latency exceeded the threshold and so at most
    the total, the maximum is the largest latency seen (zero when none was
    positive), the last latency is that of the last run, and [Snapshot]
    returns these four numbers.  [AfterAgent] records as latency the time
    since the start that [BeforeAgent] stored, or since the fallback
    reading when none is stored. *)
Theorem metrics_invariants (th : Z) (latencies : list Z) :
  Z.of_nat (length latencies) < 2 ^ 63 ->
  let m := recordAll (newMonitoringMiddleware th) latencies in
  Snapshot m
  = (Z.of_nat (length latencies),
     Z.of_nat (length (filter (fun l => th < l) latencies)),
     foldr Z.max 0 latencies,
     List.last latencies 0)
  /\ 0 <= slowRuns (metrics m) <= totalRuns (metrics m)
  /\ (forall l, l ∈ latencies -> l <= maxLatency (metrics m))
  /\ (forall st vals fallback now,
        Values st = Some vals ->
        monitoringAfterAgent m st fallback now
        = recordAll m [now - nowOr (vals !! "monitoring.start") fallback])
  /\ (forall st st' start fallback now,
        monitoringBeforeAgent m st start = Returned None st' ->
        monitoringAfterAgent m st' fallback now = recordAll m [now - start]).
Proof.
  intros Hlen m.
  assert (Hsnap : Snapshot m
                  = (Z.of_nat (length latencies),
                     Z.of_nat (length (filter (fun l => th < l) latencies)),
                     foldr Z.max 0 latencies,
                     List.last latencies 0)).
  { subst m. revert Hlen. induction latencies as [|l ls IH] using rev_ind; intros Hlen.
    - reflexivity.
    - rewrite length_app in Hlen. cbn [length] in Hlen.
      specialize (IH ltac:(lia)).
      rewrite recordAll_snoc, recordAll_threshold.
      unfold Snapshot in *. cbn [metrics record totalRuns slowRuns maxLatency lastRun
                                   newMonitoringMiddleware threshold] in *.
      inversion IH as [[H1 H2 H3 H4]]. rewrite H1, H2, H3.
      rewrite length_app, filter_app, length_app, last_last. cbn [length].
      assert (Hf : (length (filter (fun l => (th < l)%Z) ls) <= length ls)%nat)
        by apply length_filter.
      apply pair_equal_spec; split;
        [apply pair_equal_spec; split; [apply pair_equal_spec; split|]|];
        [| | |reflexivity].
      + rewrite wrapInt_small by lia. lia.
      + destruct (Z.ltb_spec th l) as [Ht|Ht].
        * rewrite filter_cons_True by exact Ht. cbn [filter list_filter length].
          rewrite wrapInt_small by lia. lia.
        * rewrite filter_cons_False by lia. cbn [filter list_filter length]. lia.
      + rewrite foldr_app. cbn [foldr].
        assert (Hmax : forall (xs : list Z) a b,
                  foldr Z.max (Z.max a b) xs = Z.max (foldr Z.max a xs) b).
        { induction xs as [|x xs IHx]; intros a b; cbn [foldr]; [reflexivity|].
          rewrite IHx. lia. }
        rewrite (Z.max_comm l 0), Hmax.
        destruct (Z.ltb_spec (foldr Z.max 0 ls) l); lia. }
  split; [exact Hsnap|].
  unfold Snapshot in Hsnap. inversion Hsnap as [[H1 H2 H3 H4]].
  split; [|split; [|split]].
  - rewrite H1, H2.
    pose proof (length_filter (fun l => th < l) latencies). lia.
  - intros l Hl. rewrite H3. clear -Hl.
    induction latencies as [|x xs IH]; [inversion Hl|].
    cbn [foldr]. apply elem_of_cons in Hl as [->|Hl]; [lia|].
    specialize (IH Hl). lia.
  - intros st vals fallback now Hv. unfold monitoringAfterAgent, valuesOf.
    rewrite Hv. reflexivity.
  - intros st st' start fallback now H. unfold monitoringBeforeAgent in H.
    destruct (Values st) as [vals|] eqn:Ev; [|discriminate].
    inversion H; subst st'.
    unfold monitoringAfterAgent, valuesOf. cbn [setValues Values default].
    unfold id. rewrite lookup_insert_eq. reflexivity.
Qed.

End MiddlewareExtras.

Section ManifestSamples.
Import GoLib Plugins Manifests Fixtures Samples.
#[local] Set Warnings "-clear-no-such-hyp".

Example normalizeList_sample :
  normalizeList [" b"; "a "; ""; "b"; "  "] = ["a"; "b"].
Proof. vm_compute. reflexivity. Qed.

Example LoadManifest_sample :
  exists mf,
    LoadManifest anySemver String.eqb toyHash toyVerify toyDecode toyLower demoHost
      "/plugins/demo/.claude-plugin/plugin.json" [WithRoot "/plugins"] = inr mf
    /\ Name mf = "demo" /\ Commands mf = ["build"; "run"]
    /\ Hooks mf = {[ "PreToolUse" := ["Bash"; "Edit"] ]}
    /\ PluginDir mf = "/plugins/demo" /\ Trusted mf = true.
Proof. eexists. split; [vm_compute; reflexivity|]. vm_compute. repeat split. Qed.

Lemma normalizeHookMap_order_free_witness :
  normalizeHookEntries (reverse (map_to_list rawHooks)) = normalizeHookMap rawHooks
  /\ normalizeHookMap rawHooks = {[ "PreToolUse" := ["Bash"; "Edit"] ]}.
Proof.
  split; [|vm_compute; reflexivity].
  apply (normalizeHookMap_order_free rawHooks (reverse (map_to_list rawHooks))).
  - apply reverse_Permutation.
  - intros k1 k2 H1 H2 E. apply elem_of_dom in H1 as [v1 H1], H2 as [v2 H2].
    unfold rawHooks in H1, H2.
    apply lookup_insert_Some in H1 as [[<- _]|[_ H1]];
      apply lookup_insert_Some in H2 as [[<- _]|[_ H2]];
      try reflexivity;
      try (apply lookup_singleton_Some in H1 as [<- _]);
      try (apply lookup_singleton_Some in H2 as [<- _]);
      try reflexivity; vm_compute in E; discriminate.
Defined.

Lemma digest_of_normalised_witness :
  computeManifestDigest toyHash (Some (normalizeManifest rawManifest))
  = computeManifestDigest toyHash (Some (normalizeManifest rawManifest')).
Proof.
  apply (digest_of_normalised toyHash rawManifest rawManifest');
    try (vm_compute; reflexivity).
  intros x Hx.
  replace (map TrimSpace (Commands rawManifest)) with ["run"; "build"; "run"]
    by (vm_compute; reflexivity).
  replace (map TrimSpace (Commands rawManifest')) with ["build"; "run"]
    by (vm_compute; reflexivity).
  replace (map TrimSpace (Agents rawManifest)) with (@nil string)
    by (vm_compute; reflexivity).
  replace (map TrimSpace (Agents rawManifest')) with [""]
    by (vm_compute; reflexivity).
  replace (map TrimSpace (Skills rawManifest)) with ["review"]
    by (vm_compute; reflexivity).
  replace (map TrimSpace (Skills rawManifest')) with ["review"; "review"]
    by (vm_compute; reflexivity).
  set_solver.
Defined.

Lemma LoadManifest_postconditions_witness :
  exists mf,
    LoadManifest anySemver String.eqb toyHash toyVerify toyDecode toyLower demoHost
      "/plugins/demo/.claude-plugin/plugin.json" [WithRoot "/plugins"] = inr mf
    /\ Trusted mf = true.
Proof.
  eexists. split; [vm_compute; reflexivity|].
  eapply (LoadManifest_postconditions anySemver String.eqb toyHash toyVerify toyDecode
            toyLower demoHost "/plugins/demo/.claude-plugin/plugin.json"
            [WithRoot "/plugins"]).
  vm_compute. reflexivity.
Defined.

End ManifestSamples.

Section TrustSamples.
Import GoLib Plugins TrustOps Fixtures Samples.

Lemma sign_then_verify_witness :
  exists sig payload,
    SignManifest toyHash toySign toyEncode toyLower (Some manifestA) 0%nat = inr sig
    /\ Verify toyHash toyVerify toyDecode toyLower
         (Some (Register NewTrustStore "dev" 0%nat))
         (Some (withSignature manifestA sig)) payload = None.
Proof.
  destruct (SignManifest toyHash toySign toyEncode toyLower (Some manifestA) 0%nat)
    as [e|sig] eqn:Es; [vm_compute in Es; discriminate|].
  destruct (sign_then_verify toyHash toySign toyVerify toyEncode toyDecode toyLower
              manifestA 0%nat 0%nat (Register NewTrustStore "dev" 0%nat) sig)
    as (payload & _ & _ & Hv).
  - intros msg. apply bool_decide_eq_true. reflexivity.
  - intros b. unfold toyDecode, toyEncode.
    rewrite list_ascii_of_string_of_list_ascii. reflexivity.
  - exact Es.
  - vm_compute in Es. inversion Es. discriminate.
  - discriminate.
  - reflexivity.
  - vm_compute. reflexivity.
  - exists sig, payload. split; [reflexivity | exact Hv].
Defined.

Lemma blocked_digest_stays_blocked_witness :
  Verify toyHash toyVerify toyDecode toyLower
    (Some (applyOps toyLower [OpAllowUnsigned true; OpRegister "dev" 0%nat]
             (BlockDigest toyLower NewTrustStore "ABCD")))
    (Some blockedManifest) []
  = Some (ErrDigestBlocked "abcd").
Proof.
  apply (blocked_digest_stays_blocked toyHash toyVerify toyDecode toyLower
           NewTrustStore "ABCD" [OpAllowUnsigned true; OpRegister "dev" 0%nat]
           blockedManifest []).
  vm_compute. reflexivity.
Defined.

End TrustSamples.

Section MarketplaceSamples.
Import GoLib Marketplace Fixtures.

Lemma groupRequestedPlugins_order_free_witness :
  groupRequested (reverse (map_to_list enabledSample))
  = inr {[ "core" := ["alpha"; "beta"]; "tools" := ["lint"] ]}
  /\ groupRequestedPlugins enabledSample
     = inr {[ "core" := ["alpha"; "beta"]; "tools" := ["lint"] ]}.
Proof.
  assert (H : groupRequested (reverse (map_to_list enabledSample))
              = inr {[ "core" := ["alpha"; "beta"]; "tools" := ["lint"] ]})
    by (vm_compute; reflexivity).
  split; [exact H|].
  destruct (groupRequestedPlugins_order_free enabledSample
              (reverse (map_to_list enabledSample)) (reverse_Permutation _))
    as (_ & _ & Hg).
  exact (proj1 (Hg _ H)).
Defined.

End MarketplaceSamples.

Section MiddlewareSamples.
Import GoLib Middleware.

Lemma metrics_invariants_witness :
  Snapshot (recordAll (newMonitoringMiddleware 250) [5; 300; 20; 251])
  = (4, 2, 300, 251).
Proof.
  exact (proj1 (metrics_invariants 250 [5; 300; 20; 251] eq_refl)).
Defined.

Example detect_sample :
  detect Samples.toyLower (newSecurityMiddleware []) "please RM -RF the disk" = "rm -rf"
  /\ detect Samples.toyLower (newSecurityMiddleware []) "list the files" = ""
  /\ detect Samples.toyLower {| blocked := [""; "rm -rf"] |} "rm -rf /" = "".
Proof. vm_compute. repeat split. Qed.

Example parsePluginKey_sample :
  Marketplace.parsePluginKey " lint @ tools " = inr ("lint", "tools")
  /\ Marketplace.parsePluginKey "lint" = inl (Marketplace.ErrKeyFormat "lint")
  /\ Marketplace.parsePluginKey "a@b@c" = inl (Marketplace.ErrKeyFormat "a@b@c")
  /\ Marketplace.parsePluginKey "@tools" = inl (Marketplace.ErrKeyParts "@tools").
Proof. vm_compute. repeat split. Qed.

End MiddlewareSamples.
